(** * edge-identity: the PKCS#11 bridge of [p11/p11.go]

    A shallow embedding of the token-facing core of edge-identity
    (package [p11]) and the properties its specification states about it.

    - [Go]      : the Go values the code computes with (byte slices, [big.Int],
                  [copy], slice expressions that can panic).
    - [pkcs11]  : the part of github.com/miekg/pkcs11 the code names: constants,
                  attributes, errors and the [TokenCtx] interface.
    - [p11]     : the functions of [p11/p11.go], written over an arbitrary
                  implementation of [TokenCtx].
    - [Traced]  : a [TokenCtx] that records the calls made to another one.
    - [MemToken]: an in-memory token, the implementation of [TokenCtx] used
                  for concrete runs.
    - [Library] : the rest of the [TokenCtx] interface (library, slots,
                  sessions, objects, encryption), with its record of calls.
    - [p11_session]    : [newP11Token], [openUserSession], [findSlotWithToken],
                  [Finalise], [Checksum] and [ImportKey].
    - [MemLib]  : the in-memory token inside an in-memory library.
    - [p11_mechanisms] : the flags that [PrintMechanisms] prints. *)

From Stdlib Require Import Strings.String Strings.Ascii Strings.Byte DecimalString.
From Stdlib Require Import ZArith List Bool Lia.
From Stdlib Require Import Sorting.Permutation Sorting.Sorted.
Import ListNotations.
Open Scope Z_scope.

(* ===================================================================== *)
(** * Go values *)
(* ===================================================================== *)

Module Go.

Definition byte_val (b : byte) : Z := Z.of_N (Byte.to_N b).

Definition byte_of_Z (z : Z) : byte :=
  match Byte.of_N (Z.to_N (z mod 256)) with
  | Some b => b
  | None => x00
  end.

Definition byte_eqb (a b : byte) : bool := Byte.eqb a b.

(** [make([]byte, n)] *)
Definition make (n : nat) : list byte := repeat x00 n.

(** [copy(dst, src)]: the first [min(len(dst), len(src))] bytes of [src]
    overwrite the start of [dst]; the rest of [dst] stays. *)
Definition copy (dst src : list byte) : list byte :=
  firstn (length dst) src ++ skipn (length src) dst.

(** [b[i]]: [None] is the run-time panic "index out of range". *)
Definition index {A : Type} (b : list A) (i : nat) : option A := nth_error b i.

(** [b[lo:hi]] on a slice whose capacity is its length: [None] is the
    run-time panic "slice bounds out of range". Go bounds [hi] by the
    capacity; a slice with spare capacity, which a list does not represent,
    can be cut beyond its length without a panic. *)
Definition slice {A : Type} (b : list A) (lo hi : nat) : option (list A) :=
  if (Nat.leb lo hi && Nat.leb hi (length b))%bool
  then Some (firstn (hi - lo) (skipn lo b))
  else None.

(** [new(big.Int).SetBytes(b)]: [b] read as a big-endian unsigned integer. *)
Definition SetBytes (b : list byte) : Z :=
  fold_left (fun acc x => acc * 256 + byte_val x) b 0.

(** The [n] low-order bytes of [z], big-endian. *)
Fixpoint be_bytes (n : nat) (z : Z) : list byte :=
  match n with
  | O => []
  | S k => be_bytes k (z / 256) ++ [byte_of_Z z]
  end.

Fixpoint trim_zeros (b : list byte) : list byte :=
  match b with
  | x00 :: t => trim_zeros t
  | _ => b
  end.

(** [Bytes()] of a [big.Int]: the absolute value of [z], big-endian, without
    leading zero bytes. *)
Definition Bytes (z : Z) : list byte :=
  let a := Z.abs z in
  trim_zeros (be_bytes (Z.to_nat (Z.log2 a / 8 + 1)) a).

(** [string(b)] and [[]byte(s)] *)
Definition string_of_bytes (b : list byte) : string := string_of_list_byte b.
Definition bytes_of_string (s : string) : list byte := list_byte_of_string s.

(** [fmt]'s [%d] *)
Definition itoa (z : Z) : string :=
  match z with
  | Z0 => "0"
  | Zpos p => DecimalString.NilEmpty.string_of_uint (Pos.to_uint p)
  | Zneg p => String "-"%char (DecimalString.NilEmpty.string_of_uint (Pos.to_uint p))
  end.

End Go.

(* ===================================================================== *)
(** * The names of github.com/miekg/pkcs11 and github.com/pkg/errors *)
(* ===================================================================== *)

(** Go's [error] values, as this package builds and inspects them. *)
Inductive error : Type :=
| pkcs11_Error (code : Z)                          (* a [pkcs11.Error] *)
| errors_New (msg : string)                        (* [errors.New], [errors.Errorf] *)
| errors_WithMessage (cause : error) (msg : string) (* [errors.WithMessage] *)
| crypto_error (msg : string).                     (* an error of go-ethereum's [crypto] *)

Module pkcs11.

Definition SessionHandle := Z.
Definition ObjectHandle := Z.

(** The PKCS#11 constants the package names, with their standard values. *)
Definition CKA_CLASS : Z := 0x0.
Definition CKA_TOKEN : Z := 0x1.
Definition CKA_PRIVATE : Z := 0x2.
Definition CKA_LABEL : Z := 0x3.
Definition CKA_VALUE : Z := 0x11.
Definition CKA_KEY_TYPE : Z := 0x100.
Definition CKA_ID : Z := 0x102.
Definition CKA_SENSITIVE : Z := 0x103.
Definition CKA_SIGN : Z := 0x108.
Definition CKA_VERIFY : Z := 0x10A.
Definition CKA_MODULUS_BITS : Z := 0x121.
Definition CKA_PUBLIC_EXPONENT : Z := 0x122.
Definition CKA_VALUE_LEN : Z := 0x161.
Definition CKA_EXTRACTABLE : Z := 0x162.
Definition CKA_EC_PARAMS : Z := 0x180.
Definition CKA_EC_POINT : Z := 0x181.

Definition CKO_PUBLIC_KEY : Z := 0x2.
Definition CKO_PRIVATE_KEY : Z := 0x3.
Definition CKO_SECRET_KEY : Z := 0x4.

Definition CKK_RSA : Z := 0x0.
Definition CKK_EC : Z := 0x3.
Definition CKK_AES : Z := 0x1F.

Definition CKM_RSA_PKCS_KEY_PAIR_GEN : Z := 0x0.
Definition CKM_EC_KEY_PAIR_GEN : Z := 0x1040.
Definition CKM_ECDSA : Z := 0x1041.
Definition CKM_AES_KEY_GEN : Z := 0x1080.

Definition CKR_ATTRIBUTE_TYPE_INVALID : Z := 0x12.
Definition CKR_FUNCTION_FAILED : Z := 0x6.
Definition CKR_KEY_TYPE_INCONSISTENT : Z := 0x63.

(** [pkcs11.Attribute] *)
Record Attribute : Type := mkAttribute { Type_ : Z; Value : list byte }.

(** [pkcs11.Mechanism] *)
Record Mechanism : Type := mkMechanism { Mechanism_ : Z; Parameter_ : list byte }.

(** The values the package passes to [NewAttribute]. *)
Inductive value : Type :=
| VNil
| VBool (b : bool)
| VUint (n : Z)
| VString (s : string)
| VBytes (b : list byte).

(** [uintToBytes]: a [CK_ULONG] in memory order (64-bit, little-endian). *)
Definition uintToBytes (n : Z) : list byte := rev (Go.be_bytes 8 n).

(** [pkcs11.NewAttribute] *)
Definition NewAttribute (typ : Z) (x : value) : Attribute :=
  mkAttribute typ
    match x with
    | VNil => []
    | VBool true => [x01]
    | VBool false => [x00]
    | VUint n => uintToBytes n
    | VString s => Go.bytes_of_string s
    | VBytes b => b
    end.

(** [pkcs11.NewMechanism] *)
Definition NewMechanism (mech : Z) (param : list byte) : Mechanism :=
  mkMechanism mech param.

(** [TokenCtx]: the functions of the token module that the modelled part of
    the package calls, over the token's state [T]. Each takes the state and
    returns Go's result tuple with the next state; an [option error] is Go's
    [error], [None] being [nil]. *)
Record TokenCtx (T : Type) : Type := mkTokenCtx {
  DestroyObject : SessionHandle -> ObjectHandle -> T -> option error * T;
  FindObjects : SessionHandle -> Z -> T -> (list ObjectHandle * bool * option error) * T;
  FindObjectsFinal : SessionHandle -> T -> option error * T;
  FindObjectsInit : SessionHandle -> list Attribute -> T -> option error * T;
  GenerateKey : SessionHandle -> list Mechanism -> list Attribute -> T ->
                (ObjectHandle * option error) * T;
  GenerateKeyPair : SessionHandle -> list Mechanism -> list Attribute -> list Attribute -> T ->
                    (ObjectHandle * ObjectHandle * option error) * T;
  GetAttributeValue : SessionHandle -> ObjectHandle -> list Attribute -> T ->
                      (list Attribute * option error) * T;
  SignInit : SessionHandle -> list Mechanism -> ObjectHandle -> T -> option error * T;
  Sign : SessionHandle -> list byte -> T -> (list byte * option error) * T
}.

Arguments DestroyObject {T} _ _ _ _.
Arguments FindObjects {T} _ _ _ _.
Arguments FindObjectsFinal {T} _ _ _.
Arguments FindObjectsInit {T} _ _ _ _.
Arguments GenerateKey {T} _ _ _ _ _.
Arguments GenerateKeyPair {T} _ _ _ _ _ _.
Arguments GetAttributeValue {T} _ _ _ _ _.
Arguments SignInit {T} _ _ _ _ _.
Arguments Sign {T} _ _ _ _.

End pkcs11.

(* ===================================================================== *)
(** * How a call of the package ends *)
(* ===================================================================== *)

(** A call returns a value with a [nil] error ([Ok]), returns a non-[nil]
    error ([Err]), panics at run time ([Panic]), ends the process through
    [log.Fatalf] with a format and the error it prints ([Fatal]), or is still
    searching when the model's fuel for the paging loop is used up
    ([OutOfFuel]). *)
Inductive outcome (A : Type) : Type :=
| Ok (a : A)
| Err (e : error)
| Panic (msg : string)
| Fatal (format : string) (e : error)
| OutOfFuel.

Arguments Ok {A} a.
Arguments Err {A} e.
Arguments Panic {A} msg.
Arguments Fatal {A} format e.
Arguments OutOfFuel {A}.

(** The package's functions thread the token's state. *)
Definition M (T A : Type) : Type := T -> outcome A * T.

Definition ret {T A : Type} (a : A) : M T A := fun st => (Ok a, st).

Definition bind {T A B : Type} (m : M T A) (k : A -> M T B) : M T B :=
  fun st =>
    match m st with
    | (Ok a, st') => k a st'
    | (Err e, st') => (Err e, st')
    | (Panic msg, st') => (Panic msg, st')
    | (Fatal format e, st') => (Fatal format e, st')
    | (OutOfFuel, st') => (OutOfFuel, st')
    end.

(** [return ..., err] with a non-[nil] [err] *)
Definition fail {T A : Type} (e : error) : M T A := fun st => (Err e, st).
Definition panic {T A : Type} (msg : string) : M T A := fun st => (Panic msg, st).
Definition fatal {T A : Type} (format : string) (e : error) : M T A :=
  fun st => (Fatal format e, st).
Definition out_of_fuel {T A : Type} : M T A := fun st => (OutOfFuel, st).

(** A call of the token module: its result tuple, whatever it holds. *)
Definition call {T X : Type} (op : T -> X * T) : M T X :=
  fun st => let (x, st') := op st in (Ok x, st').

(** An indexing or slicing expression that may panic. *)
Definition checked {T A : Type} (msg : string) (o : option A) : M T A :=
  match o with
  | Some a => ret a
  | None => panic msg
  end.

Declare Scope p11_scope.
Delimit Scope p11_scope with p11.
Notation "x <- m ;; k" := (bind m (fun x => k))
  (at level 61, m at next level, right associativity) : p11_scope.
Notation "' pat <- m ;; k" := (bind m (fun x => match x with pat => k end))
  (at level 61, pat pattern, m at next level, right associativity) : p11_scope.
Notation "m ;;; k" := (bind m (fun _ => k))
  (at level 61, right associativity) : p11_scope.

(** Whether a call returned with a [nil] error. *)
Definition succeeded {A : Type} (o : outcome A) : bool :=
  match o with
  | Ok _ => true
  | _ => false
  end.

(* ===================================================================== *)
(** * Package p11 *)
(* ===================================================================== *)

Module p11.
Import pkcs11.
Local Open Scope string_scope.
Local Open Scope list_scope.
Local Open Scope Z_scope.
Local Open Scope p11_scope.

(** [crypto.S256().Params().N], the order of secp256k1 *)
Definition secp256k1N : Z :=
  0xFFFFFFFFFFFFFFFFFFFFFFFFFFFFFFFEBAAEDCE6AF48A03BBFD25E8CD0364141.
Definition secp256k1HalfN : Z := secp256k1N / 2.

(** [common.HashLength] *)
Definition HashLength : nat := 32.

Definition batchSize : Z := 20.

(** [slices.Equal] on byte slices *)
Fixpoint bytes_eqb (a b : list byte) : bool :=
  match a, b with
  | [], [] => true
  | x :: a', y :: b' => Go.byte_eqb x y && bytes_eqb a' b'
  | _, _ => false
  end.

(** [isValidSize] (lines 669-676) *)
Fixpoint isValidSize (sizes : list Z) (in_ : Z) : bool :=
  match sizes with
  | [] => false
  | n :: rest => if in_ =? n then true else isValidSize rest in_
  end.

(** [fixLen] (lines 720-732): [fixLen_scan b] is [i] when the loop ends. *)
Fixpoint fixLen_scan (b : list byte) : nat :=
  match b with
  | x00 :: t => S (fixLen_scan t)
  | _ => O
  end.

Definition fixLen (b : list byte) : list byte :=
  let i := fixLen_scan b in
  let out := Go.make HashLength in
  Go.copy out (skipn i b).

(** The [switch] of [ecPoint] (lines 689-697) on one attribute value; [&&]
    evaluates its right operand only when the left one holds, and an index
    expression outside the value panics ([None]). *)
Definition ecPoint_switch (v : list byte) : option (list byte) :=
  let len := length v in
  let case1 :=
    if Nat.eqb (len mod 2) 0 then
      match Go.index v 0 with
      | None => None
      | Some v0 =>
        if Go.byte_eqb x04 v0 then
          match Go.index v (len - 1) with
          | None => None
          | Some vl => Some (Go.byte_eqb x04 vl)
          end
        else Some false
      end
    else Some false in
  match case1 with
  | None => None
  | Some true => Go.slice v 0 (len - 1)
  | Some false =>
    let case2 :=
      match Go.index v 0 with
      | None => None
      | Some v0 =>
        if Go.byte_eqb x04 v0 then
          match Go.index v 2 with
          | None => None
          | Some v2 => Some (Go.byte_eqb x04 v2)
          end
        else Some false
      end in
    match case2 with
    | None => None
    | Some true => Go.slice v 2 len
    | Some false => Some v
    end
  end.

(** The [for _, a := range attr] of [ecPoint]: the last attribute decides. *)
Fixpoint ecPoint_range (attr : list Attribute) (ecpt : list byte) : option (list byte) :=
  match attr with
  | [] => Some ecpt
  | a :: rest =>
    match ecPoint_switch (Value a) with
    | None => None
    | Some ecpt' => ecPoint_range rest ecpt'
    end
  end.

(** Lines 413-422 of [Sign]: from the token's raw output to [sigRS]. *)
Definition Sign_sigRS (sig : list byte) : option (list byte) :=
  match Go.slice sig 0 32, Go.slice sig 32 64 with
  | Some sigR, Some sigS =>
    let sigSNum := Go.SetBytes sigS in
    let sigS := if sigSNum >? secp256k1HalfN
                then Go.Bytes (secp256k1N - sigSNum)
                else sigS in
    Some (fixLen sigR ++ fixLen sigS)
  | _, _ => None
  end.

(** [sigRSV[64] += 27] *)
Definition add27_at64 (sigRSV : list byte) : option (list byte) :=
  match Go.index sigRSV 64 with
  | None => None
  | Some v => Some (firstn 64 sigRSV ++ Go.byte_of_Z (Go.byte_val v + 27) :: skipn 65 sigRSV)
  end.

Section Token.

Context {T : Type}.

(** go-ethereum's [crypto.Ecrecover] and [crypto.UnmarshalPubkey], and
    [ecdsa.PublicKey]: the elliptic-curve collaborator. *)
Variable PublicKey : Type.
Variable Ecrecover : list byte -> list byte -> list byte + error.
Variable UnmarshalPubkey : list byte -> PublicKey + error.

Record p11Token : Type := mkP11Token {
  ctx : TokenCtx T;
  session : SessionHandle;
  slot : Z
}.

(** The loop of [findAllMatching] (lines 301-315). *)
Fixpoint findAllMatching_loop (fuel : nat) (p : p11Token) (objects : list ObjectHandle)
  : M T (list ObjectHandle) :=
  match fuel with
  | O => out_of_fuel
  | S fuel' =>
    '(res, _, err) <- call (FindObjects (ctx p) (session p) batchSize) ;;
    match err with
    | Some e => fail (errors_WithMessage e "failed to search")
    | None =>
      if Nat.eqb (length res) 0 then ret objects
      else findAllMatching_loop fuel' p (objects ++ res)
    end
  end.

(** [findAllMatching] (lines 292-319) *)
Definition findAllMatching (fuel : nat) (p : p11Token) (template : list Attribute)
  : M T (list ObjectHandle) :=
  err <- call (FindObjectsInit (ctx p) (session p) template) ;;
  match err with
  | Some e => fail e
  | None =>
    objects <- findAllMatching_loop fuel p [] ;;
    err <- call (FindObjectsFinal (ctx p) (session p)) ;;
    match err with
    | Some e => fail e
    | None => ret objects
    end
  end.

(** [findKeyByLabel] (lines 211-233) *)
Definition findKeyByLabel (p : p11Token) (label : string) : M T ObjectHandle :=
  let template := [NewAttribute CKA_LABEL (VString label)] in
  err <- call (FindObjectsInit (ctx p) (session p) template) ;;
  match err with
  | Some e => fail e
  | None =>
    '(objects, _, _) <- call (FindObjects (ctx p) (session p) 1) ;;
    if negb (Nat.eqb (length objects) 1)
    then fail (errors_New ("no key with label '" ++ label ++ "'")%string)
    else
      obj <- checked "index out of range" (Go.index objects 0) ;;
      err <- call (FindObjectsFinal (ctx p) (session p)) ;;
      match err with
      | Some e => fail e
      | None => ret obj
      end
  end.

(** The inner loop of [DeleteAllExcept] (lines 135-140). *)
Fixpoint DeleteAllExcept_keep (keyLabels : list string) (template : list Attribute)
  : M T bool :=
  match keyLabels with
  | [] => ret false
  | l :: rest =>
    a <- checked "index out of range" (Go.index template 0) ;;
    if String.eqb l (Go.string_of_bytes (Value a)) then ret true
    else DeleteAllExcept_keep rest template
  end.

(** The outer loop of [DeleteAllExcept] (lines 113-153); [template] is the
    variable the loop reassigns from each [GetAttributeValue]. *)
Fixpoint DeleteAllExcept_range (p : p11Token) (keyLabels : list string)
  (objects : list ObjectHandle) (template : list Attribute) : M T unit :=
  match objects with
  | [] => ret tt
  | o :: rest =>
    '(template, err) <- call (GetAttributeValue (ctx p) (session p) o template) ;;
    labelExists <-
      match err with
      | None => ret true
      | Some (pkcs11_Error code) =>
        if code =? CKR_ATTRIBUTE_TYPE_INVALID then ret false
        else fail (errors_WithMessage (pkcs11_Error code) "failed to get label")
      | Some e => fail (errors_WithMessage e "failed to get label")
      end ;;
    keep <- (if labelExists : bool then DeleteAllExcept_keep keyLabels template
             else ret false) ;;
    (if negb keep then
       (if labelExists : bool
        then _ <- checked "index out of range" (Go.index template 0) ;; ret tt
        else ret tt) ;;;
       err <- call (DestroyObject (ctx p) (session p) o) ;;
       match err with
       | Some e => fail (errors_WithMessage e "failed to destroy object")
       | None => ret tt
       end
     else ret tt) ;;;
    DeleteAllExcept_range p keyLabels rest template
  end.

(** [DeleteAllExcept] (lines 103-156) *)
Definition DeleteAllExcept (fuel : nat) (p : p11Token) (keyLabels : list string) : M T unit :=
  objects <- findAllMatching fuel p [] ;;
  let template := [NewAttribute CKA_LABEL VNil] in
  DeleteAllExcept_range p keyLabels objects template.

(** [ecPoint] (lines 678-701); a failed read is only logged. *)
Definition ecPoint (pkcs11lib : TokenCtx T) (session : SessionHandle) (key : ObjectHandle)
  : M T (list byte) :=
  let template := [NewAttribute CKA_EC_POINT VNil] in
  '(attr, _) <- call (GetAttributeValue pkcs11lib session key template) ;;
  checked "index out of range" (ecPoint_range attr []).

(** The template of [GetPublicKey] and [Sign]: the class, then the label and
    the key id when they are not empty. *)
Definition key_template (class : Z) (label keyid : string) : list Attribute :=
  let template := [NewAttribute CKA_CLASS (VUint class)] in
  let template := if String.eqb label "" then template
                  else template ++ [NewAttribute CKA_LABEL (VString label)] in
  if String.eqb keyid "" then template
  else template ++ [NewAttribute CKA_ID (VString keyid)].

Definition err_more_than_one : error :=
  errors_New "More than 1 matching key found, please specify both label and key id".
Definition err_no_matching : error := errors_New "No matching keys found".

(** Lines 352-362 of [GetPublicKey] and 385-395 of [Sign], the same text in
    both: the search and the two checks on the number of matches, after which
    [objects[0]] is the key. *)
Definition resolveUnique (fuel : nat) (p : p11Token) (template : list Attribute)
  : M T ObjectHandle :=
  objects <- findAllMatching fuel p template ;;
  if Nat.ltb 1 (length objects) then fail err_more_than_one
  else if Nat.eqb (length objects) 0 then fail err_no_matching
  else checked "index out of range" (Go.index objects 0).

(** [GetPublicKey] (lines 342-372) *)
Definition GetPublicKey (fuel : nat) (p : p11Token) (label keyid : string)
  : M T (PublicKey * list byte) :=
  let template := key_template CKO_PUBLIC_KEY label keyid in
  o <- resolveUnique fuel p template ;;
  ecpt <- ecPoint (ctx p) (session p) o ;;
  match UnmarshalPubkey ecpt with
  | inr e => fail e
  | inl pub => ret (pub, ecpt)
  end.

(** [Sign] (lines 374-447) *)
Definition Sign (fuel : nat) (p : p11Token) (label keyid : string) (hash : list byte)
  : M T (list byte) :=
  let template := key_template CKO_PRIVATE_KEY label keyid in
  o <- resolveUnique fuel p template ;;
  err <- call (SignInit (ctx p) (session p) [NewMechanism CKM_ECDSA []] o) ;;
  match err with
  | Some e => fatal "Signing Initiation failed (%s)\n" e
  | None =>
    '(sig, err) <- call (pkcs11.Sign (ctx p) (session p) hash) ;;
    match err with
    | Some e => fail e
    | None =>
      '(_, ecpt) <- GetPublicKey fuel p label keyid ;;
      sigRS <- checked "slice bounds out of range" (Sign_sigRS sig) ;;
      let sigRSV := sigRS ++ [x00] in
      match Ecrecover hash sigRSV with
      | inr e => fail e
      | inl recPub =>
        if bytes_eqb recPub ecpt
        then checked "index out of range" (add27_at64 sigRSV)
        else
          let sigRSV := sigRS ++ [x01] in
          match Ecrecover hash sigRSV with
          | inr e => fail e
          | inl recPub =>
            if bytes_eqb recPub ecpt
            then checked "index out of range" (add27_at64 sigRSV)
            else fail (errors_New "Could not generate a valid signature")
          end
      end
    end
  end.

(** Lines 425-446 of [Sign] on a [sigRS] of 64 bytes, where [sigRSV[64]] is
    the byte appended: what the two recoveries decide. *)
Definition Sign_recover (hash ecpt rs : list byte) : outcome (list byte) :=
  match Ecrecover hash (rs ++ [x00]) with
  | inr e => Err e
  | inl recPub =>
    if bytes_eqb recPub ecpt then Ok (rs ++ [x1b])
    else
      match Ecrecover hash (rs ++ [x01]) with
      | inr e => Err e
      | inl recPub =>
        if bytes_eqb recPub ecpt then Ok (rs ++ [x1c])
        else Err (errors_New "Could not generate a valid signature")
      end
  end.

(** [signature[64] -= 27] when it is 27 or 28 (lines 704-706) *)
Definition sub27_at64 (signature : list byte) : option (list byte) :=
  match Go.index signature 64 with
  | None => None
  | Some v =>
    if (Go.byte_val v =? 27) || (Go.byte_val v =? 28)
    then Some (firstn 64 signature ++ Go.byte_of_Z (Go.byte_val v - 27) :: skipn 65 signature)
    else Some signature
  end.

(** [recoverAddress] (lines 703-718), which no function of the package
    calls; [Address] is [common.Address]. *)
Definition recoverAddress (Address : Type) (PubkeyToAddress : PublicKey -> Address)
  (hash signature : list byte) : outcome Address :=
  match sub27_at64 signature with
  | None => Panic "index out of range"
  | Some signature =>
    match Ecrecover hash signature with
    | inr e => Err e
    | inl rawPub =>
      match UnmarshalPubkey rawPub with
      | inr e => Err e
      | inl pub => Ok (PubkeyToAddress pub)
      end
    end
  end.

(** [Verify] (lines 449-464) *)
Definition Verify (fuel : nat) (p : p11Token) (label keyid : string)
  (hash signature : list byte) : M T unit :=
  '(_, ecpt) <- GetPublicKey fuel p label keyid ;;
  match Ecrecover hash signature with
  | inr e => fail e
  | inl recPub =>
    if bytes_eqb recPub ecpt then ret tt
    else fail (errors_New "Not verified")
  end.

(** [asn1.Marshal(asn1.ObjectIdentifier{1, 3, 132, 0, 10})]: the DER bytes of
    the object identifier of secp256k1. *)
Definition marshaledOID : list byte := [x06; x05; x2b; x81; x04; x00; x0a].

(** [GenerateECKey] (lines 496-559) *)
Definition GenerateECKey (fuel : nat) (p : p11Token) (label keyid : string) : M T unit :=
  let template := [NewAttribute CKA_CLASS (VUint CKO_PUBLIC_KEY)] in
  let template := if String.eqb label "" then template
                  else template ++ [NewAttribute CKA_LABEL (VString label)] in
  objects <- findAllMatching fuel p template ;;
  if Nat.ltb 0 (length objects)
  then fail (errors_New "Key with this label already exists")
  else
    let publicKeyTemplate :=
      [ NewAttribute CKA_KEY_TYPE (VUint CKK_EC);
        NewAttribute CKA_CLASS (VUint CKO_PUBLIC_KEY);
        NewAttribute CKA_TOKEN (VBool true);
        NewAttribute CKA_VERIFY (VBool true);
        NewAttribute CKA_EC_PARAMS (VBytes marshaledOID);
        NewAttribute CKA_LABEL (VString label) ] in
    let privateKeyTemplate :=
      [ NewAttribute CKA_KEY_TYPE (VUint CKK_EC);
        NewAttribute CKA_CLASS (VUint CKO_PRIVATE_KEY);
        NewAttribute CKA_TOKEN (VBool true);
        NewAttribute CKA_PRIVATE (VBool true);
        NewAttribute CKA_SIGN (VBool true);
        NewAttribute CKA_LABEL (VString label);
        NewAttribute CKA_EXTRACTABLE (VBool false);
        NewAttribute CKA_SENSITIVE (VBool true) ] in
    let id := if String.eqb keyid "" then label else keyid in
    let privateKeyTemplate := privateKeyTemplate ++ [NewAttribute CKA_ID (VString id)] in
    let publicKeyTemplate := publicKeyTemplate ++ [NewAttribute CKA_ID (VString id)] in
    '(_, _, err) <- call (pkcs11.GenerateKeyPair (ctx p) (session p)
                            [NewMechanism CKM_EC_KEY_PAIR_GEN []]
                            publicKeyTemplate privateKeyTemplate) ;;
    match err with
    | Some e => fail e
    | None => ret tt
    end.

(** [GenerateAESKey] (lines 561-583); [keysize/8] is Go's truncating division. *)
Definition GenerateAESKey (p : p11Token) (label : string) (keysize : Z) : M T unit :=
  let privateKeyTemplate :=
    [ NewAttribute CKA_TOKEN (VBool true);
      NewAttribute CKA_SIGN (VBool true);
      NewAttribute CKA_LABEL (VString label);
      NewAttribute CKA_SENSITIVE (VBool true);
      NewAttribute CKA_EXTRACTABLE (VBool true);
      NewAttribute CKA_VALUE_LEN (VUint (Z.quot keysize 8)) ] in
  '(_, err) <- call (pkcs11.GenerateKey (ctx p) (session p)
                       [NewMechanism CKM_AES_KEY_GEN (Go.make 16)]
                       privateKeyTemplate) ;;
  match err with
  | Some e => fail e
  | None => ret tt
  end.

(** [GenerateRSAKey] (lines 585-616) *)
Definition GenerateRSAKey (p : p11Token) (label : string) (keysize : Z) : M T unit :=
  let publicKeyTemplate :=
    [ NewAttribute CKA_CLASS (VUint CKO_PUBLIC_KEY);
      NewAttribute CKA_KEY_TYPE (VUint CKK_RSA);
      NewAttribute CKA_TOKEN (VBool true);
      NewAttribute CKA_VERIFY (VBool true);
      NewAttribute CKA_PUBLIC_EXPONENT (VBytes [x01; x00; x01]);
      NewAttribute CKA_LABEL (VString label);
      NewAttribute CKA_MODULUS_BITS (VUint keysize) ] in
  let privateKeyTemplate :=
    [ NewAttribute CKA_EXTRACTABLE (VBool true);
      NewAttribute CKA_TOKEN (VBool true);
      NewAttribute CKA_SENSITIVE (VBool true);
      NewAttribute CKA_SIGN (VBool true);
      NewAttribute CKA_LABEL (VString label) ] in
  '(_, _, err) <- call (pkcs11.GenerateKeyPair (ctx p) (session p)
                          [NewMechanism CKM_RSA_PKCS_KEY_PAIR_GEN []]
                          publicKeyTemplate privateKeyTemplate) ;;
  match err with
  | Some e => fail e
  | None => ret tt
  end.

Definition validRSASize : list Z := [1024; 2048; 3072; 4096].
Definition validAESSize : list Z := [128; 192; 256].
Definition validECSize : list Z := [128; 192; 256].

(** [errors.Errorf("Invalid ... key size: %d", keysize)] *)
Definition err_invalid_size (kind : string) (keysize : Z) : error :=
  errors_New ("Invalid " ++ kind ++ " key size: " ++ Go.itoa keysize)%string.

(** [GenerateKeyPair] (lines 466-494) *)
Definition GenerateKeyPair (fuel : nat) (p : p11Token)
  (label keyid algorithm keytype : string) (keysize : Z) : M T unit :=
  if String.eqb keytype "RSA" then
    if isValidSize validRSASize keysize
    then GenerateRSAKey p label keysize
    else fail (err_invalid_size "RSA" keysize)
  else if String.eqb keytype "AES" then
    if isValidSize validAESSize keysize
    then GenerateAESKey p label keysize
    else fail (err_invalid_size "AES" keysize)
  else if String.eqb keytype "EC" then
    if isValidSize validECSize keysize && String.eqb algorithm "S256"
    then GenerateECKey fuel p label keyid
    else fail (err_invalid_size "EC" keysize)
  else fail (errors_New ("Invalid key type: " ++ keytype)%string).

End Token.

End p11.

(* ===================================================================== *)
(** * A token context that records its calls *)
(* ===================================================================== *)

Module Traced.
Import pkcs11.

(** One call of the token module, with the error it returned. *)
Inductive Event : Type :=
| EvDestroyObject (o : ObjectHandle) (err : option error)
| EvFindObjects (max : Z) (res : list ObjectHandle) (err : option error)
| EvFindObjectsFinal (err : option error)
| EvFindObjectsInit (temp : list Attribute) (err : option error)
| EvGenerateKey (mech : list Mechanism) (temp : list Attribute) (err : option error)
| EvGenerateKeyPair (mech : list Mechanism) (public private : list Attribute)
                    (err : option error)
| EvGetAttributeValue (o : ObjectHandle) (a : list Attribute) (err : option error)
| EvSignInit (o : ObjectHandle) (err : option error)
| EvSign (message : list byte) (err : option error).

Definition log {T X : Type} (op : T -> X * T) (ev : X -> Event)
  : T * list Event -> X * (T * list Event) :=
  fun '(st, tr) => let (x, st') := op st in (x, (st', tr ++ [ev x])).

(** [traced c] behaves as [c] and appends every call to the trace. *)
Definition traced {T : Type} (c : TokenCtx T) : TokenCtx (T * list Event) :=
  mkTokenCtx (T * list Event)
    (fun sh o => log (DestroyObject c sh o) (EvDestroyObject o))
    (fun sh max => log (FindObjects c sh max) (fun '(res, _, err) => EvFindObjects max res err))
    (fun sh => log (FindObjectsFinal c sh) EvFindObjectsFinal)
    (fun sh temp => log (FindObjectsInit c sh temp) (EvFindObjectsInit temp))
    (fun sh mech temp => log (GenerateKey c sh mech temp)
                           (fun '(_, err) => EvGenerateKey mech temp err))
    (fun sh mech pub priv => log (GenerateKeyPair c sh mech pub priv)
                               (fun '(_, _, err) => EvGenerateKeyPair mech pub priv err))
    (fun sh o a => log (GetAttributeValue c sh o a)
                     (fun '(_, err) => EvGetAttributeValue o a err))
    (fun sh mech o => log (SignInit c sh mech o) (EvSignInit o))
    (fun sh message => log (Sign c sh message) (fun '(_, err) => EvSign message err)).

Definition traced_token {T : Type} (p : @p11.p11Token T) : @p11.p11Token (T * list Event) :=
  p11.mkP11Token (traced (p11.ctx p)) (p11.session p) (p11.slot p).

(** Whether the session has a search context open after the calls of [tr]:
    a [FindObjectsInit] that returned no error opens one, a
    [FindObjectsFinal] closes it. *)
Definition search_step (open : bool) (ev : Event) : bool :=
  match ev with
  | EvFindObjectsInit _ None => true
  | EvFindObjectsFinal _ => false
  | _ => open
  end.

Definition search_open (tr : list Event) : bool := fold_left search_step tr false.

Definition is_generate (ev : Event) : bool :=
  match ev with
  | EvGenerateKey _ _ _ | EvGenerateKeyPair _ _ _ _ => true
  | _ => false
  end.

End Traced.

(* ===================================================================== *)
(** * An in-memory token *)
(* ===================================================================== *)

(** A token that keeps its objects in a list: the double of the token module
    on which the package is run. Its calls follow PKCS#11 and the Go binding:
    a search matches the objects that carry every attribute of the template,
    [GetAttributeValue] answers one attribute for each one asked or fails
    with [CKR_ATTRIBUTE_TYPE_INVALID], and a failed call returns [nil]
    besides its error. *)
Module MemToken.
Import pkcs11.

Definition CKR_OBJECT_HANDLE_INVALID : Z := 0x82.
Definition CKR_OPERATION_ACTIVE : Z := 0x90.
Definition CKR_OPERATION_NOT_INITIALIZED : Z := 0x91.

Record Object : Type := mkObject { handle : ObjectHandle; attributes : list Attribute }.

(** What the token is set up to do: the raw signature it computes for a key
    and a message, and the calls it fails. *)
Record behaviour : Type := mkBehaviour {
  sign_raw : ObjectHandle -> list byte -> list byte;
  find_objects_error : option error;
  sign_init_error : option error;
  destroy_error : option error
}.

Record state : Type := mkState {
  objects : list Object;
  search : option (list ObjectHandle);
  signing : option ObjectHandle;
  next_handle : ObjectHandle
}.

Definition has_attribute (o : Object) (a : Attribute) : bool :=
  existsb (fun b => (Type_ b =? Type_ a) && p11.bytes_eqb (Value b) (Value a))
          (attributes o).

Definition matches (temp : list Attribute) (o : Object) : bool :=
  forallb (has_attribute o) temp.

Definition matching (temp : list Attribute) (st : state) : list ObjectHandle :=
  map handle (filter (matches temp) (objects st)).

Definition find_object (h : ObjectHandle) (st : state) : option Object :=
  find (fun o => handle o =? h) (objects st).

Fixpoint read_attributes (o : Object) (a : list Attribute) : option (list Attribute) :=
  match a with
  | [] => Some []
  | x :: rest =>
    match find (fun b => Type_ b =? Type_ x) (attributes o), read_attributes o rest with
    | Some b, Some l => Some (mkAttribute (Type_ x) (Value b) :: l)
    | _, _ => None
    end
  end.

Definition with_objects (st : state) (l : list Object) : state :=
  mkState l (search st) (signing st) (next_handle st).
Definition with_search (st : state) (s : option (list ObjectHandle)) : state :=
  mkState (objects st) s (signing st) (next_handle st).
Definition with_signing (st : state) (k : option ObjectHandle) : state :=
  mkState (objects st) (search st) k (next_handle st).

Definition token (b : behaviour) : TokenCtx state :=
  mkTokenCtx state
    (* DestroyObject *)
    (fun _ o st =>
       match destroy_error b with
       | Some e => (Some e, st)
       | None =>
         match find_object o st with
         | None => (Some (pkcs11_Error CKR_OBJECT_HANDLE_INVALID), st)
         | Some _ => (None, with_objects st (filter (fun x => negb (handle x =? o)) (objects st)))
         end
       end)
    (* FindObjects *)
    (fun _ max st =>
       match search st with
       | None => (([], false, Some (pkcs11_Error CKR_OPERATION_NOT_INITIALIZED)), st)
       | Some l =>
         match find_objects_error b with
         | Some e => (([], false, Some e), st)
         | None =>
           let n := Z.to_nat max in
           ((firstn n l, Nat.ltb n (length l), None), with_search st (Some (skipn n l)))
         end
       end)
    (* FindObjectsFinal *)
    (fun _ st =>
       match search st with
       | None => (Some (pkcs11_Error CKR_OPERATION_NOT_INITIALIZED), st)
       | Some _ => (None, with_search st None)
       end)
    (* FindObjectsInit *)
    (fun _ temp st =>
       match search st with
       | Some _ => (Some (pkcs11_Error CKR_OPERATION_ACTIVE), st)
       | None => (None, with_search st (Some (matching temp st)))
       end)
    (* GenerateKey *)
    (fun _ _ temp st =>
       let h := next_handle st in
       ((h, None),
        mkState (objects st ++ [mkObject h temp]) (search st) (signing st) (h + 1)))
    (* GenerateKeyPair *)
    (fun _ _ pub priv st =>
       let h := next_handle st in
       ((h, h + 1, None),
        mkState (objects st ++ [mkObject h pub; mkObject (h + 1) priv])
                (search st) (signing st) (h + 2)))
    (* GetAttributeValue *)
    (fun _ o a st =>
       match find_object o st with
       | None => (([], Some (pkcs11_Error CKR_OBJECT_HANDLE_INVALID)), st)
       | Some obj =>
         match read_attributes obj a with
         | None => (([], Some (pkcs11_Error CKR_ATTRIBUTE_TYPE_INVALID)), st)
         | Some l => ((l, None), st)
         end
       end)
    (* SignInit *)
    (fun _ _ o st =>
       match sign_init_error b with
       | Some e => (Some e, st)
       | None =>
         match find_object o st with
         | None => (Some (pkcs11_Error CKR_OBJECT_HANDLE_INVALID), st)
         | Some _ => (None, with_signing st (Some o))
         end
       end)
    (* Sign *)
    (fun _ message st =>
       match signing st with
       | None => (([], Some (pkcs11_Error CKR_OPERATION_NOT_INITIALIZED)), st)
       | Some k => ((sign_raw b k message, None), with_signing st None)
       end).

(** The label of an object, and whether it is one of [keyLabels]. *)
Definition label_of (o : Object) : option (list byte) :=
  option_map Value (find (fun a => Type_ a =? CKA_LABEL) (attributes o)).

Definition kept_by (keyLabels : list string) (o : Object) : bool :=
  match label_of o with
  | Some v => existsb (fun l => String.eqb l (Go.string_of_bytes v)) keyLabels
  | None => false
  end.

Definition p11Token (b : behaviour) : @p11.p11Token state :=
  p11.mkP11Token (token b) 1 0.

Definition fresh (l : list Object) : state := mkState l None None 100.

End MemToken.

(** Evaluate the next call of the recording token, and of the in-memory
    token, down to the call of the token underneath. *)
Ltac traced_call :=
  cbn [Traced.traced_token Traced.traced Traced.log p11.ctx p11.session
       pkcs11.DestroyObject pkcs11.FindObjects pkcs11.FindObjectsFinal
       pkcs11.FindObjectsInit pkcs11.GenerateKey pkcs11.GenerateKeyPair
       pkcs11.GetAttributeValue pkcs11.SignInit pkcs11.Sign].

Ltac mem_call :=
  cbn [MemToken.p11Token MemToken.token p11.ctx p11.session
       pkcs11.DestroyObject pkcs11.FindObjects pkcs11.FindObjectsFinal
       pkcs11.FindObjectsInit pkcs11.GenerateKey pkcs11.GenerateKeyPair
       pkcs11.GetAttributeValue pkcs11.SignInit pkcs11.Sign].

(* ===================================================================== *)
(** * Concrete tokens and inputs *)
(* ===================================================================== *)

(** [hexutil.Decode] without the prefix, for writing byte strings. *)
Module Hex.

Definition digit (c : ascii) : Z :=
  let n := Z.of_N (N_of_ascii c) in
  if (48 <=? n) && (n <=? 57) then n - 48
  else if (97 <=? n) && (n <=? 102) then n - 87
  else if (65 <=? n) && (n <=? 70) then n - 55
  else 0.

Fixpoint decode (s : string) : list byte :=
  match s with
  | String a (String b rest) => Go.byte_of_Z (16 * digit a + digit b) :: decode rest
  | _ => []
  end.

End Hex.

(** A stand-in for the elliptic-curve collaborator in concrete runs. It makes
    the checks of go-ethereum's [Ecrecover] on the lengths and on the
    recovery id (which must be below 4), and then answers [point0] for the
    recovery id 0 and [point1] for any other, whatever the signature says:
    the runs give it the two points of the signature they are about.
    [UnmarshalPubkey] accepts the 65-byte uncompressed form. *)
Module Stub.

Definition PublicKey : Type := list byte * list byte.

Definition Ecrecover (point0 point1 hash sig : list byte) : list byte + error :=
  if negb (Nat.eqb (length hash) 32) then
    inr (crypto_error "invalid message length, need 32 bytes")
  else if negb (Nat.eqb (length sig) 65) then
    inr (crypto_error "invalid signature length")
  else
    match Go.index sig 64 with
    | None => inr (crypto_error "invalid signature length")
    | Some v =>
      if 4 <=? Go.byte_val v then inr (crypto_error "invalid signature recovery id")
      else if Go.byte_val v =? 0 then inl point0
      else inl point1
    end.

Definition UnmarshalPubkey (pub : list byte) : PublicKey + error :=
  match pub with
  | x04 :: xy =>
    if Nat.eqb (length xy) 64 then inl (firstn 32 xy, skipn 32 xy)
    else inr (crypto_error "invalid secp256k1 public key")
  | _ => inr (crypto_error "invalid secp256k1 public key")
  end.

End Stub.

(** What go-ethereum's [crypto.Ecrecover] does with the S of a signature,
    for one hash: it recovers a key only from an S between 1 and N - 1; and,
    with the recovery ids 0 and 1, it recovers one key from two signatures
    with the same R only when their S are equal or add up to N (the two
    points of abscissa R are opposite, and of order N). *)
Module secp256k1.

Definition genuine_recovery (Ecrecover : list byte -> list byte -> list byte + error)
  (hash : list byte) : Prop :=
  (forall (r s : list byte) (v : byte) (Q : list byte),
      length r = 32%nat -> length s = 32%nat ->
      Ecrecover hash (r ++ s ++ [v]) = inl Q ->
      0 < Go.SetBytes s < p11.secp256k1N)
  /\
  (forall (r s s' : list byte) (v v' : byte) (Q : list byte),
      length r = 32%nat -> length s = 32%nat -> length s' = 32%nat ->
      (v = x00 \/ v = x01) -> (v' = x00 \/ v' = x01) ->
      Ecrecover hash (r ++ s ++ [v]) = inl Q ->
      Ecrecover hash (r ++ s' ++ [v']) = inl Q ->
      Go.SetBytes s' = Go.SetBytes s
      \/ Go.SetBytes s' + Go.SetBytes s = p11.secp256k1N).

End secp256k1.

(** A stand-in for [Ecrecover] that knows the recoveries of a table, each a
    hash, a signature of 65 bytes and the point recovered from them on
    secp256k1, and fails on every other signature. [sound] checks on a table
    what [secp256k1.genuine_recovery] asks. *)
Module Listed.

Definition entry : Type := list byte * list byte * list byte.

Definition Ecrecover (table : list entry) (hash sig : list byte) : list byte + error :=
  match find (fun e : entry => p11.bytes_eqb (fst (fst e)) hash
                               && p11.bytes_eqb (snd (fst e)) sig) table with
  | Some e => inl (snd e)
  | None => inr (crypto_error "recovery failed")
  end.

Definition R_of (sig : list byte) : list byte := firstn 32 sig.
Definition S_of (sig : list byte) : Z := Go.SetBytes (firstn 32 (skipn 32 sig)).

Definition low_id (sig : list byte) : bool :=
  match Go.index sig 64 with
  | Some v => Go.byte_val v <? 2
  | None => false
  end.

Definition agree (e e' : entry) : bool :=
  if p11.bytes_eqb (fst (fst e)) (fst (fst e'))
     && p11.bytes_eqb (R_of (snd (fst e))) (R_of (snd (fst e')))
     && p11.bytes_eqb (snd e) (snd e')
     && low_id (snd (fst e)) && low_id (snd (fst e'))
  then (S_of (snd (fst e')) =? S_of (snd (fst e)))
       || (S_of (snd (fst e')) + S_of (snd (fst e)) =? p11.secp256k1N)
  else true.

Definition sound (table : list entry) : bool :=
  forallb (fun e : entry =>
             (0 <? S_of (snd (fst e))) && (S_of (snd (fst e)) <? p11.secp256k1N)
             && forallb (agree e) table) table.

End Listed.

Module Runs.
Import pkcs11.

Definition hash0 : list byte :=
  Hex.decode "83206f8dc9e7119d9e063237f9a4f35a7b97af2192e219aeb761edd326391ced".

(** The public key of the private key 1: the generator of secp256k1, in the
    uncompressed form [04 X Y]. *)
Definition pub_G : list byte :=
  Hex.decode ("04"
    ++ "79be667ef9dcbbac55a06295ce870b07029bfcdb2dce28d959f2815b16f81798"
    ++ "483ada7726a3c4655da4fbfc0e1108a8fd17b448a68554199c47d08ffb10d4b8").

(** A key pair labelled [clitest]: the private key is object 1, the public
    key object 2, whose [CKA_EC_POINT] is the octet string that wraps [point]. *)
Definition private_key (h : ObjectHandle) (label : string) : MemToken.Object :=
  MemToken.mkObject h
    [ NewAttribute CKA_CLASS (VUint CKO_PRIVATE_KEY);
      NewAttribute CKA_LABEL (VString label);
      NewAttribute CKA_ID (VString label) ].

Definition public_key (h : ObjectHandle) (label : string) (ec_point : list byte)
  : MemToken.Object :=
  MemToken.mkObject h
    [ NewAttribute CKA_CLASS (VUint CKO_PUBLIC_KEY);
      NewAttribute CKA_LABEL (VString label);
      NewAttribute CKA_ID (VString label);
      NewAttribute CKA_EC_POINT (VBytes ec_point) ].

(** A public key object that carries no [CKA_EC_POINT]. *)
Definition public_without_point (h : ObjectHandle) (label : string) : MemToken.Object :=
  MemToken.mkObject h
    [ NewAttribute CKA_CLASS (VUint CKO_PUBLIC_KEY);
      NewAttribute CKA_LABEL (VString label) ].

Definition wrapped (point : list byte) : list byte := x04 :: x41 :: point.

Definition key_pair (point : list byte) : list MemToken.Object :=
  [ private_key 1 "clitest"; public_key 2 "clitest" (wrapped point) ].

(** A token that works and answers [raw] to every signing request. *)
Definition signs (raw : list byte) : MemToken.behaviour :=
  MemToken.mkBehaviour (fun _ _ => raw) None None None.

(** The signature of [hash0] under the private key 1 with the nonce 1: R is
    the abscissa of the generator and S is [hash0 + R] modulo the order, in
    the upper half. *)
Definition raw_plain : list byte :=
  Hex.decode ("79be667ef9dcbbac55a06295ce870b07029bfcdb2dce28d959f2815b16f81798"
           ++ "fcded60cc3c3cd49f3a694cdc82bfe617e33abfcc0b0428811546f2e3d313485").

(** The point that public-key recovery on secp256k1 gives from [hash0], the
    R of [raw_plain] and N - S with the recovery id 0; with the recovery id 1
    it gives [pub_G]. *)
Definition recovered0_plain : list byte :=
  Hex.decode ("04"
    ++ "20839289e90c202dec47acfb9fb5be4b4e34cccdcbc08bdfd3a3a831fc2a3336"
    ++ "8fcb289daf6b4fdb042f27545604524db84ff76387e144696ccdb45b0a160329").

(** A raw signature whose R starts with a zero byte, and whose S is in the
    upper half of the order. *)
Definition raw_short_R : list byte :=
  Hex.decode ("00d089c437525f44cbe9cdb9fed96b8d3a7e2856185621566a5118be1632adb5"
           ++ "eb3e92bc01b32e4f7cce5729fe6e7b91281f47bf1e78fcacf86a64a59c2ad4ce").

(** The signature of [hash0] under the private key 1 with the nonce 25: R
    fills its 32 bytes and S, in the lower half of the order, starts with a
    zero byte. *)
Definition raw_nonce25 : list byte :=
  Hex.decode ("9248279b09b4d68dab21a9b066edda83263c3d84e09572e269ca0cd7f5453714"
           ++ "00db393f12b450f77dce64f4d0a9b650989b151c26913ca74155811fee8800c0").

(** What [Sign] makes of [raw_nonce25] before the recovery byte: the same R,
    and S with its zero byte moved to the end. *)
Definition padded_nonce25 : list byte :=
  Hex.decode ("9248279b09b4d68dab21a9b066edda83263c3d84e09572e269ca0cd7f5453714"
           ++ "db393f12b450f77dce64f4d0a9b650989b151c26913ca74155811fee8800c000").

(** What [Sign] returns for [raw_plain]: R, N - S and 28. *)
Definition sig_plain : list byte :=
  Hex.decode ("79be667ef9dcbbac55a06295ce870b07029bfcdb2dce28d959f2815b16f81798"
           ++ "032129f33c3c32b60c596b3237d4019d3c7b30e9ee985db3ae7def5e93050cbc"
           ++ "1c").

(** The points that public-key recovery on secp256k1 gives from [hash0] and
    [raw_nonce25] with the recovery id 1 (with the recovery id 0 it gives
    [pub_G]), and from [hash0] and [padded_nonce25] with the recovery ids 0
    and 1. *)
Definition recovered1_nonce25 : list byte :=
  Hex.decode ("04"
    ++ "a94e1b84482a28315006ecdc424770c1a9c64b2acee2aceb514ac1bd046fdcb0"
    ++ "8b0910dba5dc8bee5e8611d9979e9fe873307cfa299f331fc2afc57822b6fa9c").
Definition recovered0_padded25 : list byte :=
  Hex.decode ("04"
    ++ "eed0af75f09d77a0d3a783ce2ae7a63a7dd92e7cf6e536783a0788a3a89d2ff7"
    ++ "68855e4d3c7f0bbcf11df34ac63b1a1b5b7ca308d59c69a407c56e03cb761d4a").
Definition recovered1_padded25 : list byte :=
  Hex.decode ("04"
    ++ "8fdfadf2f89d328ea4b9e5bc194059fffc096ee36a258170c4e246f3d751ac6f"
    ++ "926a96b2220b20c3514a79792c3311268754bbceee5286ca7a224f13cd5efd30").

(** The recoveries on secp256k1 that the runs with [raw_plain] and with
    [raw_nonce25] ask for: from the token's signature, and from the bytes
    that [Sign] builds, with the recovery ids 0 and 1. *)
Definition recoveries : list Listed.entry :=
  [ (hash0, raw_plain ++ [x00], pub_G);
    (hash0, raw_plain ++ [x01], recovered0_plain);
    (hash0, firstn 64 sig_plain ++ [x00], recovered0_plain);
    (hash0, firstn 64 sig_plain ++ [x01], pub_G);
    (hash0, raw_nonce25 ++ [x00], pub_G);
    (hash0, raw_nonce25 ++ [x01], recovered1_nonce25);
    (hash0, padded_nonce25 ++ [x00], recovered0_padded25);
    (hash0, padded_nonce25 ++ [x01], recovered1_padded25) ].

(** The valid key sizes of each key type as the specification documents
    them: for EC, 256 alone. *)
Definition documented_sizes (keytype : string) : list Z :=
  if String.eqb keytype "RSA" then [1024; 2048; 3072; 4096]
  else if String.eqb keytype "AES" then [128; 192; 256]
  else if String.eqb keytype "EC" then [256]
  else [].

(** A token on which [FindObjects] fails. *)
Definition find_fails : MemToken.behaviour :=
  MemToken.mkBehaviour (fun _ _ => []) (Some (pkcs11_Error CKR_FUNCTION_FAILED)) None None.

(** The in-memory token with every [GetAttributeValue] failing with [e]. *)
Definition reads_fail (e : error) : @p11.p11Token MemToken.state :=
  let base := MemToken.token (signs []) in
  p11.mkP11Token
    (mkTokenCtx MemToken.state
       (DestroyObject base) (FindObjects base) (FindObjectsFinal base)
       (FindObjectsInit base) (GenerateKey base) (GenerateKeyPair base)
       (fun _ _ _ st => (([], Some e), st))
       (SignInit base) (pkcs11.Sign base))
    1 0.

(** A token on which [DestroyObject] fails. *)
Definition destroy_fails : MemToken.behaviour :=
  MemToken.mkBehaviour (fun _ _ => []) None None (Some (pkcs11_Error CKR_FUNCTION_FAILED)).

(** A token on which [SignInit] fails. *)
Definition sign_init_fails : MemToken.behaviour :=
  MemToken.mkBehaviour (fun _ _ => []) None (Some (pkcs11_Error CKR_KEY_TYPE_INCONSISTENT)) None.

(** An object without a label, then a labelled one. *)
Definition unlabelled (h : ObjectHandle) : MemToken.Object :=
  MemToken.mkObject h [ NewAttribute CKA_CLASS (VUint CKO_SECRET_KEY) ].

Definition labelled (h : ObjectHandle) (label : string) : MemToken.Object :=
  MemToken.mkObject h
    [ NewAttribute CKA_CLASS (VUint CKO_SECRET_KEY);
      NewAttribute CKA_LABEL (VString label) ].

(** Twenty-five objects with the handles 1 to 25, all labelled [many]. *)
Definition many : list MemToken.Object :=
  map (fun n => labelled (Z.of_nat n) "many") (seq 1 25).

End Runs.

(** Reading a record of calls. *)
Module Calls.
Import pkcs11 Traced.

(** A page: a [FindObjects] of the batch size that returned no error. *)
Definition page (ev : Event) : option (list ObjectHandle) :=
  match ev with
  | EvFindObjects max res None => if max =? p11.batchSize then Some res else None
  | _ => None
  end.

(** All the events are pages that hold at least one handle. *)
Definition full_pages (evs : list Event) : bool :=
  forallb (fun ev => match page ev with
                     | Some (_ :: _) => true
                     | _ => false
                     end) evs.

(** The handles of the pages, in the order of the calls. *)
Definition handles (evs : list Event) : list ObjectHandle :=
  flat_map (fun ev => match page ev with
                      | Some res => res
                      | None => []
                      end) evs.

(** The objects on which [DestroyObject] was called. *)
Definition destroyed (evs : list Event) : list ObjectHandle :=
  flat_map (fun ev => match ev with
                      | EvDestroyObject o _ => [o]
                      | _ => []
                      end) evs.

End Calls.

(* ===================================================================== *)
(** * The rest of the token module: library, slots, sessions, objects *)
(* ===================================================================== *)

(** The functions of the [TokenCtx] interface (lines 38-61) that
    [pkcs11.TokenCtx] leaves out, over the same state. *)
Module Library.
Import pkcs11.

Definition CKA_WRAP : Z := 0x106.
Definition CKA_UNWRAP : Z := 0x107.
Definition CKM_AES_CBC : Z := 0x1082.
Definition CKF_RW_SESSION : Z := 0x2.
Definition CKF_SERIAL_SESSION : Z := 0x4.
Definition CKU_USER : Z := 1.

(** [pkcs11.TokenInfo], of which the package reads the label. *)
Record TokenInfo : Type := mkTokenInfo { Label : string }.

Record LibraryCtx (T : Type) : Type := mkLibraryCtx {
  CloseSession : SessionHandle -> T -> option error * T;
  CreateObject : SessionHandle -> list Attribute -> T -> (ObjectHandle * option error) * T;
  Destroy : T -> unit * T;
  Encrypt : SessionHandle -> list byte -> T -> (list byte * option error) * T;
  EncryptInit : SessionHandle -> list Mechanism -> ObjectHandle -> T -> option error * T;
  Finalize : T -> option error * T;
  GetSlotList : bool -> T -> (list Z * option error) * T;
  GetTokenInfo : Z -> T -> (TokenInfo * option error) * T;
  Initialize : T -> option error * T;
  Login : SessionHandle -> Z -> string -> T -> option error * T;
  OpenSession : Z -> Z -> T -> (SessionHandle * option error) * T
}.

Arguments CloseSession {T} _ _ _.
Arguments CreateObject {T} _ _ _ _.
Arguments Destroy {T} _ _.
Arguments Encrypt {T} _ _ _ _.
Arguments EncryptInit {T} _ _ _ _ _.
Arguments Finalize {T} _ _.
Arguments GetSlotList {T} _ _ _.
Arguments GetTokenInfo {T} _ _ _.
Arguments Initialize {T} _ _.
Arguments Login {T} _ _ _ _ _.
Arguments OpenSession {T} _ _ _ _.

(** One call of these functions, with what it returned. *)
Inductive Event : Type :=
| EvCloseSession (sh : SessionHandle) (err : option error)
| EvCreateObject (temp : list Attribute) (o : ObjectHandle) (err : option error)
| EvDestroy
| EvEncrypt (message out : list byte) (err : option error)
| EvEncryptInit (m : list Mechanism) (o : ObjectHandle) (err : option error)
| EvFinalize (err : option error)
| EvGetSlotList (tokenPresent : bool) (slots : list Z) (err : option error)
| EvGetTokenInfo (slotID : Z) (info : TokenInfo) (err : option error)
| EvInitialize (err : option error)
| EvLogin (sh : SessionHandle) (userType : Z) (pin : string) (err : option error)
| EvOpenSession (slotID flags : Z) (sh : SessionHandle) (err : option error).

Definition log {T X : Type} (op : T -> X * T) (ev : X -> Event)
  : T * list Event -> X * (T * list Event) :=
  fun '(st, tr) => let (x, st') := op st in (x, (st', tr ++ [ev x])).

(** [traced l] behaves as [l] and appends every call to the trace. *)
Definition traced {T : Type} (l : LibraryCtx T) : LibraryCtx (T * list Event) :=
  mkLibraryCtx (T * list Event)
    (fun sh => log (CloseSession l sh) (EvCloseSession sh))
    (fun sh temp => log (CreateObject l sh temp) (fun '(o, err) => EvCreateObject temp o err))
    (log (Destroy l) (fun _ => EvDestroy))
    (fun sh message => log (Encrypt l sh message) (fun '(out, err) => EvEncrypt message out err))
    (fun sh m o => log (EncryptInit l sh m o) (EvEncryptInit m o))
    (log (Finalize l) EvFinalize)
    (fun tokenPresent => log (GetSlotList l tokenPresent)
                           (fun '(slots, err) => EvGetSlotList tokenPresent slots err))
    (fun slotID => log (GetTokenInfo l slotID) (fun '(info, err) => EvGetTokenInfo slotID info err))
    (log (Initialize l) EvInitialize)
    (fun sh userType pin => log (Login l sh userType pin) (EvLogin sh userType pin))
    (fun slotID flags => log (OpenSession l slotID flags)
                           (fun '(sh, err) => EvOpenSession slotID flags sh err)).

(** A token context on a larger state, of which it touches its own part. *)
Definition on_fst {T U X : Type} (op : T -> X * T) : T * U -> X * (T * U) :=
  fun '(st, u) => let (x, st') := op st in (x, (st', u)).

Definition lift {T U : Type} (c : TokenCtx T) : TokenCtx (T * U) :=
  mkTokenCtx (T * U)
    (fun sh o => on_fst (pkcs11.DestroyObject c sh o))
    (fun sh max => on_fst (pkcs11.FindObjects c sh max))
    (fun sh => on_fst (pkcs11.FindObjectsFinal c sh))
    (fun sh temp => on_fst (pkcs11.FindObjectsInit c sh temp))
    (fun sh mech temp => on_fst (pkcs11.GenerateKey c sh mech temp))
    (fun sh mech pub priv => on_fst (pkcs11.GenerateKeyPair c sh mech pub priv))
    (fun sh o a => on_fst (pkcs11.GetAttributeValue c sh o a))
    (fun sh mech o => on_fst (pkcs11.SignInit c sh mech o))
    (fun sh message => on_fst (pkcs11.Sign c sh message)).

End Library.

(** The functions of package p11 that open and close the library and that
    handle AES keys. The [ctx] of the source is the pair of a
    [pkcs11.TokenCtx] and a [Library.LibraryCtx]. *)
Module p11_session.
Import pkcs11 Library.
Local Open Scope string_scope.
Local Open Scope list_scope.
Local Open Scope Z_scope.
Local Open Scope p11_scope.

Section Token.

Context {T : Type}.

(** [Finalise] (lines 158-166) *)
Definition Finalise (l : LibraryCtx T) : M T unit :=
  err <- call (Finalize l) ;;
  match err with
  | Some e => fail (errors_WithMessage e "failed to finalize library")
  | None => call (Destroy l) ;;; ret tt
  end.

(** The loop of [findSlotWithToken] (lines 276-286); [slot] is the named
    result, which the [range] assigns. *)
Fixpoint findSlotWithToken_range (l : LibraryCtx T) (label : string) (slots : list Z)
  (slot : Z) : M T (Z * option error) :=
  match slots with
  | [] => ret (slot, Some (errors_New ("cannot find token " ++ label)))
  | slot :: rest =>
    '(info, err) <- call (GetTokenInfo l slot) ;;
    match err with
    | Some e => ret (slot, Some e)
    | None =>
      if String.eqb (Label info) label then ret (slot, None)
      else findSlotWithToken_range l label rest slot
    end
  end.

(** [findSlotWithToken] (lines 269-290): the results [slot] and [err]. *)
Definition findSlotWithToken (l : LibraryCtx T) (label : string) : M T (Z * option error) :=
  '(slots, err) <- call (GetSlotList l true) ;;
  match err with
  | Some e => ret (0, Some e)
  | None => findSlotWithToken_range l label slots 0
  end.

(** [openUserSession] (lines 252-265): the results [session], [slot], [err]. *)
Definition openUserSession (l : LibraryCtx T) (tokenLabel pin : string)
  : M T (SessionHandle * Z * option error) :=
  '(slot, err) <- findSlotWithToken l tokenLabel ;;
  match err with
  | Some e => ret (0, slot, Some e)
  | None =>
    '(session, err) <- call (OpenSession l slot (Z.lor CKF_SERIAL_SESSION CKF_RW_SESSION)) ;;
    match err with
    | Some e => ret (session, slot, Some e)
    | None =>
      err <- call (Login l session CKU_USER pin) ;;
      ret (session, slot, err)
    end
  end.

(** [newP11Token] (lines 179-191): the token is [None] for [nil]. *)
Definition newP11Token (ctx : TokenCtx T) (l : LibraryCtx T) (tokenLabel pin : string)
  : M T (option (@p11.p11Token T) * option error) :=
  err <- call (Initialize l) ;;
  match err with
  | Some e => ret (None, Some e)
  | None =>
    '(session, slot, err) <- openUserSession l tokenLabel pin ;;
    ret (Some (p11.mkP11Token ctx session slot), err)
  end.

(** [Checksum] (lines 193-209) *)
Definition Checksum (p : @p11.p11Token T) (l : LibraryCtx T) (keyLabel : string)
  : M T (list byte) :=
  obj <- p11.findKeyByLabel p keyLabel ;;
  let mech := [NewMechanism CKM_AES_CBC (Go.make 16)] in
  err <- call (EncryptInit l (p11.session p) mech obj) ;;
  match err with
  | Some e => fail e
  | None =>
    '(checksum, err) <- call (Encrypt l (p11.session p) (Go.make 16)) ;;
    match err with
    | Some e => fail e
    | None => ret checksum
    end
  end.

(** [ImportKey] (lines 235-249) *)
Definition ImportKey (p : @p11.p11Token T) (l : LibraryCtx T) (keyBytes : list byte)
  (label : string) : M T unit :=
  let template :=
    [ NewAttribute CKA_CLASS (VUint CKO_SECRET_KEY);
      NewAttribute CKA_KEY_TYPE (VUint CKK_AES);
      NewAttribute CKA_VALUE (VBytes keyBytes);
      NewAttribute CKA_UNWRAP (VBool true);
      NewAttribute CKA_WRAP (VBool true);
      NewAttribute CKA_SENSITIVE (VBool true);
      NewAttribute CKA_TOKEN (VBool true);
      NewAttribute CKA_LABEL (VString label) ] in
  '(_, err) <- call (CreateObject l (p11.session p) template) ;;
  match err with
  | Some e => fail e
  | None => ret tt
  end.

End Token.

End p11_session.

(* ===================================================================== *)
(** * An in-memory library *)
(* ===================================================================== *)

(** The in-memory token with the rest of the module around it: slots that
    answer a token label or an error, sessions, a user PIN, and encryption
    under the [CKA_VALUE] of a stored key by a cipher that is given. *)
Module MemLib.
Import pkcs11 Library.

Definition CKR_SLOT_ID_INVALID : Z := 0x3.
Definition CKR_KEY_HANDLE_INVALID : Z := 0x60.
Definition CKR_PIN_INCORRECT : Z := 0xA0.
Definition CKR_SESSION_HANDLE_INVALID : Z := 0xB3.
Definition CKR_TOKEN_NOT_RECOGNIZED : Z := 0xE1.
Definition CKR_CRYPTOKI_NOT_INITIALIZED : Z := 0x190.
Definition CKR_CRYPTOKI_ALREADY_INITIALIZED : Z := 0x191.

Record config : Type := mkConfig {
  slots : list (Z * (string + error));
  user_pin : string;
  finalize_error : option error;
  cipher : list byte -> list byte -> list byte -> list byte
}.

Record lib : Type := mkLib {
  loaded : bool;
  initialized : bool;
  sessions : list (SessionHandle * Z);
  logged_in : bool;
  encrypting : option (ObjectHandle * list byte)
}.

Definition state : Type := MemToken.state * lib.

Definition slot_token (c : config) (slotID : Z) : option (string + error) :=
  option_map snd (find (fun s => fst s =? slotID) (slots c)).

Definition has_session (sh : SessionHandle) (l : lib) : bool :=
  existsb (fun s => fst s =? sh) (sessions l).

Definition key_value (o : ObjectHandle) (st : MemToken.state) : option (list byte) :=
  match MemToken.find_object o st with
  | None => None
  | Some obj => option_map Value (find (fun a => Type_ a =? CKA_VALUE) (MemToken.attributes obj))
  end.

Definition library (c : config) : LibraryCtx state :=
  mkLibraryCtx state
    (* CloseSession *)
    (fun sh '(st, l) =>
       if has_session sh l
       then (None, (st, mkLib (loaded l) (initialized l)
                           (filter (fun s => negb (fst s =? sh)) (sessions l))
                           (logged_in l) (encrypting l)))
       else (Some (pkcs11_Error CKR_SESSION_HANDLE_INVALID), (st, l)))
    (* CreateObject *)
    (fun sh temp '(st, l) =>
       if has_session sh l then
         let h := MemToken.next_handle st in
         ((h, None),
          (MemToken.mkState (MemToken.objects st ++ [MemToken.mkObject h temp])
             (MemToken.search st) (MemToken.signing st) (h + 1), l))
       else ((0, Some (pkcs11_Error CKR_SESSION_HANDLE_INVALID)), (st, l)))
    (* Destroy *)
    (fun '(st, l) =>
       (tt, (st, mkLib false (initialized l) (sessions l) (logged_in l) (encrypting l))))
    (* Encrypt *)
    (fun sh message '(st, l) =>
       match encrypting l with
       | None => (([], Some (pkcs11_Error MemToken.CKR_OPERATION_NOT_INITIALIZED)), (st, l))
       | Some (o, iv) =>
         match key_value o st with
         | None => (([], Some (pkcs11_Error CKR_KEY_HANDLE_INVALID)), (st, l))
         | Some k =>
           ((cipher c k iv message, None),
            (st, mkLib (loaded l) (initialized l) (sessions l) (logged_in l) None))
         end
       end)
    (* EncryptInit *)
    (fun sh m o '(st, l) =>
       match key_value o st, m with
       | Some _, mech :: _ =>
         (None, (st, mkLib (loaded l) (initialized l) (sessions l) (logged_in l)
                       (Some (o, Parameter_ mech))))
       | _, _ => (Some (pkcs11_Error CKR_KEY_HANDLE_INVALID), (st, l))
       end)
    (* Finalize *)
    (fun '(st, l) =>
       match finalize_error c with
       | Some e => (Some e, (st, l))
       | None =>
         if initialized l
         then (None, (st, mkLib (loaded l) false [] false None))
         else (Some (pkcs11_Error CKR_CRYPTOKI_NOT_INITIALIZED), (st, l))
       end)
    (* GetSlotList *)
    (fun tokenPresent '(st, l) =>
       if initialized l then ((map fst (slots c), None), (st, l))
       else (([], Some (pkcs11_Error CKR_CRYPTOKI_NOT_INITIALIZED)), (st, l)))
    (* GetTokenInfo *)
    (fun slotID '(st, l) =>
       match slot_token c slotID with
       | None => ((mkTokenInfo "", Some (pkcs11_Error CKR_SLOT_ID_INVALID)), (st, l))
       | Some (inr e) => ((mkTokenInfo "", Some e), (st, l))
       | Some (inl label) => ((mkTokenInfo label, None), (st, l))
       end)
    (* Initialize *)
    (fun '(st, l) =>
       if initialized l
       then (Some (pkcs11_Error CKR_CRYPTOKI_ALREADY_INITIALIZED), (st, l))
       else (None, (st, mkLib (loaded l) true (sessions l) (logged_in l) (encrypting l))))
    (* Login *)
    (fun sh userType pin '(st, l) =>
       if has_session sh l then
         if String.eqb pin (user_pin c)
         then (None, (st, mkLib (loaded l) (initialized l) (sessions l) true (encrypting l)))
         else (Some (pkcs11_Error CKR_PIN_INCORRECT), (st, l))
       else (Some (pkcs11_Error CKR_SESSION_HANDLE_INVALID), (st, l)))
    (* OpenSession *)
    (fun slotID flags '(st, l) =>
       match slot_token c slotID with
       | Some (inl _) =>
         let sh := Z.of_nat (length (sessions l)) + 1 in
         ((sh, None),
          (st, mkLib (loaded l) (initialized l) (sessions l ++ [(sh, slotID)])
                 (logged_in l) (encrypting l)))
       | _ => ((0, Some (pkcs11_Error CKR_SLOT_ID_INVALID)), (st, l))
       end).

(** The in-memory token inside the library. *)
Definition token (b : MemToken.behaviour) : TokenCtx state := lift (MemToken.token b).

(** The library loaded and not yet initialised, and the library after a
    user session has been opened on [slotID]. *)
Definition unused : lib := mkLib true false [] false None.
Definition in_session (slotID : Z) : lib := mkLib true true [(1, slotID)] true None.

End MemLib.

(** Reading a record of library calls. *)
Module LibCalls.
Import Library.

(** [GetTokenInfo] on each of [slots], answered without error by [infos]. *)
Definition queried (slots : list Z) (infos : list TokenInfo) : list Event :=
  map (fun '(s, i) => EvGetTokenInfo s i None) (combine slots infos).


End LibCalls.

(** Libraries for the runs: three slots, of which the second and the third
    hold a token labelled [dimo]; the same with a first slot whose token is
    not recognised; and a library whose [Finalize] fails. *)
Module LibRuns.
Import Library.

Definition xor_cipher (key iv message : list byte) : list byte :=
  map (fun '(k, m) => Go.byte_of_Z (Z.lxor (Go.byte_val k) (Go.byte_val m)))
      (combine key message).

Definition three_slots : MemLib.config :=
  MemLib.mkConfig [(0, inl "other"); (1, inl "dimo"); (2, inl "dimo")]%string
    "1234" None xor_cipher.

Definition broken_first_slot : MemLib.config :=
  MemLib.mkConfig
    [(0, inr (pkcs11_Error MemLib.CKR_TOKEN_NOT_RECOGNIZED)); (1, inl "dimo")]%string
    "1234" None xor_cipher.

Definition finalize_fails : MemLib.config :=
  MemLib.mkConfig [(0, inl "dimo")]%string "1234"
    (Some (pkcs11_Error pkcs11.CKR_FUNCTION_FAILED)) xor_cipher.

(** The token of the in-memory library, on session 1 of slot 1. *)
Definition p11Token (b : MemToken.behaviour) : @p11.p11Token MemLib.state :=
  p11.mkP11Token (MemLib.token b) 1 1.

(** An AES key on the token. *)
Definition aes_key (h : pkcs11.ObjectHandle) (label : string) (value : list byte)
  : MemToken.Object :=
  MemToken.mkObject h
    [ pkcs11.NewAttribute pkcs11.CKA_CLASS (pkcs11.VUint pkcs11.CKO_SECRET_KEY);
      pkcs11.NewAttribute pkcs11.CKA_VALUE (pkcs11.VBytes value);
      pkcs11.NewAttribute pkcs11.CKA_LABEL (pkcs11.VString label) ].

(** The in-memory token beside a record of library calls. *)
Definition recorded_token : pkcs11.TokenCtx (MemLib.state * list Event) :=
  lift (MemLib.token (Runs.signs [])).

End LibRuns.

(* ===================================================================== *)
(** * The flags that PrintMechanisms prints *)
(* ===================================================================== *)

(** Go's [sort.Strings], as an insertion sort on the byte-wise order of
    strings, and [strings.Join]. *)
Module sort.

Fixpoint insert (x : string) (l : list string) : list string :=
  match l with
  | [] => [x]
  | y :: rest => if String.leb x y then x :: l else y :: insert x rest
  end.

Definition Strings (x : list string) : list string := fold_right insert [] x.

End sort.

Module strings.

Fixpoint Join (elems : list string) (sep : string) : string :=
  match elems with
  | [] => EmptyString
  | [x] => x
  | x :: rest => (x ++ sep ++ Join rest sep)%string
  end.

End strings.

Module p11_mechanisms.
Local Open Scope string_scope.
Local Open Scope list_scope.
Local Open Scope Z_scope.

Definition CKF_HW : Z := 0x1.
Definition CKF_ENCRYPT : Z := 0x100.
Definition CKF_DECRYPT : Z := 0x200.
Definition CKF_DIGEST : Z := 0x400.
Definition CKF_SIGN : Z := 0x800.
Definition CKF_SIGN_RECOVER : Z := 0x1000.
Definition CKF_VERIFY : Z := 0x2000.
Definition CKF_VERIFY_RECOVER : Z := 0x4000.
Definition CKF_GENERATE : Z := 0x8000.
Definition CKF_GENERATE_KEY_PAIR : Z := 0x10000.
Definition CKF_WRAP : Z := 0x20000.
Definition CKF_UNWRAP : Z := 0x40000.
Definition CKF_DERIVE : Z := 0x80000.

(** The map literal [possibleFlags] of [PrintMechanisms] (lines 637-651),
    in the order of the text. *)
Definition possibleFlags : list (string * Z) :=
  [ ("CKF_HW", CKF_HW);
    ("CKF_ENCRYPT", CKF_ENCRYPT);
    ("CKF_DECRYPT", CKF_DECRYPT);
    ("CKF_DIGEST", CKF_DIGEST);
    ("CKF_SIGN", CKF_SIGN);
    ("CKF_SIGN_RECOVER", CKF_SIGN_RECOVER);
    ("CKF_VERIFY", CKF_VERIFY);
    ("CKF_VERIFY_RECOVER", CKF_VERIFY_RECOVER);
    ("CKF_GENERATE", CKF_GENERATE);
    ("CKF_GENERATE_KEY_PAIR", CKF_GENERATE_KEY_PAIR);
    ("CKF_WRAP", CKF_WRAP);
    ("CKF_UNWRAP", CKF_UNWRAP);
    ("CKF_DERIVE", CKF_DERIVE) ].

(** The [for name, value := range possibleFlags] of lines 655-659. Go
    visits the entries of a map in an order that it does not fix: [visit]
    is the order of one run. *)
Fixpoint PrintMechanisms_range (visit : list (string * Z)) (infoFlags : Z)
  (flags : list string) : list string :=
  match visit with
  | [] => flags
  | (name, value) :: rest =>
    PrintMechanisms_range rest infoFlags
      (if negb (Z.land infoFlags value =? 0) then flags ++ [name] else flags)
  end.

(** Lines 653-660: [flags] after [sort.Strings(flags)]. *)
Definition PrintMechanisms_flags (visit : list (string * Z)) (infoFlags : Z) : list string :=
  sort.Strings (PrintMechanisms_range visit infoFlags []).

(** Line 662: the text printed, without the newline. *)
Definition PrintMechanisms_flags_line (visit : list (string * Z)) (infoFlags : Z) : string :=
  "  Flags=" ++ strings.Join (PrintMechanisms_flags visit infoFlags) ", ".

End p11_mechanisms.

(* ===================================================================== *)
(** * Properties of the byte-level helpers *)
(* ===================================================================== *)

Section GoFacts.

Import Go.

Example Go_SetBytes_ex : SetBytes [x01; x00] = 256.
Proof. reflexivity. Qed.
Example Go_Bytes_ex : Bytes 65535 = [xff; xff] /\ Bytes 0 = [] /\ Bytes (-256) = [x01; x00].
Proof. repeat split. Qed.
Example Go_itoa_ex : itoa 4096 = "4096"%string /\ itoa (-7) = "-7"%string.
Proof. split; reflexivity. Qed.

Lemma byte_val_range (b : byte) : 0 <= byte_val b < 256.
Proof.
  unfold byte_val. pose proof (Byte.to_N_bounded b) as H.
  split; [apply N2Z.is_nonneg | ]. lia.
Qed.

Lemma byte_val_x00 (b : byte) : byte_val b = 0 -> b = x00.
Proof.
  unfold byte_val. intros H.
  assert (E : Byte.to_N b = 0%N) by lia.
  apply (f_equal Byte.of_N) in E. rewrite Byte.of_to_N in E.
  now inversion E.
Qed.

Lemma skipn_repeat_byte (k n : nat) (x : byte) :
  skipn k (repeat x n) = repeat x (n - k).
Proof.
  revert k. induction n as [|n IH]; intros [|k]; simpl; auto.
Qed.

Lemma copy_make (n : nat) (src : list byte) :
  copy (make n) src = firstn n src ++ repeat x00 (n - length src).
Proof.
  unfold copy, make. now rewrite repeat_length, skipn_repeat_byte.
Qed.

Lemma SetBytes_from (b : list byte) (acc : Z) :
  fold_left (fun a x => a * 256 + byte_val x) b acc =
  acc * 256 ^ Z.of_nat (length b) + SetBytes b.
Proof.
  unfold SetBytes. revert acc.
  induction b as [|x b IH]; intros acc.
  - simpl. lia.
  - cbn [fold_left length]. rewrite IH, (IH (0 * 256 + byte_val x)).
    rewrite Nat2Z.inj_succ, Z.pow_succ_r by lia. ring.
Qed.

Lemma SetBytes_cons (x : byte) (b : list byte) :
  SetBytes (x :: b) = byte_val x * 256 ^ Z.of_nat (length b) + SetBytes b.
Proof.
  unfold SetBytes at 1. cbn [fold_left]. rewrite SetBytes_from. ring.
Qed.

Lemma SetBytes_app (a b : list byte) :
  SetBytes (a ++ b) = SetBytes a * 256 ^ Z.of_nat (length b) + SetBytes b.
Proof.
  unfold SetBytes at 1. rewrite fold_left_app.
  fold (SetBytes a). apply SetBytes_from.
Qed.

Lemma SetBytes_zeros (n : nat) : SetBytes (repeat x00 n) = 0.
Proof.
  induction n as [|n IH]; [reflexivity|].
  cbn [repeat]. rewrite SetBytes_cons, IH. reflexivity.
Qed.

Lemma SetBytes_trim_zeros (b : list byte) : SetBytes (trim_zeros b) = SetBytes b.
Proof.
  induction b as [|x b IH]; [reflexivity|].
  destruct x; try reflexivity.
  cbn [trim_zeros]. rewrite IH, SetBytes_cons. reflexivity.
Qed.

Lemma SetBytes_bound (b : list byte) : 0 <= SetBytes b < 256 ^ Z.of_nat (length b).
Proof.
  induction b as [|x b IH].
  - cbn. lia.
  - rewrite SetBytes_cons. cbn [length]. rewrite Nat2Z.inj_succ, Z.pow_succ_r by lia.
    pose proof (byte_val_range x). nia.
Qed.

Lemma trim_zeros_length (b : list byte) : (length (trim_zeros b) <= length b)%nat.
Proof.
  induction b as [|x b IH]; [simpl; lia|].
  destruct x; simpl; lia.
Qed.

Lemma be_bytes_length (n : nat) (z : Z) : length (be_bytes n z) = n.
Proof.
  revert z. induction n as [|n IH]; intros z; [reflexivity|].
  cbn [be_bytes]. rewrite length_app, IH. simpl. lia.
Qed.

Lemma Bytes_length (z : Z) :
  (length (Bytes z) <= Z.to_nat (Z.log2 (Z.abs z) / 8 + 1))%nat.
Proof.
  unfold Bytes. etransitivity; [apply trim_zeros_length|].
  now rewrite be_bytes_length.
Qed.

End GoFacts.

(* ===================================================================== *)
(** * [fixLen] and the normalization of R and S *)
(* ===================================================================== *)

Section FixLen.

Import p11.

Lemma fixLen_scan_skipn (b : list byte) : skipn (fixLen_scan b) b = Go.trim_zeros b.
Proof.
  induction b as [|x b IH]; [reflexivity|].
  destruct x; try reflexivity. cbn [fixLen_scan Go.trim_zeros skipn]. exact IH.
Qed.

Lemma fixLen_scan_length (b : list byte) :
  (fixLen_scan b + length (Go.trim_zeros b) = length b)%nat.
Proof.
  induction b as [|x b IH]; [reflexivity|].
  destruct x; cbn [fixLen_scan Go.trim_zeros length]; lia.
Qed.

(** What [fixLen] computes: the bytes after the leading zeros, cut to 32,
    FOLLOWED by the zero bytes that fill the 32. *)
Lemma fixLen_spec (b : list byte) :
  fixLen b = firstn 32 (Go.trim_zeros b) ++ repeat x00 (32 - length (Go.trim_zeros b)).
Proof.
  unfold fixLen, HashLength. now rewrite copy_make, fixLen_scan_skipn.
Qed.

Lemma fixLen_length (b : list byte) : length (fixLen b) = 32%nat.
Proof.
  rewrite fixLen_spec, length_app, length_firstn, repeat_length. lia.
Qed.

(** On a slice of at most 32 bytes, [fixLen] multiplies the integer by 256
    for every byte it is short of 32 after the leading zeros are dropped. *)
Lemma fixLen_value (b : list byte) :
  (length b <= 32)%nat ->
  Go.SetBytes (fixLen b) =
  Go.SetBytes b * 256 ^ Z.of_nat (32 - length (Go.trim_zeros b)).
Proof.
  intros H. rewrite fixLen_spec.
  pose proof (trim_zeros_length b) as Hl.
  rewrite firstn_all2 by lia.
  rewrite SetBytes_app, SetBytes_zeros, repeat_length, SetBytes_trim_zeros.
  lia.
Qed.

Lemma slice_length {A : Type} (b s : list A) (lo hi : nat) :
  Go.slice b lo hi = Some s -> length s = (hi - lo)%nat.
Proof.
  unfold Go.slice. destruct (Nat.leb lo hi && Nat.leb hi (length b))%bool eqn:E;
    [|discriminate].
  intros H. inversion H; subst. apply andb_true_iff in E as [E1 E2].
  apply Nat.leb_le in E1, E2.
  rewrite length_firstn, length_skipn. lia.
Qed.

Lemma Some_inj {A : Type} (a b : A) : Some a = Some b -> a = b.
Proof. intros H. now injection H. Qed.

Lemma Sign_sigRS_length (sig rs : list byte) :
  Sign_sigRS sig = Some rs -> length rs = 64%nat.
Proof.
  unfold Sign_sigRS.
  destruct (Go.slice sig 0 32); [|discriminate].
  destruct (Go.slice sig 32 64); [|discriminate].
  intros H. apply Some_inj in H. rewrite <- H.
  now rewrite length_app, !fixLen_length.
Qed.

End FixLen.

Section SignNormalization.

Import p11.

Lemma Bytes_at_most_32 (z : Z) : Z.abs z < 2 ^ 256 -> (length (Go.Bytes z) <= 32)%nat.
Proof.
  intros H. etransitivity; [apply Bytes_length|].
  assert (Hl : Z.log2 (Z.abs z) < 256).
  { destruct (Z.eq_dec (Z.abs z) 0) as [E|E].
    - rewrite E. reflexivity.
    - apply Z.log2_lt_pow2; lia. }
  pose proof (Z.log2_nonneg (Z.abs z)) as Hn.
  assert (Z.log2 (Z.abs z) / 8 < 32) by (apply Z.div_lt_upper_bound; lia).
  assert (0 <= Z.log2 (Z.abs z) / 8) by (apply Z.div_pos; lia).
  lia.
Qed.

Lemma fixLen_short (b : list byte) :
  (length b <= 32)%nat ->
  fixLen b = Go.trim_zeros b ++ repeat x00 (32 - length (Go.trim_zeros b)).
Proof.
  intros H. rewrite fixLen_spec, firstn_all2; [reflexivity|].
  pose proof (trim_zeros_length b). lia.
Qed.

Lemma slice_64 (sig : list byte) :
  length sig = 64%nat ->
  Go.slice sig 0 32 = Some (firstn 32 sig) /\ Go.slice sig 32 64 = Some (skipn 32 sig).
Proof.
  intros H. unfold Go.slice. rewrite H. cbn [Nat.leb andb Nat.sub]. split.
  - reflexivity.
  - f_equal. apply firstn_all2. rewrite length_skipn. lia.
Qed.

End SignNormalization.

(** C3 (the code pads on the wrong side). What lines 413-422 of [Sign] make
    of a raw 64-byte output R||S: S is replaced by N - S when it exceeds N/2,
    as the claim says; but R and that S are then written WITHOUT their leading
    zero bytes at the START of their 32 bytes and the zero bytes FOLLOW them,
    so that the R of the output is the integer R multiplied by 256 for each
    leading zero byte it had: R is changed, and neither is left-padded. *)
Theorem C3_Sign_pads_R_and_S_on_the_right (sig : list byte) :
  length sig = 64%nat ->
  let sigR := firstn 32 sig in
  let sigS := skipn 32 sig in
  let sigS' := if Go.SetBytes sigS >? p11.secp256k1HalfN
               then Go.Bytes (p11.secp256k1N - Go.SetBytes sigS)
               else sigS in
  exists outR outS : list byte,
    p11.Sign_sigRS sig = Some (outR ++ outS) /\
    outR = Go.trim_zeros sigR ++ repeat x00 (32 - length (Go.trim_zeros sigR)) /\
    outS = Go.trim_zeros sigS' ++ repeat x00 (32 - length (Go.trim_zeros sigS')) /\
    Go.SetBytes outR = Go.SetBytes sigR * 256 ^ Z.of_nat (p11.fixLen_scan sigR).
Proof.
  intros Hlen sigR sigS sigS'.
  assert (HR : length sigR = 32%nat) by (unfold sigR; rewrite length_firstn; lia).
  assert (HS : length sigS = 32%nat) by (unfold sigS; rewrite length_skipn; lia).
  assert (HS' : (length sigS' <= 32)%nat).
  { unfold sigS'. destruct (Go.SetBytes sigS >? p11.secp256k1HalfN); [|lia].
    apply Bytes_at_most_32.
    pose proof (SetBytes_bound sigS) as Hb. rewrite HS in Hb.
    assert (0 < p11.secp256k1N < 2 ^ 256) by (split; reflexivity).
    change (256 ^ Z.of_nat 32) with (2 ^ 256) in Hb. lia. }
  exists (p11.fixLen sigR), (p11.fixLen sigS').
  destruct (slice_64 sig Hlen) as [E1 E2].
  repeat split.
  - unfold p11.Sign_sigRS. rewrite E1, E2. reflexivity.
  - apply fixLen_short. lia.
  - apply fixLen_short. exact HS'.
  - rewrite fixLen_value by lia. do 2 f_equal.
    pose proof (fixLen_scan_length sigR). lia.
Qed.

(** The raw output [Runs.raw_short_R], whose R starts with one zero byte:
    the R of the result is 256 times the R of the token. *)
Lemma C3_witness_raw_short_R :
  length Runs.raw_short_R = 64%nat /\
  let sigR := firstn 32 Runs.raw_short_R in
  let sigS := skipn 32 Runs.raw_short_R in
  let sigS' := if Go.SetBytes sigS >? p11.secp256k1HalfN
               then Go.Bytes (p11.secp256k1N - Go.SetBytes sigS)
               else sigS in
  exists outR outS : list byte,
    p11.Sign_sigRS Runs.raw_short_R = Some (outR ++ outS) /\
    outR = Go.trim_zeros sigR ++ repeat x00 (32 - length (Go.trim_zeros sigR)) /\
    outS = Go.trim_zeros sigS' ++ repeat x00 (32 - length (Go.trim_zeros sigS')) /\
    Go.SetBytes outR = Go.SetBytes sigR * 256 ^ Z.of_nat (p11.fixLen_scan sigR).
Proof.
  split; [reflexivity|].
  exact (C3_Sign_pads_R_and_S_on_the_right Runs.raw_short_R eq_refl).
Defined.

Example Sign_sigRS_raw_short_R :
  p11.Sign_sigRS Runs.raw_short_R =
  Some (Hex.decode "d089c437525f44cbe9cdb9fed96b8d3a7e2856185621566a5118be1632adb500"
        ++ Hex.decode "14c16d43fe4cd1b08331a8d60191846d928f952790cfa38ec767f9e7340b6c73")
  /\ firstn 32 Runs.raw_short_R =
     Hex.decode "00d089c437525f44cbe9cdb9fed96b8d3a7e2856185621566a5118be1632adb5".
Proof. split; vm_compute; reflexivity. Qed.

(* ===================================================================== *)
(** * Running the package's functions *)
(* ===================================================================== *)

Section Running.

Import pkcs11 p11.

Context {T : Type}.
Variable PublicKey : Type.
Variable Ecrecover : list byte -> list byte -> list byte + error.
Variable UnmarshalPubkey : list byte -> PublicKey + error.

Local Abbreviation GetPublicKey := (p11.GetPublicKey PublicKey UnmarshalPubkey).
Local Abbreviation Sign := (p11.Sign PublicKey Ecrecover UnmarshalPubkey).
Local Abbreviation Verify := (p11.Verify PublicKey Ecrecover UnmarshalPubkey).
Local Abbreviation Sign_recover := (p11.Sign_recover Ecrecover).

(** The search returned [objects]: what the two checks make of them. *)
Lemma resolveUnique_found (fuel : nat) (p : p11Token) (template : list Attribute)
  (st st' : T) (objects : list ObjectHandle) :
  findAllMatching fuel p template st = (Ok objects, st') ->
  resolveUnique fuel p template st =
  (match objects with
   | [] => Err err_no_matching
   | [o] => Ok o
   | _ :: _ :: _ => Err err_more_than_one
   end, st').
Proof.
  intros H. unfold resolveUnique, bind. rewrite H.
  destruct objects as [|o [|o' rest]]; reflexivity.
Qed.

(** The search did not return: neither does the resolution. *)
Lemma resolveUnique_not_found (fuel : nat) (p : p11Token) (template : list Attribute)
  (st st' : T) (o : outcome (list ObjectHandle)) :
  findAllMatching fuel p template st = (o, st') ->
  succeeded o = false ->
  succeeded (fst (resolveUnique fuel p template st)) = false.
Proof.
  intros H Ho. unfold resolveUnique, bind. rewrite H.
  destruct o; try reflexivity. discriminate.
Qed.

Lemma GetPublicKey_run (fuel : nat) (p : p11Token) (label keyid : string)
  (st st1 st2 : T) (o : ObjectHandle) (attr : list Attribute) (err : option error)
  (ecpt : list byte) :
  resolveUnique fuel p (key_template CKO_PUBLIC_KEY label keyid) st = (Ok o, st1) ->
  GetAttributeValue (ctx p) (session p) o [NewAttribute CKA_EC_POINT VNil] st1
    = ((attr, err), st2) ->
  ecPoint_range attr [] = Some ecpt ->
  GetPublicKey fuel p label keyid st =
  (match UnmarshalPubkey ecpt with
   | inl pub => Ok (pub, ecpt)
   | inr e => Err e
   end, st2).
Proof.
  intros H1 H2 H3. unfold p11.GetPublicKey, ecPoint, bind, call. rewrite H1, H2.
  unfold checked. rewrite H3. unfold ret, fail.
  destruct (UnmarshalPubkey ecpt); reflexivity.
Qed.

Lemma add27_at64_app (rs : list byte) (v : byte) :
  length rs = 64%nat ->
  add27_at64 (rs ++ [v]) = Some (rs ++ [Go.byte_of_Z (Go.byte_val v + 27)]).
Proof.
  intros H. unfold add27_at64, Go.index.
  rewrite nth_error_app2 by lia. rewrite H. cbn [Nat.sub nth_error].
  rewrite firstn_app, firstn_all2, skipn_app, skipn_all2 by (simpl; lia).
  rewrite H. cbn [Nat.sub firstn skipn]. now rewrite app_nil_r.
Qed.

Lemma Sign_run (fuel : nat) (p : p11Token) (label keyid : string) (hash : list byte)
  (st st1 st2 st3 st4 : T) (o : ObjectHandle) (sig ecpt rs : list byte)
  (pub : PublicKey) :
  resolveUnique fuel p (key_template CKO_PRIVATE_KEY label keyid) st = (Ok o, st1) ->
  SignInit (ctx p) (session p) [NewMechanism CKM_ECDSA []] o st1 = (None, st2) ->
  pkcs11.Sign (ctx p) (session p) hash st2 = ((sig, None), st3) ->
  GetPublicKey fuel p label keyid st3 = (Ok (pub, ecpt), st4) ->
  Sign_sigRS sig = Some rs ->
  Sign fuel p label keyid hash st = (Sign_recover hash ecpt rs, st4).
Proof.
  intros H1 H2 H3 H4 H5. unfold p11.Sign, bind, call.
  rewrite H1, H2, H3, H4. unfold checked at 1. rewrite H5. unfold ret, Sign_recover.
  pose proof (Sign_sigRS_length _ _ H5) as Hl.
  rewrite !add27_at64_app by exact Hl.
  destruct (Ecrecover hash (rs ++ [x00])) as [r0|e0]; [|reflexivity].
  destruct (bytes_eqb r0 ecpt); [reflexivity|].
  destruct (Ecrecover hash (rs ++ [x01])) as [r1|e1]; [|reflexivity].
  destruct (bytes_eqb r1 ecpt); reflexivity.
Qed.

(** A signature that [Sign] returns is 64 bytes followed by 27 or 28. *)
Lemma Sign_returns_27_or_28 (fuel : nat) (p : p11Token) (label keyid : string)
  (hash : list byte) (st st' : T) (sig : list byte) :
  Sign fuel p label keyid hash st = (Ok sig, st') ->
  exists rs : list byte,
    length rs = 64%nat /\ (sig = rs ++ [x1b] \/ sig = rs ++ [x1c]).
Proof.
  unfold p11.Sign, bind, call.
  destruct (resolveUnique fuel p _ st) as [[o| | | |] st1]; try discriminate.
  destruct (SignInit _ _ _ _ st1) as [[e|] st2]; [unfold fatal; discriminate|].
  destruct (pkcs11.Sign _ _ _ st2) as [[sig0 [e|]] st3]; [unfold fail; discriminate|].
  destruct (GetPublicKey fuel p label keyid st3) as [[[pub ecpt]| | | |] st4];
    try discriminate.
  unfold checked at 1.
  destruct (Sign_sigRS sig0) as [rs|] eqn:Hrs; [|unfold panic; discriminate].
  pose proof (Sign_sigRS_length _ _ Hrs) as Hl.
  unfold ret. rewrite !add27_at64_app by exact Hl. unfold checked, ret, fail.
  destruct (Ecrecover hash (rs ++ [x00])) as [r0|e0]; [|discriminate].
  destruct (bytes_eqb r0 ecpt).
  - intros H. exists rs. split; [exact Hl|]. left.
    assert (E : Ok (A:=list byte) (rs ++ [Go.byte_of_Z (Go.byte_val x00 + 27)]) = Ok sig)
      by exact (f_equal fst H).
    change (Go.byte_of_Z (Go.byte_val x00 + 27)) with x1b in E. congruence.
  - destruct (Ecrecover hash (rs ++ [x01])) as [r1|e1]; [|discriminate].
    destruct (bytes_eqb r1 ecpt); [|discriminate].
    intros H. exists rs. split; [exact Hl|]. right.
    assert (E : Ok (A:=list byte) (rs ++ [Go.byte_of_Z (Go.byte_val x01 + 27)]) = Ok sig)
      by exact (f_equal fst H).
    change (Go.byte_of_Z (Go.byte_val x01 + 27)) with x1c in E. congruence.
Qed.

End Running.

Section EcPointFacts.

Import pkcs11 p11.

Lemma bytes_eqb_refl (b : list byte) : bytes_eqb b b = true.
Proof.
  induction b as [|x b IH]; [reflexivity|].
  cbn [bytes_eqb]. rewrite IH, andb_true_r. unfold Go.byte_eqb.
  destruct (Byte.eqb x x) eqn:E; [reflexivity|].
  apply Byte.eqb_false in E. congruence.
Qed.

(** The octet string that wraps an uncompressed point, [04 41 04 X Y], is
    the second case of the [switch]: the two bytes in front are dropped. *)
Lemma ecPoint_switch_wrapped (point : list byte) :
  length point = 65%nat ->
  Go.index point 0 = Some x04 ->
  ecPoint_switch (Runs.wrapped point) = Some point.
Proof.
  intros Hl H0. destruct point as [|b point]; [discriminate|].
  cbn in H0. apply Some_inj in H0. subst b.
  cbn [length] in Hl. assert (Hl' : length point = 64%nat) by lia.
  unfold ecPoint_switch, Runs.wrapped. cbn [length]. rewrite Hl'.
  cbn -[skipn firstn]. unfold Go.slice. cbn [length]. rewrite Hl'.
  cbn [Nat.leb andb Nat.sub skipn]. f_equal. apply firstn_all2.
  cbn [length]. lia.
Qed.

(** A two-byte value that starts with 0x04: the first case when it also
    ends with 0x04, and otherwise the second case, which reads index 2. *)
Lemma ecPoint_switch_two_bytes (b : byte) :
  ecPoint_switch [x04; b] = if Go.byte_eqb x04 b then Some [x04] else None.
Proof.
  unfold ecPoint_switch. cbn -[Go.byte_eqb].
  change (Go.byte_eqb x04 x04) with true. cbn -[Go.byte_eqb].
  destruct (Go.byte_eqb x04 b); reflexivity.
Qed.

End EcPointFacts.

(* ===================================================================== *)
(** * Signing and verifying *)
(* ===================================================================== *)

(** C1 (the code does not do this). go-ethereum's [Ecrecover] answers an
    error for a signature whose recovery byte is 4 or more. [Sign] returns 64
    bytes followed by 27 or 28, and [Verify] hands the signature to
    [Ecrecover] as it is: so on every token, for every key and hash, [Verify]
    does not succeed on a signature that [Sign] returned. *)
Theorem C1_Verify_rejects_what_Sign_returns :
  forall (T PublicKey : Type)
         (Ecrecover : list byte -> list byte -> list byte + error)
         (UnmarshalPubkey : list byte -> PublicKey + error),
    (forall (hash sig : list byte) (v : byte),
        Go.index sig 64 = Some v -> 4 <= Go.byte_val v ->
        exists e : error, Ecrecover hash sig = inr e) ->
    forall (fuel : nat) (p : @p11.p11Token T) (label keyid : string)
           (hash sig : list byte) (st st' : T),
      p11.Sign PublicKey Ecrecover UnmarshalPubkey fuel p label keyid hash st
        = (Ok sig, st') ->
      length sig = 65%nat /\
      (Go.index sig 64 = Some x1b \/ Go.index sig 64 = Some x1c) /\
      forall (fuel' : nat) (st1 : T),
        succeeded
          (fst (p11.Verify PublicKey Ecrecover UnmarshalPubkey fuel' p label keyid
                  hash sig st1)) = false.
Proof.
  intros T PublicKey Ecrecover UnmarshalPubkey Hrec fuel p label keyid hash sig st st' H.
  destruct (Sign_returns_27_or_28 _ _ _ _ _ _ _ _ _ _ _ H) as (rs & Hl & Hsig).
  assert (Hv : Go.index sig 64 = Some x1b \/ Go.index sig 64 = Some x1c).
  { unfold Go.index. destruct Hsig as [-> | ->]; [left|right];
      rewrite nth_error_app2 by lia; rewrite Hl; reflexivity. }
  split; [|split; [exact Hv|]].
  - destruct Hsig as [-> | ->]; rewrite length_app, Hl; reflexivity.
  - intros fuel' st1. unfold p11.Verify, bind.
    destruct (p11.GetPublicKey PublicKey UnmarshalPubkey fuel' p label keyid st1)
      as [[[pub ecpt]| | | |] st2]; try reflexivity.
    assert (He : exists e, Ecrecover hash sig = inr e).
    { destruct Hv as [Hv|Hv]; apply (Hrec hash sig _ Hv); vm_compute; discriminate. }
    destruct He as [e ->]. reflexivity.
Qed.

Lemma Stub_Ecrecover_recovery_id (point0 point1 hash sig : list byte) (v : byte) :
  Go.index sig 64 = Some v -> 4 <= Go.byte_val v ->
  exists e : error, Stub.Ecrecover point0 point1 hash sig = inr e.
Proof.
  intros Hi Hv. unfold Stub.Ecrecover.
  destruct (negb (Nat.eqb (length hash) 32)); [eexists; reflexivity|].
  destruct (negb (Nat.eqb (length sig) 65)); [eexists; reflexivity|].
  rewrite Hi. apply Z.leb_le in Hv. rewrite Hv. eexists; reflexivity.
Qed.

(** The token with the key pair [clitest] of the private key 1, which
    answers the signature [Runs.raw_plain] of [Runs.hash0]: [Sign] returns
    [Runs.sig_plain], which ends in 28, and [Verify] of it does not succeed. *)
Lemma C1_witness_clitest :
  p11.Sign Stub.PublicKey (Stub.Ecrecover Runs.recovered0_plain Runs.pub_G) Stub.UnmarshalPubkey
    5 (MemToken.p11Token (Runs.signs Runs.raw_plain)) "clitest" "" Runs.hash0
    (MemToken.fresh (Runs.key_pair Runs.pub_G))
  = (Ok Runs.sig_plain, MemToken.fresh (Runs.key_pair Runs.pub_G))
  /\
  (length Runs.sig_plain = 65%nat /\
   (Go.index Runs.sig_plain 64 = Some x1b \/ Go.index Runs.sig_plain 64 = Some x1c) /\
   forall (fuel' : nat) (st1 : MemToken.state),
     succeeded
       (fst (p11.Verify Stub.PublicKey (Stub.Ecrecover Runs.recovered0_plain Runs.pub_G)
               Stub.UnmarshalPubkey fuel'
               (MemToken.p11Token (Runs.signs Runs.raw_plain)) "clitest" ""
               Runs.hash0 Runs.sig_plain st1)) = false).
Proof.
  assert (H : p11.Sign Stub.PublicKey (Stub.Ecrecover Runs.recovered0_plain Runs.pub_G)
                Stub.UnmarshalPubkey 5 (MemToken.p11Token (Runs.signs Runs.raw_plain))
                "clitest" "" Runs.hash0 (MemToken.fresh (Runs.key_pair Runs.pub_G))
              = (Ok Runs.sig_plain, MemToken.fresh (Runs.key_pair Runs.pub_G)))
    by (vm_compute; reflexivity).
  split; [exact H|].
  exact (C1_Verify_rejects_what_Sign_returns _ _ _ _
           (Stub_Ecrecover_recovery_id Runs.recovered0_plain Runs.pub_G)
           _ _ _ _ _ _ _ _ H).
Defined.

Example Verify_clitest :
  fst (p11.Verify Stub.PublicKey (Stub.Ecrecover Runs.recovered0_plain Runs.pub_G)
         Stub.UnmarshalPubkey 5 (MemToken.p11Token (Runs.signs Runs.raw_plain))
         "clitest" "" Runs.hash0 Runs.sig_plain
         (MemToken.fresh (Runs.key_pair Runs.pub_G)))
  = Err (crypto_error "invalid signature recovery id").
Proof. vm_compute. reflexivity. Qed.

(** [recoverAddress], the other reader of signatures in the package, takes
    the 27 off before it calls [Ecrecover]: on what [Sign] returns, it
    recovers from the recovery byte 0 or 1. *)
Lemma recoverAddress_takes_27_off (PublicKey Address : Type)
  (Ecrecover : list byte -> list byte -> list byte + error)
  (UnmarshalPubkey : list byte -> PublicKey + error)
  (PubkeyToAddress : PublicKey -> Address) (hash rs : list byte) :
  length rs = 64%nat ->
  p11.recoverAddress PublicKey Ecrecover UnmarshalPubkey Address PubkeyToAddress
    hash (rs ++ [x1b])
  = p11.recoverAddress PublicKey Ecrecover UnmarshalPubkey Address PubkeyToAddress
      hash (rs ++ [x00]) /\
  p11.recoverAddress PublicKey Ecrecover UnmarshalPubkey Address PubkeyToAddress
    hash (rs ++ [x1c])
  = p11.recoverAddress PublicKey Ecrecover UnmarshalPubkey Address PubkeyToAddress
      hash (rs ++ [x01]) /\
  p11.sub27_at64 (rs ++ [x1b]) = Some (rs ++ [x00]) /\
  p11.sub27_at64 (rs ++ [x1c]) = Some (rs ++ [x01]).
Proof.
  intros Hl.
  assert (H : forall v : byte,
             p11.sub27_at64 (rs ++ [v]) =
             if (Go.byte_val v =? 27) || (Go.byte_val v =? 28)
             then Some (rs ++ [Go.byte_of_Z (Go.byte_val v - 27)])
             else Some (rs ++ [v])).
  { intros v. unfold p11.sub27_at64, Go.index.
    rewrite nth_error_app2 by lia. rewrite Hl. cbn [Nat.sub nth_error].
    rewrite firstn_app, firstn_all2, skipn_app, skipn_all2 by (simpl; lia).
    rewrite Hl. cbn [Nat.sub firstn skipn]. now rewrite app_nil_r. }
  unfold p11.recoverAddress. rewrite !H. repeat split.
Qed.

(** C9 (the code does not do this). When the search of [Sign] resolves the
    private key and the token's [SignInit] fails, whatever the error, [Sign]
    does not return an error to its caller: it ends in [log.Fatalf], which
    exits the process. *)
Theorem C9_Sign_exits_when_SignInit_fails :
  forall (T PublicKey : Type)
         (Ecrecover : list byte -> list byte -> list byte + error)
         (UnmarshalPubkey : list byte -> PublicKey + error)
         (fuel : nat) (p : @p11.p11Token T) (label keyid : string) (hash : list byte)
         (st st1 st2 : T) (o : pkcs11.ObjectHandle) (e : error),
    p11.resolveUnique fuel p (p11.key_template pkcs11.CKO_PRIVATE_KEY label keyid) st
      = (Ok o, st1) ->
    pkcs11.SignInit (p11.ctx p) (p11.session p)
      [pkcs11.NewMechanism pkcs11.CKM_ECDSA []] o st1 = (Some e, st2) ->
    p11.Sign PublicKey Ecrecover UnmarshalPubkey fuel p label keyid hash st
      = (Fatal "Signing Initiation failed (%s)\n" e, st2).
Proof.
  intros T PublicKey Ecrecover UnmarshalPubkey fuel p label keyid hash st st1 st2 o e H1 H2.
  unfold p11.Sign, bind, call. rewrite H1, H2. reflexivity.
Qed.

(** The token [Runs.sign_init_fails] with the key pair [clitest]. *)
Lemma C9_witness_sign_init_fails :
  (p11.resolveUnique 5 (MemToken.p11Token Runs.sign_init_fails)
     (p11.key_template pkcs11.CKO_PRIVATE_KEY "clitest" "")
     (MemToken.fresh (Runs.key_pair Runs.pub_G))
   = (Ok 1, MemToken.fresh (Runs.key_pair Runs.pub_G)) /\
   pkcs11.SignInit (MemToken.token Runs.sign_init_fails) 1
     [pkcs11.NewMechanism pkcs11.CKM_ECDSA []] 1
     (MemToken.fresh (Runs.key_pair Runs.pub_G))
   = (Some (pkcs11_Error pkcs11.CKR_KEY_TYPE_INCONSISTENT),
      MemToken.fresh (Runs.key_pair Runs.pub_G)))
  /\
  p11.Sign Stub.PublicKey (Stub.Ecrecover Runs.recovered0_plain Runs.pub_G) Stub.UnmarshalPubkey
    5 (MemToken.p11Token Runs.sign_init_fails) "clitest" "" Runs.hash0
    (MemToken.fresh (Runs.key_pair Runs.pub_G))
  = (Fatal "Signing Initiation failed (%s)\n"
       (pkcs11_Error pkcs11.CKR_KEY_TYPE_INCONSISTENT),
     MemToken.fresh (Runs.key_pair Runs.pub_G)).
Proof.
  split; [split; vm_compute; reflexivity|].
  refine (C9_Sign_exits_when_SignInit_fails _ Stub.PublicKey _ _ 5
            (MemToken.p11Token Runs.sign_init_fails) "clitest" "" Runs.hash0
            _ _ _ 1 (pkcs11_Error pkcs11.CKR_KEY_TYPE_INCONSISTENT) _ _);
    vm_compute; reflexivity.
Defined.

(* ===================================================================== *)
(** * Resolving one key *)
(* ===================================================================== *)

(** C4. Whatever the token and the template: when the search returns the
    objects that match, the resolution that [Sign] and [GetPublicKey] make
    before anything else fails with "No matching keys found" for no object,
    fails with "More than 1 matching key found" for two or more, and is the
    handle itself for exactly one. *)
Theorem C4_unique_key_resolution :
  forall (T : Type) (p : @p11.p11Token T) (fuel : nat)
         (template : list pkcs11.Attribute) (st st' : T)
         (objects : list pkcs11.ObjectHandle),
    p11.findAllMatching fuel p template st = (Ok objects, st') ->
    (length objects = 0%nat ->
     p11.resolveUnique fuel p template st = (Err p11.err_no_matching, st')) /\
    ((2 <= length objects)%nat ->
     p11.resolveUnique fuel p template st = (Err p11.err_more_than_one, st')) /\
    (forall o : pkcs11.ObjectHandle,
        objects = [o] ->
        p11.resolveUnique fuel p template st = (Ok o, st')).
Proof.
  intros T p fuel template st st' objects H.
  rewrite (resolveUnique_found _ _ _ _ _ _ H).
  repeat split.
  - destruct objects; [reflexivity|discriminate].
  - destruct objects as [|o [|o' rest]]; cbn [length]; first [lia | reflexivity].
  - intros o ->. reflexivity.
Qed.

(** On the in-memory token, with the two keys of [clitest] and a third
    private key: one match, no match, two matches. *)
Lemma C4_witness_clitest :
  p11.findAllMatching 5 (MemToken.p11Token (Runs.signs []))
    (p11.key_template pkcs11.CKO_PRIVATE_KEY "" "")
    (MemToken.fresh (Runs.key_pair Runs.pub_G ++ [Runs.private_key 3 "other"]))
  = (Ok [1; 3],
     MemToken.fresh (Runs.key_pair Runs.pub_G ++ [Runs.private_key 3 "other"]))
  /\
  ((length [1; 3] = 0%nat ->
    p11.resolveUnique 5 (MemToken.p11Token (Runs.signs []))
      (p11.key_template pkcs11.CKO_PRIVATE_KEY "" "")
      (MemToken.fresh (Runs.key_pair Runs.pub_G ++ [Runs.private_key 3 "other"]))
    = (Err p11.err_no_matching,
       MemToken.fresh (Runs.key_pair Runs.pub_G ++ [Runs.private_key 3 "other"]))) /\
   ((2 <= length [1; 3])%nat ->
    p11.resolveUnique 5 (MemToken.p11Token (Runs.signs []))
      (p11.key_template pkcs11.CKO_PRIVATE_KEY "" "")
      (MemToken.fresh (Runs.key_pair Runs.pub_G ++ [Runs.private_key 3 "other"]))
    = (Err p11.err_more_than_one,
       MemToken.fresh (Runs.key_pair Runs.pub_G ++ [Runs.private_key 3 "other"]))) /\
   (forall o : pkcs11.ObjectHandle,
       [1; 3] = [o] ->
       p11.resolveUnique 5 (MemToken.p11Token (Runs.signs []))
         (p11.key_template pkcs11.CKO_PRIVATE_KEY "" "")
         (MemToken.fresh (Runs.key_pair Runs.pub_G ++ [Runs.private_key 3 "other"]))
       = (Ok o,
          MemToken.fresh (Runs.key_pair Runs.pub_G ++ [Runs.private_key 3 "other"])))).
Proof.
  assert (H : p11.findAllMatching 5 (MemToken.p11Token (Runs.signs []))
                (p11.key_template pkcs11.CKO_PRIVATE_KEY "" "")
                (MemToken.fresh (Runs.key_pair Runs.pub_G ++ [Runs.private_key 3 "other"]))
              = (Ok [1; 3],
                 MemToken.fresh (Runs.key_pair Runs.pub_G ++ [Runs.private_key 3 "other"])))
    by (vm_compute; reflexivity).
  split; [exact H|].
  exact (C4_unique_key_resolution _ _ _ _ _ _ _ H).
Defined.


Lemma GetPublicKey_without_unique_key (T PublicKey : Type)
  (UnmarshalPubkey : list byte -> PublicKey + error)
  (p : @p11.p11Token T) (fuel : nat) (label keyid : string)
  (st st' : T) (objects : list pkcs11.ObjectHandle) :
  p11.findAllMatching fuel p (p11.key_template pkcs11.CKO_PUBLIC_KEY label keyid) st
    = (Ok objects, st') ->
  length objects <> 1%nat ->
  p11.GetPublicKey PublicKey UnmarshalPubkey fuel p label keyid st
  = (Err (if Nat.eqb (length objects) 0 then p11.err_no_matching
          else p11.err_more_than_one), st').
Proof.
  intros H Hn. unfold p11.GetPublicKey, bind.
  rewrite (resolveUnique_found _ _ _ _ _ _ H).
  destruct objects as [|o [|o' rest]]; first [reflexivity | now elim Hn].
Qed.

Section MemTokenSearch.

Import pkcs11 p11.

Variable b : MemToken.behaviour.
Hypothesis find_works : MemToken.find_objects_error b = None.

(** The paging loop on the in-memory token: batches of 20 until the empty
    one, with more fuel than there are objects left. *)
Lemma MemToken_findAllMatching_loop (fuel : nat) :
  forall (l acc : list ObjectHandle) (st : MemToken.state),
    MemToken.search st = Some l ->
    (length l < fuel)%nat ->
    findAllMatching_loop fuel (MemToken.p11Token b) acc st =
    (Ok (acc ++ l), MemToken.with_search st (Some [])).
Proof.
  induction fuel as [|fuel IH]; intros l acc st Hs Hf; [lia|].
  cbn [findAllMatching_loop]. unfold bind, call.
  mem_call.
  rewrite Hs, find_works.
  change (Z.to_nat batchSize) with 20%nat.
  destruct l as [|h l].
  - cbn [firstn length Nat.eqb skipn]. unfold ret. now rewrite app_nil_r.
  - assert (E : Nat.eqb (length (firstn 20 (h :: l))) 0 = false)
      by (rewrite length_firstn; reflexivity).
    rewrite E.
    rewrite (IH (skipn 20 (h :: l))).
    + rewrite <- app_assoc, firstn_skipn. reflexivity.
    + reflexivity.
    + rewrite length_skipn. cbn [length] in *. lia.
Qed.

(** The search on the in-memory token returns the handles of the objects
    that carry every attribute of the template, in the token's order, and
    closes the search. *)
Lemma MemToken_findAllMatching (fuel : nat) (template : list Attribute)
  (st : MemToken.state) :
  MemToken.search st = None ->
  (length (MemToken.matching template st) < fuel)%nat ->
  findAllMatching fuel (MemToken.p11Token b) template st =
  (Ok (MemToken.matching template st), st).
Proof.
  intros Hs Hf. unfold findAllMatching, bind, call.
  mem_call.
  rewrite Hs.
  rewrite (MemToken_findAllMatching_loop fuel (MemToken.matching template st)) by
    (first [reflexivity | exact Hf]).
  cbn [MemToken.p11Token ctx session MemToken.token FindObjectsFinal
       MemToken.with_search MemToken.search MemToken.objects MemToken.signing
       MemToken.next_handle app].
  unfold ret. destruct st as [objs s k n]. cbn in Hs. subst s. reflexivity.
Qed.

(** Unique resolution on the in-memory token, by the number of objects of
    the store that match the template. *)
Lemma MemToken_resolveUnique (fuel : nat) (template : list Attribute)
  (st : MemToken.state) :
  MemToken.search st = None ->
  (length (MemToken.matching template st) < fuel)%nat ->
  resolveUnique fuel (MemToken.p11Token b) template st =
  (match MemToken.matching template st with
   | [] => Err err_no_matching
   | [o] => Ok o
   | _ :: _ :: _ => Err err_more_than_one
   end, st).
Proof.
  intros Hs Hf. apply resolveUnique_found.
  now apply MemToken_findAllMatching.
Qed.

End MemTokenSearch.

(* ===================================================================== *)
(** * The search context *)
(* ===================================================================== *)

(** C7 (the code does not do this). On every token: when [FindObjectsInit]
    has opened the search and the first [FindObjects] returns an error,
    [findAllMatching] returns that error after two calls, none of them
    [FindObjectsFinal]; and when the [FindObjects] of [findKeyByLabel] does
    not return exactly one object, [findKeyByLabel] returns its error after
    two calls, none of them [FindObjectsFinal]. In both the search context is
    left open. *)
Theorem C7_search_left_open :
  (forall (T : Type) (p : @p11.p11Token T) (fuel : nat)
          (template : list pkcs11.Attribute) (st st1 st2 : T)
          (tr : list Traced.Event) (res : list pkcs11.ObjectHandle) (more : bool)
          (e : error),
      pkcs11.FindObjectsInit (p11.ctx p) (p11.session p) template st = (None, st1) ->
      pkcs11.FindObjects (p11.ctx p) (p11.session p) p11.batchSize st1
        = ((res, more, Some e), st2) ->
      p11.findAllMatching (S fuel) (Traced.traced_token p) template (st, tr)
        = (Err (errors_WithMessage e "failed to search"),
           (st2, tr ++ [Traced.EvFindObjectsInit template None;
                        Traced.EvFindObjects p11.batchSize res (Some e)])) /\
      Traced.search_open
        (tr ++ [Traced.EvFindObjectsInit template None;
                Traced.EvFindObjects p11.batchSize res (Some e)]) = true)
  /\
  (forall (T : Type) (p : @p11.p11Token T) (label : string) (st st1 st2 : T)
          (tr : list Traced.Event) (res : list pkcs11.ObjectHandle) (more : bool)
          (err : option error),
      let template := [pkcs11.NewAttribute pkcs11.CKA_LABEL (pkcs11.VString label)] in
      pkcs11.FindObjectsInit (p11.ctx p) (p11.session p) template st = (None, st1) ->
      pkcs11.FindObjects (p11.ctx p) (p11.session p) 1 st1 = ((res, more, err), st2) ->
      length res <> 1%nat ->
      p11.findKeyByLabel (Traced.traced_token p) label (st, tr)
        = (Err (errors_New ("no key with label '" ++ label ++ "'")),
           (st2, tr ++ [Traced.EvFindObjectsInit template None;
                        Traced.EvFindObjects 1 res err])) /\
      Traced.search_open
        (tr ++ [Traced.EvFindObjectsInit template None;
                Traced.EvFindObjects 1 res err]) = true).
Proof.
  split.
  - intros T p fuel template st st1 st2 tr res more e H1 H2. split.
    + unfold p11.findAllMatching, bind, call.
      traced_call.
      rewrite H1. cbn [p11.findAllMatching_loop]. unfold bind, call.
      traced_call.
      rewrite H2. unfold fail. now rewrite <- app_assoc.
    + unfold Traced.search_open. rewrite fold_left_app. reflexivity.
  - intros T p label st st1 st2 tr res more err template H1 H2 Hn. split.
    + unfold p11.findKeyByLabel, bind, call.
      traced_call.
      fold template. rewrite H1.
      traced_call.
      rewrite H2. apply Nat.eqb_neq in Hn. rewrite Hn. cbn [negb]. unfold fail.
      now rewrite <- app_assoc.
    + unfold Traced.search_open. rewrite fold_left_app. reflexivity.
Qed.

(** The token [Runs.find_fails], with one object: the search is opened, the
    first page fails, and [findAllMatching] returns with the search open. *)
Lemma C7_witness_find_fails :
  p11.findAllMatching 5 (Traced.traced_token (MemToken.p11Token Runs.find_fails)) []
    (MemToken.fresh [Runs.labelled 1 "a"], [])
  = (Err (errors_WithMessage (pkcs11_Error pkcs11.CKR_FUNCTION_FAILED) "failed to search"),
     (MemToken.with_search (MemToken.fresh [Runs.labelled 1 "a"]) (Some [1]),
      [] ++ [Traced.EvFindObjectsInit [] None;
             Traced.EvFindObjects p11.batchSize []
               (Some (pkcs11_Error pkcs11.CKR_FUNCTION_FAILED))]))
  /\
  Traced.search_open
    ([] ++ [Traced.EvFindObjectsInit [] None;
            Traced.EvFindObjects p11.batchSize []
              (Some (pkcs11_Error pkcs11.CKR_FUNCTION_FAILED))]) = true.
Proof.
  refine (proj1 C7_search_left_open _ (MemToken.p11Token Runs.find_fails) 4%nat []
            (MemToken.fresh [Runs.labelled 1 "a"])
            (MemToken.with_search (MemToken.fresh [Runs.labelled 1 "a"]) (Some [1]))
            (MemToken.with_search (MemToken.fresh [Runs.labelled 1 "a"]) (Some [1]))
            [] [] false (pkcs11_Error pkcs11.CKR_FUNCTION_FAILED) _ _);
    vm_compute; reflexivity.
Defined.

(** When the search succeeds, it is closed: the other path of [findAllMatching]. *)
Lemma findAllMatching_closes_on_success (T : Type) (p : @p11.p11Token T) (fuel : nat)
  (template : list pkcs11.Attribute) (st st' : T) (tr tr' : list Traced.Event)
  (objects : list pkcs11.ObjectHandle) :
  p11.findAllMatching fuel (Traced.traced_token p) template (st, tr)
    = (Ok objects, (st', tr')) ->
  Traced.search_open tr' = false.
Proof.
  unfold p11.findAllMatching, bind, call.
  traced_call.
  destruct (pkcs11.FindObjectsInit (p11.ctx p) (p11.session p) template st)
    as [[e|] st1]; [unfold fail; discriminate|].
  destruct (p11.findAllMatching_loop fuel _ [] _) as [[objs| | | |] [st2 tr2]];
    try discriminate.
  traced_call.
  destruct (pkcs11.FindObjectsFinal (p11.ctx p) (p11.session p) st2) as [[e|] st3];
    [unfold fail; discriminate|].
  unfold ret. intros H.
  assert (E : tr2 ++ [Traced.EvFindObjectsFinal None] = tr')
    by exact (f_equal (fun x => snd (snd x)) H).
  rewrite <- E. unfold Traced.search_open. rewrite fold_left_app. reflexivity.
Qed.

(* ===================================================================== *)
(** * Deleting all objects but some *)
(* ===================================================================== *)

(** C8 (the code does not do this). The loop assigns to [template] whatever
    [GetAttributeValue] returns. On every token: when the token holds two
    objects or more, the label read of the first fails with "no such
    attribute" and returns no attributes with its error, the first is then
    destroyed, and the read of the second with the (now empty) template
    answers no attributes, [DeleteAllExcept] panics at [template[0]] on the
    second object, whatever [keyLabels]: the second object and all after it
    are neither examined nor destroyed. *)
Theorem C8_DeleteAllExcept_panics_after_an_unlabelled_object :
  forall (T : Type) (p : @p11.p11Token T) (fuel : nat) (keyLabels : list string)
         (st st1 st2 st3 st4 : T) (o1 o2 : pkcs11.ObjectHandle)
         (rest : list pkcs11.ObjectHandle),
    p11.findAllMatching fuel p [] st = (Ok (o1 :: o2 :: rest), st1) ->
    pkcs11.GetAttributeValue (p11.ctx p) (p11.session p) o1
      [pkcs11.NewAttribute pkcs11.CKA_LABEL pkcs11.VNil] st1
      = (([], Some (pkcs11_Error pkcs11.CKR_ATTRIBUTE_TYPE_INVALID)), st2) ->
    pkcs11.DestroyObject (p11.ctx p) (p11.session p) o1 st2 = (None, st3) ->
    pkcs11.GetAttributeValue (p11.ctx p) (p11.session p) o2 [] st3
      = (([], None), st4) ->
    p11.DeleteAllExcept fuel p keyLabels st = (Panic "index out of range", st4).
Proof.
  intros T p fuel keyLabels st st1 st2 st3 st4 o1 o2 rest H1 H2 H3 H4.
  unfold p11.DeleteAllExcept, bind. rewrite H1.
  cbn [p11.DeleteAllExcept_range]. unfold bind, call.
  rewrite H2. cbn. rewrite H3. cbn. rewrite H4.
  destruct keyLabels; reflexivity.
Qed.

(** The in-memory token with an object without label, an object labelled
    [old] and an object labelled [keep], asked to keep [keep]: the first is
    destroyed, the call panics, and [old] is still there. *)
Lemma C8_witness_unlabelled_first :
  p11.DeleteAllExcept 5 (MemToken.p11Token (Runs.signs [])) ["keep"%string]
    (MemToken.fresh [Runs.unlabelled 1; Runs.labelled 2 "old"; Runs.labelled 3 "keep"])
  = (Panic "index out of range",
     MemToken.fresh [Runs.labelled 2 "old"; Runs.labelled 3 "keep"]).
Proof.
  refine (C8_DeleteAllExcept_panics_after_an_unlabelled_object
            _ (MemToken.p11Token (Runs.signs [])) 5 ["keep"%string]
            (MemToken.fresh [Runs.unlabelled 1; Runs.labelled 2 "old"; Runs.labelled 3 "keep"])
            (MemToken.fresh [Runs.unlabelled 1; Runs.labelled 2 "old"; Runs.labelled 3 "keep"])
            (MemToken.fresh [Runs.unlabelled 1; Runs.labelled 2 "old"; Runs.labelled 3 "keep"])
            (MemToken.fresh [Runs.labelled 2 "old"; Runs.labelled 3 "keep"])
            (MemToken.fresh [Runs.labelled 2 "old"; Runs.labelled 3 "keep"])
            1 2 [3] _ _ _ _); vm_compute; reflexivity.
Defined.

Section MemTokenDelete.

Import pkcs11 p11.

Variable b : MemToken.behaviour.
Hypothesis find_works : MemToken.find_objects_error b = None.
Hypothesis destroy_works : MemToken.destroy_error b = None.

Lemma matching_all (st : MemToken.state) :
  MemToken.matching [] st = map MemToken.handle (MemToken.objects st).
Proof.
  unfold MemToken.matching. f_equal.
  induction (MemToken.objects st) as [|o l IH]; [reflexivity|].
  cbn [filter MemToken.matches forallb]. now rewrite IH.
Qed.

Lemma find_object_middle (kept rest : list MemToken.Object) (o : MemToken.Object) :
  ~ In (MemToken.handle o) (map MemToken.handle kept) ->
  find (fun x => MemToken.handle x =? MemToken.handle o) (kept ++ o :: rest) = Some o.
Proof.
  induction kept as [|k kept IH]; intros Hn; cbn [app find].
  - now rewrite Z.eqb_refl.
  - cbn [map In] in Hn.
    destruct (Z.eqb_spec (MemToken.handle k) (MemToken.handle o)) as [E|E].
    + exfalso. apply Hn. now left.
    + apply IH. intros H. apply Hn. now right.
Qed.

Lemma filter_other_handles (l : list MemToken.Object) (h : ObjectHandle) :
  ~ In h (map MemToken.handle l) ->
  filter (fun x => negb (MemToken.handle x =? h)) l = l.
Proof.
  induction l as [|k l IH]; intros Hn; [reflexivity|].
  cbn [map In] in Hn. cbn [filter].
  destruct (Z.eqb_spec (MemToken.handle k) h) as [E|E].
  - exfalso. apply Hn. now left.
  - cbn [negb]. rewrite IH; [reflexivity|]. intros H. apply Hn. now right.
Qed.

Lemma filter_removes_one (kept rest : list MemToken.Object) (o : MemToken.Object) :
  NoDup (map MemToken.handle (kept ++ o :: rest)) ->
  filter (fun x => negb (MemToken.handle x =? MemToken.handle o)) (kept ++ o :: rest)
  = kept ++ rest.
Proof.
  intros Hnd. rewrite map_app in Hnd. cbn [map] in Hnd.
  pose proof (NoDup_remove_2 _ _ _ Hnd) as Hn.
  rewrite in_app_iff in Hn.
  rewrite filter_app. cbn [filter]. rewrite Z.eqb_refl. cbn [negb].
  rewrite !filter_other_handles; [reflexivity| |]; intros H; apply Hn; auto.
Qed.

(** The inner loop finds whether the label read is one of [keyLabels]. *)
Lemma DeleteAllExcept_keep_finds (keyLabels : list string) (a : Attribute)
  (template : list Attribute) (st : MemToken.state) :
  DeleteAllExcept_keep keyLabels (a :: template) st =
  (Ok (existsb (fun l => String.eqb l (Go.string_of_bytes (Value a))) keyLabels), st).
Proof.
  induction keyLabels as [|l keyLabels IH]; [reflexivity|].
  cbn [DeleteAllExcept_keep existsb]. unfold bind, checked. cbn [Go.index nth_error].
  unfold ret at 1.
  destruct (String.eqb l (Go.string_of_bytes (Value a))); [reflexivity|exact IH].
Qed.

(** The loop over objects that all carry a label: those whose label is one
    of [keyLabels] stay, the others are destroyed. [kept] are the objects of
    the store that the loop has passed and kept. *)
Lemma MemToken_DeleteAllExcept_range (keyLabels : list string) :
  forall (todo kept : list MemToken.Object) (st : MemToken.state) (x : list byte),
    MemToken.objects st = kept ++ todo ->
    NoDup (map MemToken.handle (kept ++ todo)) ->
    Forall (fun o => MemToken.label_of o <> None) todo ->
    DeleteAllExcept_range (MemToken.p11Token b) keyLabels (map MemToken.handle todo)
      [mkAttribute CKA_LABEL x] st
    = (Ok tt,
       MemToken.with_objects st (kept ++ filter (MemToken.kept_by keyLabels) todo)).
Proof.
  induction todo as [|o todo IH]; intros kept st x Hobj Hnd Hlab.
  - cbn [map DeleteAllExcept_range filter]. unfold ret. rewrite <- Hobj.
    destruct st; reflexivity.
  - inversion Hlab as [|? ? Ho Hrest]; subst.
    assert (Hnk : ~ In (MemToken.handle o) (map MemToken.handle kept)).
    { rewrite map_app in Hnd. cbn [map] in Hnd.
      pose proof (NoDup_remove_2 _ _ _ Hnd) as Hn. rewrite in_app_iff in Hn. tauto. }
    cbn [map DeleteAllExcept_range]. unfold bind at 1, call.
    mem_call.
    unfold MemToken.find_object. rewrite Hobj, (find_object_middle _ _ _ Hnk).
    cbn [MemToken.read_attributes Type_].
    unfold MemToken.label_of in Ho.
    destruct (find (fun a => Type_ a =? CKA_LABEL) (MemToken.attributes o))
      as [a|] eqn:Ea; [|now elim Ho].
    unfold bind at 1. unfold ret at 1.
    unfold bind at 1. rewrite DeleteAllExcept_keep_finds. cbn [Value].
    assert (Ek : MemToken.kept_by keyLabels o
                 = existsb (fun l => String.eqb l (Go.string_of_bytes (Value a))) keyLabels).
    { unfold MemToken.kept_by, MemToken.label_of. now rewrite Ea. }
    rewrite <- Ek. cbn [filter].
    destruct (MemToken.kept_by keyLabels o).
    + cbn [negb]. unfold bind at 1. unfold ret at 1.
      rewrite (IH (kept ++ [o])).
      * now rewrite <- app_assoc.
      * now rewrite <- app_assoc.
      * now rewrite <- app_assoc.
      * exact Hrest.
    + cbn [negb]. unfold bind at 1. unfold bind at 1. unfold bind at 1.
      unfold checked, ret at 1. cbn [Go.index nth_error]. unfold ret at 1.
      unfold bind at 1. unfold call.
      mem_call.
      rewrite destroy_works. unfold MemToken.find_object.
      rewrite Hobj, (find_object_middle _ _ _ Hnk), (filter_removes_one _ _ _ Hnd).
      unfold ret at 1.
      rewrite (IH kept).
      * reflexivity.
      * reflexivity.
      * rewrite map_app in *. cbn [map] in Hnd. now apply NoDup_remove_1 in Hnd.
      * exact Hrest.
Qed.

(** [DeleteAllExcept] on the in-memory token whose objects all carry a
    label and have distinct handles: it returns without error and leaves
    exactly the objects whose label is one of [keyLabels]. *)
Lemma MemToken_DeleteAllExcept (fuel : nat) (keyLabels : list string)
  (st : MemToken.state) :
  MemToken.search st = None ->
  NoDup (map MemToken.handle (MemToken.objects st)) ->
  Forall (fun o => MemToken.label_of o <> None) (MemToken.objects st) ->
  (length (MemToken.objects st) < fuel)%nat ->
  DeleteAllExcept fuel (MemToken.p11Token b) keyLabels st
  = (Ok tt,
     MemToken.with_objects st (filter (MemToken.kept_by keyLabels) (MemToken.objects st))).
Proof.
  intros Hs Hnd Hlab Hf. unfold DeleteAllExcept, bind.
  rewrite (MemToken_findAllMatching b find_works) by
    (first [exact Hs | now rewrite matching_all, length_map]).
  rewrite matching_all.
  change [NewAttribute CKA_LABEL VNil] with [mkAttribute CKA_LABEL []].
  now rewrite (MemToken_DeleteAllExcept_range keyLabels (MemToken.objects st) []).
Qed.

End MemTokenDelete.

(* ===================================================================== *)
(** * The EC point *)
(* ===================================================================== *)

(** C10. An attribute value of one or two bytes that starts with 0x04 and is
    not the first case of the [switch] (even length, 0x04 at both ends) makes
    the second case read index 2, outside the value: the [switch] panics. So
    does [ecPoint] on every token that answers such a value for
    [CKA_EC_POINT], and with it [GetPublicKey] and [Verify] once the public
    key is resolved. *)
Theorem C10_ecPoint_panics_on_short_values :
  forall v : list byte,
    (length v = 1%nat \/ length v = 2%nat) ->
    Go.index v 0 = Some x04 ->
    ~ (Nat.even (length v) = true /\ Go.index v (length v - 1) = Some x04) ->
    p11.ecPoint_switch v = None /\
    forall (T : Type) (c : pkcs11.TokenCtx T) (session : pkcs11.SessionHandle)
           (key : pkcs11.ObjectHandle) (typ : Z) (err : option error) (st st' : T),
      pkcs11.GetAttributeValue c session key
        [pkcs11.NewAttribute pkcs11.CKA_EC_POINT pkcs11.VNil] st
        = (([pkcs11.mkAttribute typ v], err), st') ->
      p11.ecPoint c session key st = (Panic "index out of range", st') /\
      forall (PublicKey : Type)
             (Ecrecover : list byte -> list byte -> list byte + error)
             (UnmarshalPubkey : list byte -> PublicKey + error)
             (fuel : nat) (slot : Z) (label keyid : string) (hash signature : list byte)
             (st0 : T),
        p11.resolveUnique fuel (p11.mkP11Token c session slot)
          (p11.key_template pkcs11.CKO_PUBLIC_KEY label keyid) st0 = (Ok key, st) ->
        p11.GetPublicKey PublicKey UnmarshalPubkey fuel (p11.mkP11Token c session slot)
          label keyid st0 = (Panic "index out of range", st') /\
        p11.Verify PublicKey Ecrecover UnmarshalPubkey fuel (p11.mkP11Token c session slot)
          label keyid hash signature st0 = (Panic "index out of range", st').
Proof.
  intros v Hlen H0 Hnot.
  assert (Hs : p11.ecPoint_switch v = None).
  { destruct v as [|a [|b [|c v]]]; cbn [length] in Hlen; try lia.
    - cbn in H0. apply Some_inj in H0. subst a. reflexivity.
    - cbn in H0. apply Some_inj in H0. subst a.
      rewrite ecPoint_switch_two_bytes.
      destruct (Go.byte_eqb x04 b) eqn:E; [|reflexivity].
      exfalso. apply Hnot. split; [reflexivity|]. cbn.
      unfold Go.byte_eqb in E. apply Byte.byte_dec_bl in E. now subst b. }
  split; [exact Hs|].
  intros T c session key typ err st st' Hget.
  assert (He : p11.ecPoint c session key st = (Panic "index out of range", st')).
  { unfold p11.ecPoint, bind, call. rewrite Hget.
    cbn [p11.ecPoint_range pkcs11.Value]. rewrite Hs. reflexivity. }
  split; [exact He|].
  intros PublicKey Ecrecover UnmarshalPubkey fuel slot label keyid hash signature st0 Hr.
  assert (Hg : p11.GetPublicKey PublicKey UnmarshalPubkey fuel (p11.mkP11Token c session slot)
                 label keyid st0 = (Panic "index out of range", st')).
  { unfold p11.GetPublicKey, bind. rewrite Hr. cbn [p11.ctx p11.session]. now rewrite He. }
  split; [exact Hg|].
  unfold p11.Verify, bind. now rewrite Hg.
Qed.

(** The one-byte value [04]. *)
Lemma C10_witness_one_byte :
  p11.ecPoint_switch [x04] = None /\
  forall (T : Type) (c : pkcs11.TokenCtx T) (session : pkcs11.SessionHandle)
         (key : pkcs11.ObjectHandle) (typ : Z) (err : option error) (st st' : T),
    pkcs11.GetAttributeValue c session key
      [pkcs11.NewAttribute pkcs11.CKA_EC_POINT pkcs11.VNil] st
      = (([pkcs11.mkAttribute typ [x04]], err), st') ->
    p11.ecPoint c session key st = (Panic "index out of range", st') /\
    forall (PublicKey : Type)
           (Ecrecover : list byte -> list byte -> list byte + error)
           (UnmarshalPubkey : list byte -> PublicKey + error)
           (fuel : nat) (slot : Z) (label keyid : string) (hash signature : list byte)
           (st0 : T),
      p11.resolveUnique fuel (p11.mkP11Token c session slot)
        (p11.key_template pkcs11.CKO_PUBLIC_KEY label keyid) st0 = (Ok key, st) ->
      p11.GetPublicKey PublicKey UnmarshalPubkey fuel (p11.mkP11Token c session slot)
        label keyid st0 = (Panic "index out of range", st') /\
      p11.Verify PublicKey Ecrecover UnmarshalPubkey fuel (p11.mkP11Token c session slot)
        label keyid hash signature st0 = (Panic "index out of range", st').
Proof.
  refine (C10_ecPoint_panics_on_short_values [x04] (or_introl eq_refl) eq_refl _).
  intros [H _]. discriminate H.
Defined.

Example ecPoint_switch_empty_value : p11.ecPoint_switch [] = None.
Proof. reflexivity. Qed.

Example GetPublicKey_short_point :
  p11.GetPublicKey Stub.PublicKey Stub.UnmarshalPubkey 5
    (MemToken.p11Token (Runs.signs [])) "clitest" ""
    (MemToken.fresh [Runs.private_key 1 "clitest"; Runs.public_key 2 "clitest" [x04; x41]])
  = (Panic "index out of range",
     MemToken.fresh [Runs.private_key 1 "clitest"; Runs.public_key 2 "clitest" [x04; x41]]).
Proof. vm_compute. reflexivity. Qed.

(* ===================================================================== *)
(** * Generating keys *)
(* ===================================================================== *)

Lemma isValidSize_In (sizes : list Z) (n : Z) :
  p11.isValidSize sizes n = true <-> In n sizes.
Proof.
  induction sizes as [|m sizes IH]; cbn [p11.isValidSize In].
  - split; [discriminate|contradiction].
  - destruct (Z.eqb_spec n m) as [->|Hne].
    + split; auto.
    + rewrite IH. split; [auto|]. intros [E|H]; [congruence|exact H].
Qed.

Lemma isValidSize_not_In (sizes : list Z) (n : Z) :
  p11.isValidSize sizes n = false <-> ~ In n sizes.
Proof.
  rewrite <- isValidSize_In. destruct (p11.isValidSize sizes n); split; congruence.
Qed.

(** What going on to the generation means: the one call of [GenerateRSAKey]
    and of [GenerateAESKey] is the key-generation request. *)
Lemma GenerateRSAKey_requests_a_key_pair (T : Type) (p : @p11.p11Token T)
  (label : string) (keysize : Z) (st : T) (tr : list Traced.Event) :
  exists (o : outcome unit) (st' : T) (mech : list pkcs11.Mechanism)
         (pub priv : list pkcs11.Attribute) (err : option error),
    p11.GenerateRSAKey (Traced.traced_token p) label keysize (st, tr)
    = (o, (st', tr ++ [Traced.EvGenerateKeyPair mech pub priv err])).
Proof.
  unfold p11.GenerateRSAKey, bind, call.
  traced_call.
  destruct (pkcs11.GenerateKeyPair _ _ _ _ _ st) as [[[h1 h2] [e|]] st'];
    do 6 eexists; reflexivity.
Qed.

Lemma GenerateAESKey_requests_a_key (T : Type) (p : @p11.p11Token T)
  (label : string) (keysize : Z) (st : T) (tr : list Traced.Event) :
  exists (o : outcome unit) (st' : T) (mech : list pkcs11.Mechanism)
         (temp : list pkcs11.Attribute) (err : option error),
    p11.GenerateAESKey (Traced.traced_token p) label keysize (st, tr)
    = (o, (st', tr ++ [Traced.EvGenerateKey mech temp err])).
Proof.
  unfold p11.GenerateAESKey, bind, call.
  traced_call.
  destruct (pkcs11.GenerateKey _ _ _ _ st) as [[h [e|]] st'];
    do 5 eexists; reflexivity.
Qed.

(** C6. For every key size, every token and every algorithm other than
    "S256", [GenerateKeyPair] for the key type "EC" returns the error
    "Invalid EC key size: <keysize>" and leaves the token as it was; on a
    token that records its calls the record is unchanged: no call, and so no
    key-generation request, reached the token. *)
Theorem C6_EC_needs_S256 :
  forall (T : Type) (p : @p11.p11Token T) (fuel : nat)
         (label keyid algorithm : string) (keysize : Z) (st : T)
         (tr : list Traced.Event),
    algorithm <> "S256"%string ->
    p11.GenerateKeyPair fuel p label keyid algorithm "EC" keysize st
      = (Err (errors_New ("Invalid EC key size: " ++ Go.itoa keysize)), st) /\
    p11.GenerateKeyPair fuel (Traced.traced_token p) label keyid algorithm "EC" keysize
      (st, tr)
      = (Err (errors_New ("Invalid EC key size: " ++ Go.itoa keysize)), (st, tr)).
Proof.
  intros T p fuel label keyid algorithm keysize st tr Halg.
  apply String.eqb_neq in Halg.
  unfold p11.GenerateKeyPair. cbn [String.eqb Ascii.eqb Bool.eqb].
  rewrite Halg, andb_false_r. split; reflexivity.
Qed.

(** The algorithm "P256" with the key size 256. *)
Lemma C6_witness_P256 :
  p11.GenerateKeyPair 5 (MemToken.p11Token (Runs.signs [])) "clitest" "" "P256" "EC" 256
    (MemToken.fresh [])
    = (Err (errors_New ("Invalid EC key size: " ++ Go.itoa 256)), MemToken.fresh []) /\
  p11.GenerateKeyPair 5 (Traced.traced_token (MemToken.p11Token (Runs.signs [])))
    "clitest" "" "P256" "EC" 256 (MemToken.fresh [], [])
    = (Err (errors_New ("Invalid EC key size: " ++ Go.itoa 256)), (MemToken.fresh [], [])).
Proof.
  refine (C6_EC_needs_S256 _ (MemToken.p11Token (Runs.signs [])) 5 "clitest" "" "P256"
            256 (MemToken.fresh []) [] _).
  intros H. discriminate H.
Defined.

(** C5 as stated fails: with the key type "EC", the algorithm "S256" and the
    key size 128, which is not a documented EC size, [GenerateKeyPair]
    succeeds on the empty in-memory token, a key-generation request reaches
    the token, and the token holds two objects afterwards. *)
Lemma C5_counterexample_EC_128 :
  existsb (Z.eqb 128) (Runs.documented_sizes "EC") = false /\
  exists (st' : MemToken.state) (tr' : list Traced.Event),
    p11.GenerateKeyPair 5 (Traced.traced_token (MemToken.p11Token (Runs.signs [])))
      "clitest" "" "S256" "EC" 128 (MemToken.fresh [], [])
    = (Ok tt, (st', tr')) /\
    existsb Traced.is_generate tr' = true /\
    length (MemToken.objects st') = 2%nat.
Proof.
  split; [reflexivity|].
  eexists. eexists. split; [vm_compute; reflexivity|].
  split; reflexivity.
Qed.

(** C5, amended. On every token, with the record of its calls: for "RSA"
    and the sizes 1024, 2048, 3072, 4096, for "AES" and the sizes 128, 192,
    256, and for "EC" with the sizes 128, 192, 256 and the algorithm "S256",
    [GenerateKeyPair] is the generation of that key; for every other size
    (and, for "EC", every other algorithm) it returns the error "Invalid ...
    key size: <keysize>" with the token and the record of calls unchanged. *)
Theorem C5_GenerateKeyPair_by_size :
  forall (T : Type) (p : @p11.p11Token T) (fuel : nat)
         (label keyid algorithm : string) (keysize : Z) (st : T)
         (tr : list Traced.Event),
    let tp := Traced.traced_token p in
    (In keysize [1024; 2048; 3072; 4096] ->
     p11.GenerateKeyPair fuel tp label keyid algorithm "RSA" keysize (st, tr)
       = p11.GenerateRSAKey tp label keysize (st, tr)) /\
    (~ In keysize [1024; 2048; 3072; 4096] ->
     p11.GenerateKeyPair fuel tp label keyid algorithm "RSA" keysize (st, tr)
       = (Err (errors_New ("Invalid RSA key size: " ++ Go.itoa keysize)), (st, tr))) /\
    (In keysize [128; 192; 256] ->
     p11.GenerateKeyPair fuel tp label keyid algorithm "AES" keysize (st, tr)
       = p11.GenerateAESKey tp label keysize (st, tr)) /\
    (~ In keysize [128; 192; 256] ->
     p11.GenerateKeyPair fuel tp label keyid algorithm "AES" keysize (st, tr)
       = (Err (errors_New ("Invalid AES key size: " ++ Go.itoa keysize)), (st, tr))) /\
    (In keysize [128; 192; 256] /\ algorithm = "S256"%string ->
     p11.GenerateKeyPair fuel tp label keyid algorithm "EC" keysize (st, tr)
       = p11.GenerateECKey fuel tp label keyid (st, tr)) /\
    (~ (In keysize [128; 192; 256] /\ algorithm = "S256"%string) ->
     p11.GenerateKeyPair fuel tp label keyid algorithm "EC" keysize (st, tr)
       = (Err (errors_New ("Invalid EC key size: " ++ Go.itoa keysize)), (st, tr))).
Proof.
  intros T p fuel label keyid algorithm keysize st tr tp.
  unfold p11.GenerateKeyPair. cbn [String.eqb Ascii.eqb Bool.eqb].
  repeat split.
  - intros H. apply isValidSize_In in H.
    unfold p11.validRSASize. now rewrite H.
  - intros H. apply isValidSize_not_In in H.
    unfold p11.validRSASize. now rewrite H.
  - intros H. apply isValidSize_In in H.
    unfold p11.validAESSize. now rewrite H.
  - intros H. apply isValidSize_not_In in H.
    unfold p11.validAESSize. now rewrite H.
  - intros [H ->]. apply isValidSize_In in H.
    unfold p11.validECSize. now rewrite H.
  - intros H. unfold p11.validECSize.
    destruct (p11.isValidSize [128; 192; 256] keysize) eqn:E1;
      [|reflexivity].
    destruct (String.eqb_spec algorithm "S256") as [E2|E2]; [|reflexivity].
    exfalso. apply H. split; [now apply isValidSize_In|exact E2].
Qed.

(** The README's call: "EC", "S256" and 256 go on to [GenerateECKey]. *)
Lemma C5_witness_EC_256 :
  p11.GenerateKeyPair 5 (Traced.traced_token (MemToken.p11Token (Runs.signs [])))
    "clitest" "" "S256" "EC" 256 (MemToken.fresh [], [])
  = p11.GenerateECKey 5 (Traced.traced_token (MemToken.p11Token (Runs.signs [])))
      "clitest" "" (MemToken.fresh [], []).
Proof.
  refine (proj1 (proj2 (proj2 (proj2 (proj2
            (C5_GenerateKeyPair_by_size _ (MemToken.p11Token (Runs.signs [])) 5
               "clitest" "" "S256" 256 (MemToken.fresh []) []))))) _).
  split; [cbn; tauto|reflexivity].
Defined.

(* ===================================================================== *)
(** * Further properties: the bytes of a signature *)
(* ===================================================================== *)

Section BytesMore.

Import Go.

Lemma byte_val_of_Z (z : Z) : byte_val (byte_of_Z z) = z mod 256.
Proof.
  unfold byte_of_Z, byte_val.
  pose proof (Z.mod_pos_bound z 256 eq_refl) as Hb.
  destruct (Byte.of_N (Z.to_N (z mod 256))) as [b|] eqn:E.
  - apply Byte.to_of_N in E. rewrite E. lia.
  - apply Byte.of_N_None_iff in E. lia.
Qed.

Lemma SetBytes_be_bytes (n : nat) :
  forall z : Z, SetBytes (be_bytes n z) = z mod 256 ^ Z.of_nat n.
Proof.
  induction n as [|n IH]; intros z.
  - cbn. now rewrite Z.mod_1_r.
  - cbn [be_bytes]. rewrite SetBytes_app, IH. cbn [length].
    change (SetBytes [byte_of_Z z]) with (0 * 256 + byte_val (byte_of_Z z)).
    change (Z.of_nat 1) with 1. rewrite Z.pow_1_r.
    rewrite byte_val_of_Z, Nat2Z.inj_succ, Z.pow_succ_r by lia.
    rewrite Z.rem_mul_r by lia. lia.
Qed.

(** [SetBytes] undoes [Bytes], up to the sign that [Bytes] drops. *)
Lemma SetBytes_Bytes (z : Z) : SetBytes (Bytes z) = Z.abs z.
Proof.
  unfold Bytes. cbv zeta. rewrite SetBytes_trim_zeros, SetBytes_be_bytes.
  apply Z.mod_small. split; [lia|].
  destruct (Z.eq_dec (Z.abs z) 0) as [E|E].
  - rewrite E. cbn. lia.
  - pose proof (Z.log2_nonneg (Z.abs z)) as Hn.
    assert (Hq : 0 <= Z.log2 (Z.abs z) / 8) by (apply Z.div_pos; lia).
    rewrite Z2Nat.id by lia.
    change 256 with (2 ^ 8). rewrite <- Z.pow_mul_r by lia.
    apply Z.lt_le_trans with (2 ^ (Z.log2 (Z.abs z) + 1)).
    + apply Z.log2_spec. lia.
    + apply Z.pow_le_mono_r; [lia|].
      pose proof (Z.mod_pos_bound (Z.log2 (Z.abs z)) 8 eq_refl).
      pose proof (Z.div_mod (Z.log2 (Z.abs z)) 8). lia.
Qed.

Lemma trim_zeros_head (b : list byte) :
  trim_zeros b = [] \/ exists x t, trim_zeros b = x :: t /\ x <> x00.
Proof.
  induction b as [|x b IH]; [now left|].
  destruct x; try (right; eexists; eexists; split; [reflexivity|discriminate]).
  exact IH.
Qed.

Lemma trim_zeros_all_zeros (b : list byte) :
  trim_zeros b = [] -> b = repeat x00 (length b).
Proof.
  induction b as [|x b IH]; [reflexivity|].
  destruct x; try discriminate. cbn [trim_zeros length repeat]. intros H.
  now rewrite <- IH.
Qed.

Lemma trim_zeros_same_length (b : list byte) :
  length (trim_zeros b) = length b -> trim_zeros b = b.
Proof.
  intros H. pose proof (fixLen_scan_length b) as Hs.
  rewrite <- fixLen_scan_skipn.
  assert (E : p11.fixLen_scan b = 0%nat) by lia.
  now rewrite E.
Qed.

(** A slice of 32 bytes whose integer is at least 2^248 has no leading zero. *)
Lemma trim_zeros_large (b : list byte) :
  length b = 32%nat -> 2 ^ 248 <= SetBytes b -> trim_zeros b = b.
Proof.
  intros Hl Hv. apply trim_zeros_same_length.
  pose proof (trim_zeros_length b) as Hle.
  destruct (Nat.eq_dec (length (trim_zeros b)) (length b)) as [E|E]; [exact E|].
  exfalso.
  pose proof (SetBytes_bound (trim_zeros b)) as Hb.
  rewrite SetBytes_trim_zeros in Hb.
  assert (Hp : 256 ^ Z.of_nat (length (trim_zeros b)) <= 256 ^ 31)
    by (apply Z.pow_le_mono_r; lia).
  change (256 ^ 31) with (2 ^ 248) in Hp. lia.
Qed.

End BytesMore.

(** X1. On a slice of exactly 32 bytes, [fixLen] returns the slice itself
    exactly when its first byte is not zero or all its bytes are zero: with
    a leading zero byte before a non-zero one, the result differs. *)
Theorem fixLen_keeps_exactly_full_width (b : list byte) :
  length b = 32%nat ->
  (p11.fixLen b = b <-> (Go.index b 0 <> Some x00 \/ b = repeat x00 32)).
Proof.
  intros Hl. rewrite fixLen_short by lia. split.
  - intros H.
    destruct (trim_zeros_head b) as [E|(x & t & E & Hx)].
    + right. rewrite <- Hl. now apply trim_zeros_all_zeros.
    + left. rewrite <- H, E. cbn. congruence.
  - intros [H|H].
    + assert (E : Go.trim_zeros b = b).
      { destruct b as [|x b]; [reflexivity|].
        destruct x; try reflexivity. now elim H. }
      rewrite E, Hl. cbn. now rewrite app_nil_r.
    + rewrite H. reflexivity.
Qed.

Lemma fixLen_keeps_exactly_full_width_witness :
  length Runs.hash0 = 32%nat /\
  (p11.fixLen Runs.hash0 = Runs.hash0 <->
   (Go.index Runs.hash0 0 <> Some x00 \/ Runs.hash0 = repeat x00 32)).
Proof.
  split; [reflexivity|].
  exact (fixLen_keeps_exactly_full_width Runs.hash0 eq_refl).
Defined.

(** X2. When the raw output has 64 bytes, R is at least 2^248 and so is the
    smaller of S and N - S (neither has a leading zero byte), lines 413-422
    of [Sign] keep R as it is and write that smaller value, which is at most
    half the order, as the 32 bytes of S. *)
Theorem Sign_sigRS_canonical_without_leading_zeros (sig : list byte) :
  length sig = 64%nat ->
  let r := Go.SetBytes (firstn 32 sig) in
  let s := Go.SetBytes (skipn 32 sig) in
  let s' := if s >? p11.secp256k1HalfN then p11.secp256k1N - s else s in
  2 ^ 248 <= r ->
  2 ^ 248 <= s' ->
  exists outS : list byte,
    p11.Sign_sigRS sig = Some (firstn 32 sig ++ outS) /\
    length outS = 32%nat /\
    Go.SetBytes outS = s' /\
    s' <= p11.secp256k1HalfN.
Proof.
  intros Hlen r s s' Hr Hs.
  assert (HR : length (firstn 32 sig) = 32%nat) by (rewrite length_firstn; lia).
  assert (HS : length (skipn 32 sig) = 32%nat) by (rewrite length_skipn; lia).
  destruct (slice_64 sig Hlen) as [E1 E2].
  unfold p11.Sign_sigRS. rewrite E1, E2. cbv zeta. fold s.
  assert (HfR : p11.fixLen (firstn 32 sig) = firstn 32 sig).
  { rewrite fixLen_short by lia. rewrite trim_zeros_large by assumption.
    rewrite HR. apply app_nil_r. }
  rewrite HfR.
  assert (HN : p11.secp256k1N = 2 * p11.secp256k1HalfN + 1) by reflexivity.
  assert (HN256 : p11.secp256k1N < 2 ^ 256) by reflexivity.
  pose proof (SetBytes_bound (skipn 32 sig)) as Hb. rewrite HS in Hb. fold s in Hb.
  change (256 ^ Z.of_nat 32) with (2 ^ 256) in Hb.
  unfold s' in *. destruct (s >? p11.secp256k1HalfN) eqn:Eg.
  - apply Z.gtb_lt in Eg.
    assert (Habs : Z.abs (p11.secp256k1N - s) = p11.secp256k1N - s) by lia.
    assert (Hv : Go.SetBytes (Go.Bytes (p11.secp256k1N - s)) = p11.secp256k1N - s)
      by (rewrite SetBytes_Bytes; exact Habs).
    assert (Hl32 : length (Go.Bytes (p11.secp256k1N - s)) = 32%nat).
    { pose proof (Bytes_at_most_32 (p11.secp256k1N - s)) as Hle.
      pose proof (SetBytes_bound (Go.Bytes (p11.secp256k1N - s))) as Hbb.
      rewrite Hv in Hbb.
      destruct (Nat.eq_dec (length (Go.Bytes (p11.secp256k1N - s))) 32) as [E|E];
        [exact E|]. exfalso.
      assert (Hp : 256 ^ Z.of_nat (length (Go.Bytes (p11.secp256k1N - s))) <= 256 ^ 31)
        by (apply Z.pow_le_mono_r; lia).
      change (256 ^ 31) with (2 ^ 248) in Hp. lia. }
    exists (Go.Bytes (p11.secp256k1N - s)).
    assert (Hf : p11.fixLen (Go.Bytes (p11.secp256k1N - s))
                 = Go.Bytes (p11.secp256k1N - s)).
    { rewrite fixLen_short by lia.
      rewrite trim_zeros_large by (first [exact Hl32 | rewrite Hv; exact Hs]).
      rewrite Hl32. apply app_nil_r. }
    rewrite Hf. repeat split; [exact Hl32|exact Hv|lia].
  - exists (skipn 32 sig).
    assert (Hf : p11.fixLen (skipn 32 sig) = skipn 32 sig).
    { rewrite fixLen_short by lia. rewrite trim_zeros_large by assumption.
      rewrite HS. apply app_nil_r. }
    rewrite Hf. repeat split; [exact HS|].
    destruct (Z.gtb_spec s p11.secp256k1HalfN); [discriminate|lia].
Qed.

(** The raw output [Runs.raw_plain], whose S is in the upper half. *)
Lemma Sign_sigRS_canonical_witness :
  length Runs.raw_plain = 64%nat /\
  let r := Go.SetBytes (firstn 32 Runs.raw_plain) in
  let s := Go.SetBytes (skipn 32 Runs.raw_plain) in
  let s' := if s >? p11.secp256k1HalfN then p11.secp256k1N - s else s in
  2 ^ 248 <= r /\
  2 ^ 248 <= s' /\
  exists outS : list byte,
    p11.Sign_sigRS Runs.raw_plain = Some (firstn 32 Runs.raw_plain ++ outS) /\
    length outS = 32%nat /\
    Go.SetBytes outS = s' /\
    s' <= p11.secp256k1HalfN.
Proof.
  split; [reflexivity|]. cbv zeta.
  split; [vm_compute; discriminate|].
  split; [vm_compute; discriminate|].
  refine (Sign_sigRS_canonical_without_leading_zeros Runs.raw_plain eq_refl _ _);
    vm_compute; discriminate.
Defined.

(* ===================================================================== *)
(** * Further properties: the EC point *)
(* ===================================================================== *)

Section EcPointMore.

Import pkcs11 p11.

Lemma index_last {A : Type} (l : list A) :
  l <> [] -> exists z, Go.index l (length l - 1) = Some z.
Proof.
  intros Hl. unfold Go.index.
  destruct (nth_error l (length l - 1)) as [z|] eqn:E; [now exists z|].
  apply nth_error_None in E. destruct l; [now elim Hl|]. cbn [length] in E. lia.
Qed.

Lemma slice_prefix {A : Type} (l : list A) (n : nat) :
  (n <= length l)%nat -> Go.slice l 0 n = Some (firstn n l).
Proof.
  intros H. unfold Go.slice. apply Nat.leb_le in H. rewrite H.
  cbn [Nat.leb andb skipn]. now rewrite Nat.sub_0_r.
Qed.

Lemma slice_suffix {A : Type} (l : list A) (n : nat) :
  (n <= length l)%nat -> Go.slice l n (length l) = Some (skipn n l).
Proof.
  intros H. unfold Go.slice. rewrite Nat.leb_refl, andb_true_r.
  apply Nat.leb_le in H. rewrite H. f_equal.
  apply firstn_all2. rewrite length_skipn. lia.
Qed.

(** With three bytes or more the [switch] reads inside the value. *)
Lemma ecPoint_switch_three_bytes (a b c : byte) (v : list byte) :
  exists r : list byte, ecPoint_switch (a :: b :: c :: v) = Some r.
Proof.
  set (l := a :: b :: c :: v).
  assert (H0 : Go.index l 0 = Some a) by reflexivity.
  assert (H2 : Go.index l 2 = Some c) by reflexivity.
  destruct (index_last l) as [z Hz]; [discriminate|].
  assert (S1 : Go.slice l 0 (length l - 1) = Some (firstn (length l - 1) l))
    by (apply slice_prefix; lia).
  assert (S2 : Go.slice l 2 (length l) = Some (skipn 2 l))
    by (apply slice_suffix; cbn [l length]; lia).
  unfold ecPoint_switch. cbv zeta. rewrite H0, H2, Hz, S1, S2.
  destruct (Nat.eqb (length l mod 2) 0);
    destruct (Go.byte_eqb x04 a);
    try destruct (Go.byte_eqb x04 z);
    try destruct (Go.byte_eqb x04 c); eexists; reflexivity.
Qed.

Lemma byte_eqb_eq (x y : byte) : Go.byte_eqb x y = true <-> x = y.
Proof.
  unfold Go.byte_eqb. split.
  - apply Byte.byte_dec_bl.
  - apply Byte.byte_dec_lb.
Qed.

End EcPointMore.

(** X3. The [switch] of [ecPoint] panics exactly on the empty value and on
    the values of one or two bytes that start with 0x04, the two bytes
    04 04 apart; every other value, and every value of three bytes or
    more, gives a point. *)
Theorem ecPoint_switch_panics_exactly_when (v : list byte) :
  p11.ecPoint_switch v = None <->
  (v = [] \/
   (Go.index v 0 = Some x04 /\ (length v < 3)%nat /\ v <> [x04; x04])).
Proof.
  destruct v as [|a [|b [|c v]]].
  - split; [now left|reflexivity].
  - unfold p11.ecPoint_switch. cbn -[Go.byte_eqb].
    destruct (Go.byte_eqb x04 a) eqn:E.
    + apply byte_eqb_eq in E. subst a. split; [|reflexivity].
      intros _. right. repeat split; [cbn; lia|discriminate].
    + split; [discriminate|]. intros [H|(H & _)]; [discriminate|].
      cbn in H. apply Some_inj in H. subst a. discriminate E.
  - unfold p11.ecPoint_switch. cbn -[Go.byte_eqb].
    destruct (Go.byte_eqb x04 a) eqn:Ea.
    + apply byte_eqb_eq in Ea. subst a.
      destruct (Go.byte_eqb x04 b) eqn:Eb.
      * apply byte_eqb_eq in Eb. subst b. split; [discriminate|].
        intros [H|(_ & _ & H)]; [discriminate|now elim H].
      * split; [|reflexivity]. intros _. right.
        repeat split; [cbn; lia|]. intros H.
        assert (b = x04) by congruence. subst b. discriminate Eb.
    + split; [discriminate|]. intros [H|(H & _)]; [discriminate|].
      cbn in H. apply Some_inj in H. subst a. discriminate Ea.
  - destruct (ecPoint_switch_three_bytes a b c v) as [r ->].
    split; [discriminate|]. intros [H|(_ & H & _)]; [discriminate|].
    cbn [length] in H. lia.
Qed.

(** X4. What the [switch] of [ecPoint] makes of a 65-byte uncompressed point
    [04 X Y] in each encoding: from the octet string [04 41 04 X Y] and from
    the point followed by a byte 0x04 it gives the point; from the point
    itself it gives the point unless the second byte of X is 0x04, and
    then the point without its two first bytes. *)
Theorem ecPoint_switch_encodings (point : list byte) :
  length point = 65%nat ->
  Go.index point 0 = Some x04 ->
  p11.ecPoint_switch (x04 :: x41 :: point) = Some point /\
  p11.ecPoint_switch (point ++ [x04]) = Some point /\
  (Go.index point 2 <> Some x04 -> p11.ecPoint_switch point = Some point) /\
  (Go.index point 2 = Some x04 -> p11.ecPoint_switch point = Some (skipn 2 point)).
Proof.
  intros Hl H0.
  split; [exact (ecPoint_switch_wrapped point Hl H0)|].
  assert (Hodd : Nat.eqb (length point mod 2) 0 = false) by (now rewrite Hl).
  split; [|split].
  - unfold p11.ecPoint_switch. cbv zeta.
    assert (Hl' : length (point ++ [x04]) = 66%nat) by (rewrite length_app, Hl; reflexivity).
    rewrite Hl'. change (Nat.eqb (66 mod 2) 0) with true. cbn [Nat.sub] .
    assert (E0 : Go.index (point ++ [x04]) 0 = Some x04).
    { unfold Go.index in *. rewrite nth_error_app1 by lia. exact H0. }
    assert (E65 : Go.index (point ++ [x04]) 65 = Some x04).
    { unfold Go.index. rewrite nth_error_app2 by lia. now rewrite Hl. }
    rewrite E0, E65. change (Go.byte_eqb x04 x04) with true. cbv iota.
    rewrite slice_prefix by lia. f_equal.
    rewrite <- Hl, firstn_app, firstn_all, Nat.sub_diag. cbn [firstn].
    apply app_nil_r.
  - intros H2. unfold p11.ecPoint_switch. cbv zeta.
    rewrite Hodd, H0. change (Go.byte_eqb x04 x04) with true. cbv iota.
    destruct (Go.index point 2) as [c|] eqn:E2; [|].
    + destruct (Go.byte_eqb x04 c) eqn:Ec; [|reflexivity].
      apply byte_eqb_eq in Ec. subst c. now elim H2.
    + unfold Go.index in E2. apply nth_error_None in E2. lia.
  - intros H2. unfold p11.ecPoint_switch. cbv zeta.
    rewrite Hodd, H0, H2. change (Go.byte_eqb x04 x04) with true. cbv iota.
    apply slice_suffix. lia.
Qed.

(** The generator of secp256k1, whose X starts with 79 be. *)
Lemma ecPoint_switch_encodings_witness :
  (length Runs.pub_G = 65%nat /\ Go.index Runs.pub_G 0 = Some x04) /\
  p11.ecPoint_switch (x04 :: x41 :: Runs.pub_G) = Some Runs.pub_G /\
  p11.ecPoint_switch (Runs.pub_G ++ [x04]) = Some Runs.pub_G /\
  (Go.index Runs.pub_G 2 <> Some x04 ->
   p11.ecPoint_switch Runs.pub_G = Some Runs.pub_G) /\
  (Go.index Runs.pub_G 2 = Some x04 ->
   p11.ecPoint_switch Runs.pub_G = Some (skipn 2 Runs.pub_G)).
Proof.
  split; [split; reflexivity|].
  exact (ecPoint_switch_encodings Runs.pub_G eq_refl eq_refl).
Defined.

(* ===================================================================== *)
(** * Further properties: signing and verifying *)
(* ===================================================================== *)

Section SignMore.

Import pkcs11 p11.

Lemma bytes_eqb_eq (a b : list byte) : bytes_eqb a b = true <-> a = b.
Proof.
  split; [|intros ->; apply bytes_eqb_refl].
  revert b. induction a as [|x a IH]; intros [|y b]; cbn [bytes_eqb];
    try discriminate; [reflexivity|].
  intros H. apply andb_true_iff in H as [Hx Ha].
  apply byte_eqb_eq in Hx. apply IH in Ha. congruence.
Qed.

Context {T : Type}.
Variable PublicKey : Type.
Variable Ecrecover : list byte -> list byte -> list byte + error.
Variable UnmarshalPubkey : list byte -> PublicKey + error.

(** What [Sign] returned, and from what. *)
Lemma Sign_returned (fuel : nat) (p : p11Token) (label keyid : string)
  (hash sig : list byte) (st st' : T) :
  p11.Sign PublicKey Ecrecover UnmarshalPubkey fuel p label keyid hash st = (Ok sig, st') ->
  exists (rs ecpt : list byte) (v : byte) (pub : PublicKey) (st3 : T),
    length rs = 64%nat /\
    (v = x00 \/ v = x01) /\
    sig = rs ++ [Go.byte_of_Z (Go.byte_val v + 27)] /\
    p11.GetPublicKey PublicKey UnmarshalPubkey fuel p label keyid st3
      = (Ok (pub, ecpt), st') /\
    Ecrecover hash (rs ++ [v]) = inl ecpt.
Proof.
  unfold p11.Sign, bind, call.
  destruct (resolveUnique fuel p _ st) as [[o| | | |] st1]; try discriminate.
  destruct (SignInit _ _ _ _ st1) as [[e|] st2]; [unfold fatal; discriminate|].
  destruct (pkcs11.Sign _ _ _ st2) as [[sig0 [e|]] st3]; [unfold fail; discriminate|].
  destruct (p11.GetPublicKey PublicKey UnmarshalPubkey fuel p label keyid st3)
    as [[[pub ecpt]| | | |] st4] eqn:Hget; try discriminate.
  unfold checked at 1.
  destruct (Sign_sigRS sig0) as [rs|] eqn:Hrs; [|unfold panic; discriminate].
  pose proof (Sign_sigRS_length _ _ Hrs) as Hl.
  unfold ret. rewrite !add27_at64_app by exact Hl. unfold checked, ret, fail.
  destruct (Ecrecover hash (rs ++ [x00])) as [r0|e0] eqn:E0; [|discriminate].
  destruct (bytes_eqb r0 ecpt) eqn:B0.
  - intros H. apply bytes_eqb_eq in B0. subst r0.
    exists rs, ecpt, x00, pub, st3.
    assert (Es : st4 = st') by exact (f_equal snd H).
    assert (E : Ok (A:=list byte) (rs ++ [Go.byte_of_Z (Go.byte_val x00 + 27)]) = Ok sig)
      by exact (f_equal fst H).
    subst st4. repeat split; auto. congruence.
  - destruct (Ecrecover hash (rs ++ [x01])) as [r1|e1] eqn:E1; [|discriminate].
    destruct (bytes_eqb r1 ecpt) eqn:B1; [|discriminate].
    intros H. apply bytes_eqb_eq in B1. subst r1.
    exists rs, ecpt, x01, pub, st3.
    assert (Es : st4 = st') by exact (f_equal snd H).
    assert (E : Ok (A:=list byte) (rs ++ [Go.byte_of_Z (Go.byte_val x01 + 27)]) = Ok sig)
      by exact (f_equal fst H).
    subst st4. repeat split; auto. congruence.
Qed.

End SignMore.

(** X6. [GetPublicKey] never reports a failed read of the point: when the
    public key is resolved and [GetAttributeValue] returns no attribute,
    with or without an error, the result is that of [UnmarshalPubkey] on
    the empty point. *)
Theorem GetPublicKey_hides_the_read_error :
  forall (T PublicKey : Type) (UnmarshalPubkey : list byte -> PublicKey + error)
         (fuel : nat) (p : @p11.p11Token T) (label keyid : string)
         (st st1 st2 : T) (o : pkcs11.ObjectHandle) (err : option error),
    p11.resolveUnique fuel p (p11.key_template pkcs11.CKO_PUBLIC_KEY label keyid) st
      = (Ok o, st1) ->
    pkcs11.GetAttributeValue (p11.ctx p) (p11.session p) o
      [pkcs11.NewAttribute pkcs11.CKA_EC_POINT pkcs11.VNil] st1 = (([], err), st2) ->
    p11.GetPublicKey PublicKey UnmarshalPubkey fuel p label keyid st
    = (match UnmarshalPubkey [] with
       | inl pub => Ok (pub, [])
       | inr e => Err e
       end, st2).
Proof.
  intros T PublicKey UnmarshalPubkey fuel p label keyid st st1 st2 o err H1 H2.
  now apply (GetPublicKey_run PublicKey UnmarshalPubkey fuel p label keyid
               st st1 st2 o [] err []).
Qed.

(** A public key object without [CKA_EC_POINT]: the read fails with
    [CKR_ATTRIBUTE_TYPE_INVALID] and the error returned is the curve's. *)
Lemma GetPublicKey_hides_the_read_error_witness :
  pkcs11.GetAttributeValue (MemToken.token (Runs.signs [])) 1 2
    [pkcs11.NewAttribute pkcs11.CKA_EC_POINT pkcs11.VNil]
    (MemToken.fresh [Runs.private_key 1 "clitest"; Runs.public_without_point 2 "clitest"])
  = (([], Some (pkcs11_Error pkcs11.CKR_ATTRIBUTE_TYPE_INVALID)),
     MemToken.fresh [Runs.private_key 1 "clitest"; Runs.public_without_point 2 "clitest"])
  /\
  p11.GetPublicKey Stub.PublicKey Stub.UnmarshalPubkey 5
    (MemToken.p11Token (Runs.signs [])) "clitest" ""
    (MemToken.fresh [Runs.private_key 1 "clitest"; Runs.public_without_point 2 "clitest"])
  = (match Stub.UnmarshalPubkey [] with
     | inl pub => Ok (pub, [])
     | inr e => Err e
     end,
     MemToken.fresh [Runs.private_key 1 "clitest"; Runs.public_without_point 2 "clitest"]).
Proof.
  split; [vm_compute; reflexivity|].
  refine (GetPublicKey_hides_the_read_error _ Stub.PublicKey Stub.UnmarshalPubkey 5
            (MemToken.p11Token (Runs.signs [])) "clitest" "" _ _ _ 2
            (Some (pkcs11_Error pkcs11.CKR_ATTRIBUTE_TYPE_INVALID)) _ _);
    vm_compute; reflexivity.
Defined.

(** X7. When the public key is read, [Verify] succeeds exactly when
    [Ecrecover] recovers, from the hash and the signature as given, the very
    bytes of the token's point; it makes no call of the token after the
    read. *)
Theorem Verify_succeeds_exactly_when_the_point_is_recovered :
  forall (T PublicKey : Type)
         (Ecrecover : list byte -> list byte -> list byte + error)
         (UnmarshalPubkey : list byte -> PublicKey + error)
         (fuel : nat) (p : @p11.p11Token T) (label keyid : string)
         (hash signature ecpt : list byte) (pub : PublicKey) (st st' : T),
    p11.GetPublicKey PublicKey UnmarshalPubkey fuel p label keyid st
      = (Ok (pub, ecpt), st') ->
    (p11.Verify PublicKey Ecrecover UnmarshalPubkey fuel p label keyid hash signature st
       = (Ok tt, st')
     <-> Ecrecover hash signature = inl ecpt) /\
    snd (p11.Verify PublicKey Ecrecover UnmarshalPubkey fuel p label keyid hash
           signature st) = st'.
Proof.
  intros T PublicKey Ecrecover UnmarshalPubkey fuel p label keyid hash signature
         ecpt pub st st' H.
  unfold p11.Verify, bind. rewrite H.
  destruct (Ecrecover hash signature) as [r|e].
  - destruct (p11.bytes_eqb r ecpt) eqn:B.
    + apply bytes_eqb_eq in B. subst r. split; [split|]; reflexivity.
    + split; [split|reflexivity]; [discriminate|].
      intros E. assert (r = ecpt) by congruence. subst r.
      rewrite bytes_eqb_refl in B. discriminate B.
  - split; [split|reflexivity]; discriminate.
Qed.

(** The token with the key pair [clitest] and the signature [Runs.sig_plain]
    with its last byte 28 replaced by 1. *)
Lemma Verify_succeeds_exactly_witness :
  p11.GetPublicKey Stub.PublicKey Stub.UnmarshalPubkey 5
    (MemToken.p11Token (Runs.signs Runs.raw_plain)) "clitest" ""
    (MemToken.fresh (Runs.key_pair Runs.pub_G))
  = (Ok ((firstn 32 (skipn 1 Runs.pub_G), skipn 33 Runs.pub_G), Runs.pub_G),
     MemToken.fresh (Runs.key_pair Runs.pub_G))
  /\
  ((p11.Verify Stub.PublicKey (Stub.Ecrecover Runs.recovered0_plain Runs.pub_G)
      Stub.UnmarshalPubkey 5 (MemToken.p11Token (Runs.signs Runs.raw_plain))
      "clitest" "" Runs.hash0 (firstn 64 Runs.sig_plain ++ [x01])
      (MemToken.fresh (Runs.key_pair Runs.pub_G))
    = (Ok tt, MemToken.fresh (Runs.key_pair Runs.pub_G))
    <-> Stub.Ecrecover Runs.recovered0_plain Runs.pub_G Runs.hash0
          (firstn 64 Runs.sig_plain ++ [x01]) = inl Runs.pub_G) /\
   snd (p11.Verify Stub.PublicKey (Stub.Ecrecover Runs.recovered0_plain Runs.pub_G)
          Stub.UnmarshalPubkey 5 (MemToken.p11Token (Runs.signs Runs.raw_plain))
          "clitest" "" Runs.hash0 (firstn 64 Runs.sig_plain ++ [x01])
          (MemToken.fresh (Runs.key_pair Runs.pub_G)))
   = MemToken.fresh (Runs.key_pair Runs.pub_G)).
Proof.
  assert (H : p11.GetPublicKey Stub.PublicKey Stub.UnmarshalPubkey 5
                (MemToken.p11Token (Runs.signs Runs.raw_plain)) "clitest" ""
                (MemToken.fresh (Runs.key_pair Runs.pub_G))
              = (Ok ((firstn 32 (skipn 1 Runs.pub_G), skipn 33 Runs.pub_G), Runs.pub_G),
                 MemToken.fresh (Runs.key_pair Runs.pub_G)))
    by (vm_compute; reflexivity).
  split; [exact H|].
  exact (Verify_succeeds_exactly_when_the_point_is_recovered _ _
           (Stub.Ecrecover Runs.recovered0_plain Runs.pub_G) _ _ _ _ _ Runs.hash0
           (firstn 64 Runs.sig_plain ++ [x01]) _ _ _ _ H).
Defined.

(** X8. Every signature that [Sign] returns is 64 bytes followed by 27 + v
    with v = 0 or 1, and [Ecrecover] on the 64 bytes followed by v gives
    the point that [Sign] read from the token. So [Verify] succeeds on these
    64 bytes followed by v in every state in which the token still answers
    that point; the 27 is what keeps [Verify] from accepting the signature
    itself. *)
Theorem Sign_then_Verify_less_27 :
  forall (T PublicKey : Type)
         (Ecrecover : list byte -> list byte -> list byte + error)
         (UnmarshalPubkey : list byte -> PublicKey + error)
         (fuel : nat) (p : @p11.p11Token T) (label keyid : string)
         (hash sig : list byte) (st st' : T),
    p11.Sign PublicKey Ecrecover UnmarshalPubkey fuel p label keyid hash st
      = (Ok sig, st') ->
    exists (rs ecpt : list byte) (v : byte),
      length rs = 64%nat /\
      (v = x00 \/ v = x01) /\
      sig = rs ++ [Go.byte_of_Z (Go.byte_val v + 27)] /\
      p11.sub27_at64 sig = Some (rs ++ [v]) /\
      Ecrecover hash (rs ++ [v]) = inl ecpt /\
      (exists (pub : PublicKey) (st3 : T),
          p11.GetPublicKey PublicKey UnmarshalPubkey fuel p label keyid st3
            = (Ok (pub, ecpt), st')) /\
      forall (fuel' : nat) (st1 st2 : T) (pub : PublicKey),
        p11.GetPublicKey PublicKey UnmarshalPubkey fuel' p label keyid st1
          = (Ok (pub, ecpt), st2) ->
        p11.Verify PublicKey Ecrecover UnmarshalPubkey fuel' p label keyid hash
          (rs ++ [v]) st1 = (Ok tt, st2).
Proof.
  intros T PublicKey Ecrecover UnmarshalPubkey fuel p label keyid hash sig st st' H.
  destruct (Sign_returned _ _ _ _ _ _ _ _ _ _ _ H)
    as (rs & ecpt & v & pub & st3 & Hl & Hv & Hsig & Hget & Hrec).
  exists rs, ecpt, v. repeat split; auto.
  - rewrite Hsig.
    destruct (recoverAddress_takes_27_off PublicKey unit Ecrecover UnmarshalPubkey
                (fun _ => tt) hash rs Hl) as (_ & _ & E0 & E1).
    destruct Hv as [-> | ->]; assumption.
  - now exists pub, st3.
  - intros fuel' st1 st2 pub' Hget'. unfold p11.Verify, bind.
    rewrite Hget', Hrec, bytes_eqb_refl. reflexivity.
Qed.

(** The token with the key pair [clitest] of the private key 1. *)
Lemma Sign_then_Verify_less_27_witness :
  p11.Sign Stub.PublicKey (Stub.Ecrecover Runs.recovered0_plain Runs.pub_G)
    Stub.UnmarshalPubkey 5 (MemToken.p11Token (Runs.signs Runs.raw_plain))
    "clitest" "" Runs.hash0 (MemToken.fresh (Runs.key_pair Runs.pub_G))
  = (Ok Runs.sig_plain, MemToken.fresh (Runs.key_pair Runs.pub_G))
  /\
  exists (rs ecpt : list byte) (v : byte),
    length rs = 64%nat /\
    (v = x00 \/ v = x01) /\
    Runs.sig_plain = rs ++ [Go.byte_of_Z (Go.byte_val v + 27)] /\
    p11.sub27_at64 Runs.sig_plain = Some (rs ++ [v]) /\
    Stub.Ecrecover Runs.recovered0_plain Runs.pub_G Runs.hash0 (rs ++ [v]) = inl ecpt /\
    (exists (pub : Stub.PublicKey) (st3 : MemToken.state),
        p11.GetPublicKey Stub.PublicKey Stub.UnmarshalPubkey 5
          (MemToken.p11Token (Runs.signs Runs.raw_plain)) "clitest" "" st3
          = (Ok (pub, ecpt), MemToken.fresh (Runs.key_pair Runs.pub_G))) /\
    forall (fuel' : nat) (st1 st2 : MemToken.state) (pub : Stub.PublicKey),
      p11.GetPublicKey Stub.PublicKey Stub.UnmarshalPubkey fuel'
        (MemToken.p11Token (Runs.signs Runs.raw_plain)) "clitest" "" st1
        = (Ok (pub, ecpt), st2) ->
      p11.Verify Stub.PublicKey (Stub.Ecrecover Runs.recovered0_plain Runs.pub_G)
        Stub.UnmarshalPubkey fuel' (MemToken.p11Token (Runs.signs Runs.raw_plain))
        "clitest" "" Runs.hash0 (rs ++ [v]) st1 = (Ok tt, st2).
Proof.
  assert (H : p11.Sign Stub.PublicKey (Stub.Ecrecover Runs.recovered0_plain Runs.pub_G)
                Stub.UnmarshalPubkey 5 (MemToken.p11Token (Runs.signs Runs.raw_plain))
                "clitest" "" Runs.hash0 (MemToken.fresh (Runs.key_pair Runs.pub_G))
              = (Ok Runs.sig_plain, MemToken.fresh (Runs.key_pair Runs.pub_G)))
    by (vm_compute; reflexivity).
  split; [exact H|].
  exact (Sign_then_Verify_less_27 _ _ _ _ _ _ _ _ _ _ _ _ H).
Defined.

(* ===================================================================== *)
(** * Further properties: searching *)
(* ===================================================================== *)

Section SearchMore.

Import pkcs11 p11.

Context {T : Type}.

Lemma findAllMatching_loop_pages (p : @p11Token T) (fuel : nat) :
  forall (acc objects : list ObjectHandle) (st st' : T) (tr tr' : list Traced.Event),
    findAllMatching_loop fuel (Traced.traced_token p) acc (st, tr)
      = (Ok objects, (st', tr')) ->
    exists evs : list Traced.Event,
      tr' = tr ++ evs ++ [Traced.EvFindObjects batchSize [] None] /\
      Calls.full_pages evs = true /\
      objects = acc ++ Calls.handles evs.
Proof.
  induction fuel as [|fuel IH]; intros acc objects st st' tr tr'; [discriminate|].
  cbn [findAllMatching_loop]. unfold bind, call. traced_call.
  destruct (FindObjects (ctx p) (session p) batchSize st) as [[[res more] [e|]] st1];
    [unfold fail; discriminate|].
  destruct res as [|h res].
  - cbn [length Nat.eqb]. unfold ret. intros H.
    exists []. cbn [app Calls.full_pages forallb Calls.handles flat_map].
    rewrite app_nil_r. repeat split; congruence.
  - cbn [length Nat.eqb]. intros H. apply IH in H as (evs & Htr & Hfull & Hobj).
    exists (Traced.EvFindObjects batchSize (h :: res) None :: evs).
    repeat split.
    + rewrite Htr, <- app_assoc. reflexivity.
    + cbn [Calls.full_pages forallb Calls.page]. rewrite Z.eqb_refl. exact Hfull.
    + rewrite Hobj, <- app_assoc. cbn [Calls.handles flat_map Calls.page].
      rewrite Z.eqb_refl. reflexivity.
Qed.

End SearchMore.

(** X9. On every token, when [findAllMatching] returns objects, the calls it
    made are [FindObjectsInit] with the template, then pages of [FindObjects]
    with the batch size 20 that each returned at least one handle, then one
    page that returned none, then [FindObjectsFinal]; the objects returned
    are the handles of the pages in the order of the calls, and the search
    is closed. *)
Theorem findAllMatching_returns_the_pages :
  forall (T : Type) (p : @p11.p11Token T) (fuel : nat)
         (template : list pkcs11.Attribute) (objects : list pkcs11.ObjectHandle)
         (st st' : T) (tr tr' : list Traced.Event),
    p11.findAllMatching fuel (Traced.traced_token p) template (st, tr)
      = (Ok objects, (st', tr')) ->
    exists evs : list Traced.Event,
      tr' = tr ++ [Traced.EvFindObjectsInit template None] ++ evs
               ++ [Traced.EvFindObjects p11.batchSize [] None;
                   Traced.EvFindObjectsFinal None] /\
      Calls.full_pages evs = true /\
      objects = Calls.handles evs /\
      Traced.search_open tr' = false.
Proof.
  intros T p fuel template objects st st' tr tr'.
  unfold p11.findAllMatching, bind, call. traced_call.
  destruct (pkcs11.FindObjectsInit (p11.ctx p) (p11.session p) template st)
    as [[e|] st1]; [unfold fail; discriminate|].
  destruct (p11.findAllMatching_loop fuel _ [] _) as [[objs| | | |] [st2 tr2]] eqn:Hloop;
    try discriminate.
  apply findAllMatching_loop_pages in Hloop as (evs & Htr & Hfull & Hobj).
  traced_call.
  destruct (pkcs11.FindObjectsFinal (p11.ctx p) (p11.session p) st2) as [[e|] st3];
    [unfold fail; discriminate|].
  unfold ret. intros H.
  assert (E1 : objs = objects).
  { assert (E : Ok objs = Ok objects) by exact (f_equal fst H). congruence. }
  assert (E2 : tr2 ++ [Traced.EvFindObjectsFinal None] = tr')
    by exact (f_equal (fun x => snd (snd x)) H).
  exists evs. subst objects tr' tr2. repeat split.
  - rewrite <- !app_assoc. reflexivity.
  - exact Hfull.
  - exact Hobj.
  - unfold Traced.search_open. rewrite fold_left_app. reflexivity.
Qed.

(** The in-memory token with the twenty-five objects of [Runs.many]: two
    pages, of 20 and of 5 handles. *)
Lemma findAllMatching_returns_the_pages_witness :
  exists (objects : list pkcs11.ObjectHandle) (st' : MemToken.state)
         (tr' : list Traced.Event),
    p11.findAllMatching 5 (Traced.traced_token (MemToken.p11Token (Runs.signs []))) []
      (MemToken.fresh Runs.many, []) = (Ok objects, (st', tr')) /\
    length objects = 25%nat /\
    exists evs : list Traced.Event,
      tr' = [] ++ [Traced.EvFindObjectsInit [] None] ++ evs
               ++ [Traced.EvFindObjects p11.batchSize [] None;
                   Traced.EvFindObjectsFinal None] /\
      Calls.full_pages evs = true /\
      objects = Calls.handles evs /\
      Traced.search_open tr' = false.
Proof.
  let v := eval vm_compute in
    (p11.findAllMatching 5 (Traced.traced_token (MemToken.p11Token (Runs.signs []))) []
       (MemToken.fresh Runs.many, [])) in
  match v with
  | (Ok ?o, (?s, ?t)) =>
    assert (H : p11.findAllMatching 5
                  (Traced.traced_token (MemToken.p11Token (Runs.signs []))) []
                  (MemToken.fresh Runs.many, []) = (Ok o, (s, t)))
      by (vm_compute; reflexivity);
    exists o, s, t; split; [exact H|split; [reflexivity|]];
    exact (findAllMatching_returns_the_pages _ _ _ _ _ _ _ _ _ H)
  end.
Defined.

(* ===================================================================== *)
(** * Further properties: deleting *)
(* ===================================================================== *)

(** X10. The in-memory token on which every object carries a label and the
    handles are distinct, with fuel for the search: [DeleteAllExcept] returns
    without error and leaves exactly the objects whose label is one of
    [keyLabels], in their order; nothing else of the token changes. *)
Theorem DeleteAllExcept_keeps_exactly_the_labels :
  forall (b : MemToken.behaviour) (fuel : nat) (keyLabels : list string)
         (st : MemToken.state),
    MemToken.find_objects_error b = None ->
    MemToken.destroy_error b = None ->
    MemToken.search st = None ->
    NoDup (map MemToken.handle (MemToken.objects st)) ->
    Forall (fun o => MemToken.label_of o <> None) (MemToken.objects st) ->
    (length (MemToken.objects st) < fuel)%nat ->
    p11.DeleteAllExcept fuel (MemToken.p11Token b) keyLabels st
    = (Ok tt,
       MemToken.with_objects st
         (filter (MemToken.kept_by keyLabels) (MemToken.objects st))).
Proof.
  intros b fuel keyLabels st Hf Hd Hs Hnd Hl Hfuel.
  now apply MemToken_DeleteAllExcept.
Qed.

(** Three labelled objects, of which [keep] and [spare] are to be kept. *)
Lemma DeleteAllExcept_keeps_exactly_the_labels_witness :
  (NoDup (map MemToken.handle
            [Runs.labelled 1 "old"; Runs.labelled 2 "keep"; Runs.labelled 3 "spare"]) /\
   Forall (fun o => MemToken.label_of o <> None)
     [Runs.labelled 1 "old"; Runs.labelled 2 "keep"; Runs.labelled 3 "spare"])
  /\
  p11.DeleteAllExcept 5 (MemToken.p11Token (Runs.signs []))
    ["spare"%string; "keep"%string]
    (MemToken.fresh
       [Runs.labelled 1 "old"; Runs.labelled 2 "keep"; Runs.labelled 3 "spare"])
  = (Ok tt,
     MemToken.with_objects
       (MemToken.fresh
          [Runs.labelled 1 "old"; Runs.labelled 2 "keep"; Runs.labelled 3 "spare"])
       (filter (MemToken.kept_by ["spare"%string; "keep"%string])
          (MemToken.objects
             (MemToken.fresh
                [Runs.labelled 1 "old"; Runs.labelled 2 "keep";
                 Runs.labelled 3 "spare"])))).
Proof.
  assert (Hnd : NoDup (map MemToken.handle
                  [Runs.labelled 1 "old"; Runs.labelled 2 "keep"; Runs.labelled 3 "spare"])).
  { cbn [map MemToken.handle Runs.labelled].
    repeat constructor; cbn [In]; intros H; repeat destruct H as [H|H];
      first [discriminate H | exact H]. }
  assert (Hl : Forall (fun o => MemToken.label_of o <> None)
                 [Runs.labelled 1 "old"; Runs.labelled 2 "keep"; Runs.labelled 3 "spare"])
    by (repeat constructor; discriminate).
  split; [split; assumption|].
  refine (DeleteAllExcept_keeps_exactly_the_labels (Runs.signs []) 5
            ["spare"%string; "keep"%string]
            (MemToken.fresh
               [Runs.labelled 1 "old"; Runs.labelled 2 "keep"; Runs.labelled 3 "spare"])
            eq_refl eq_refl eq_refl Hnd Hl _).
  cbn. lia.
Defined.

Example DeleteAllExcept_three_objects :
  p11.DeleteAllExcept 5 (MemToken.p11Token (Runs.signs []))
    ["spare"%string; "keep"%string]
    (MemToken.fresh
       [Runs.labelled 1 "old"; Runs.labelled 2 "keep"; Runs.labelled 3 "spare"])
  = (Ok tt, MemToken.fresh [Runs.labelled 2 "keep"; Runs.labelled 3 "spare"]).
Proof. vm_compute. reflexivity. Qed.

(** X11. On every token: when the label read of the first object found
    fails with an error other than [CKR_ATTRIBUTE_TYPE_INVALID],
    [DeleteAllExcept] returns that error with the message "failed to get
    label" and calls the token no more: no object is destroyed. *)
Theorem DeleteAllExcept_stops_when_a_label_read_fails :
  forall (T : Type) (p : @p11.p11Token T) (fuel : nat) (keyLabels : list string)
         (st st1 st2 : T) (tr tr1 : list Traced.Event)
         (o : pkcs11.ObjectHandle) (rest : list pkcs11.ObjectHandle)
         (attrs : list pkcs11.Attribute) (e : error),
    let template := [pkcs11.NewAttribute pkcs11.CKA_LABEL pkcs11.VNil] in
    p11.findAllMatching fuel (Traced.traced_token p) [] (st, tr)
      = (Ok (o :: rest), (st1, tr1)) ->
    pkcs11.GetAttributeValue (p11.ctx p) (p11.session p) o template st1
      = ((attrs, Some e), st2) ->
    e <> pkcs11_Error pkcs11.CKR_ATTRIBUTE_TYPE_INVALID ->
    p11.DeleteAllExcept fuel (Traced.traced_token p) keyLabels (st, tr)
    = (Err (errors_WithMessage e "failed to get label"),
       (st2, tr1 ++ [Traced.EvGetAttributeValue o template (Some e)])).
Proof.
  intros T p fuel keyLabels st st1 st2 tr tr1 o rest attrs e template H1 H2 Hne.
  unfold p11.DeleteAllExcept, bind. rewrite H1.
  cbn [p11.DeleteAllExcept_range]. unfold bind, call. traced_call.
  fold template. rewrite H2.
  destruct e as [code| | |]; try reflexivity.
  destruct (Z.eqb_spec code pkcs11.CKR_ATTRIBUTE_TYPE_INVALID) as [->|Hc];
    [now elim Hne|reflexivity].
Qed.

(** The token on which no attribute can be read, holding two objects. *)
Lemma DeleteAllExcept_stops_when_a_label_read_fails_witness :
  p11.DeleteAllExcept 5
    (Traced.traced_token (Runs.reads_fail (pkcs11_Error pkcs11.CKR_FUNCTION_FAILED)))
    ["keep"%string]
    (MemToken.fresh [Runs.labelled 1 "old"; Runs.labelled 2 "keep"], [])
  = (Err (errors_WithMessage (pkcs11_Error pkcs11.CKR_FUNCTION_FAILED) "failed to get label"),
     (MemToken.fresh [Runs.labelled 1 "old"; Runs.labelled 2 "keep"],
      [Traced.EvFindObjectsInit [] None;
       Traced.EvFindObjects p11.batchSize [1; 2] None;
       Traced.EvFindObjects p11.batchSize [] None;
       Traced.EvFindObjectsFinal None]
      ++ [Traced.EvGetAttributeValue 1
            [pkcs11.NewAttribute pkcs11.CKA_LABEL pkcs11.VNil]
            (Some (pkcs11_Error pkcs11.CKR_FUNCTION_FAILED))])).
Proof.
  refine (DeleteAllExcept_stops_when_a_label_read_fails _
            (Runs.reads_fail (pkcs11_Error pkcs11.CKR_FUNCTION_FAILED)) 5%nat
            ["keep"%string]
            (MemToken.fresh [Runs.labelled 1 "old"; Runs.labelled 2 "keep"])
            (MemToken.fresh [Runs.labelled 1 "old"; Runs.labelled 2 "keep"])
            (MemToken.fresh [Runs.labelled 1 "old"; Runs.labelled 2 "keep"])
            [] _ 1 [2] [] (pkcs11_Error pkcs11.CKR_FUNCTION_FAILED) _ _ _);
    [vm_compute; reflexivity | vm_compute; reflexivity | discriminate].
Defined.

(** X12. On every token: when the first object found has a label that is
    not one of [keyLabels] and [DestroyObject] fails on it,
    [DeleteAllExcept] returns that error with the message "failed to destroy
    object" and calls the token no more: the later objects are neither read
    nor destroyed. *)
Theorem DeleteAllExcept_stops_when_a_deletion_fails :
  forall (T : Type) (p : @p11.p11Token T) (fuel : nat) (keyLabels : list string)
         (st st1 st2 st3 : T) (tr tr1 : list Traced.Event)
         (o : pkcs11.ObjectHandle) (rest : list pkcs11.ObjectHandle)
         (a : pkcs11.Attribute) (attrs : list pkcs11.Attribute) (e : error),
    let template := [pkcs11.NewAttribute pkcs11.CKA_LABEL pkcs11.VNil] in
    p11.findAllMatching fuel (Traced.traced_token p) [] (st, tr)
      = (Ok (o :: rest), (st1, tr1)) ->
    pkcs11.GetAttributeValue (p11.ctx p) (p11.session p) o template st1
      = ((a :: attrs, None), st2) ->
    existsb (fun l => String.eqb l (Go.string_of_bytes (pkcs11.Value a))) keyLabels
      = false ->
    pkcs11.DestroyObject (p11.ctx p) (p11.session p) o st2 = (Some e, st3) ->
    p11.DeleteAllExcept fuel (Traced.traced_token p) keyLabels (st, tr)
    = (Err (errors_WithMessage e "failed to destroy object"),
       (st3, tr1 ++ [Traced.EvGetAttributeValue o template None;
                     Traced.EvDestroyObject o (Some e)])).
Proof.
  intros T p fuel keyLabels st st1 st2 st3 tr tr1 o rest a attrs e template
         H1 H2 Hk H3.
  unfold p11.DeleteAllExcept, bind. rewrite H1.
  cbn [p11.DeleteAllExcept_range]. unfold bind, call. traced_call.
  fold template. rewrite H2. unfold ret at 1.
  assert (Hkeep : forall s : T * list Traced.Event,
             p11.DeleteAllExcept_keep keyLabels (a :: attrs) s
             = (Ok (existsb (fun l => String.eqb l (Go.string_of_bytes (pkcs11.Value a)))
                      keyLabels), s)).
  { intros s. induction keyLabels as [|l ls IH]; [reflexivity|].
    cbn [p11.DeleteAllExcept_keep existsb] in *. unfold bind, checked.
    cbn [Go.index nth_error]. unfold ret at 1.
    destruct (String.eqb l (Go.string_of_bytes (pkcs11.Value a))); [discriminate Hk|].
    now apply IH. }
  rewrite Hkeep, Hk. cbn [negb]. unfold checked. cbn [Go.index nth_error].
  unfold ret. unfold Traced.log. rewrite H3. unfold fail.
  now rewrite <- app_assoc.
Qed.

(** The token on which [DestroyObject] fails, with two objects to delete. *)
Lemma DeleteAllExcept_stops_when_a_deletion_fails_witness :
  p11.DeleteAllExcept 5 (Traced.traced_token (MemToken.p11Token Runs.destroy_fails))
    ["keep"%string]
    (MemToken.fresh [Runs.labelled 1 "old"; Runs.labelled 2 "older"], [])
  = (Err (errors_WithMessage (pkcs11_Error pkcs11.CKR_FUNCTION_FAILED)
            "failed to destroy object"),
     (MemToken.fresh [Runs.labelled 1 "old"; Runs.labelled 2 "older"],
      [Traced.EvFindObjectsInit [] None;
       Traced.EvFindObjects p11.batchSize [1; 2] None;
       Traced.EvFindObjects p11.batchSize [] None;
       Traced.EvFindObjectsFinal None]
      ++ [Traced.EvGetAttributeValue 1
            [pkcs11.NewAttribute pkcs11.CKA_LABEL pkcs11.VNil] None;
          Traced.EvDestroyObject 1 (Some (pkcs11_Error pkcs11.CKR_FUNCTION_FAILED))])).
Proof.
  refine (DeleteAllExcept_stops_when_a_deletion_fails _
            (MemToken.p11Token Runs.destroy_fails) 5%nat ["keep"%string]
            (MemToken.fresh [Runs.labelled 1 "old"; Runs.labelled 2 "older"])
            (MemToken.fresh [Runs.labelled 1 "old"; Runs.labelled 2 "older"])
            (MemToken.fresh [Runs.labelled 1 "old"; Runs.labelled 2 "older"])
            (MemToken.fresh [Runs.labelled 1 "old"; Runs.labelled 2 "older"])
            [] _ 1 [2]
            (pkcs11.mkAttribute pkcs11.CKA_LABEL (Go.bytes_of_string "old")) []
            (pkcs11_Error pkcs11.CKR_FUNCTION_FAILED) _ _ _ _);
    vm_compute; reflexivity.
Defined.

(* ===================================================================== *)
(** * Further properties: generating an elliptic-curve key *)
(* ===================================================================== *)

Section MemTokenGenerate.

Import pkcs11 p11.

Variable b : MemToken.behaviour.
Hypothesis find_works : MemToken.find_objects_error b = None.

Lemma matching_length (template : list Attribute) (st : MemToken.state) :
  (length (MemToken.matching template st) <= length (MemToken.objects st))%nat.
Proof.
  unfold MemToken.matching. rewrite length_map. apply filter_length_le.
Qed.

Lemma matching_app (template : list Attribute) (st : MemToken.state)
  (new : list MemToken.Object) (s : option (list ObjectHandle))
  (k : option ObjectHandle) (n : ObjectHandle) :
  MemToken.matching template (MemToken.mkState (MemToken.objects st ++ new) s k n)
  = MemToken.matching template st
    ++ map MemToken.handle (filter (MemToken.matches template) new).
Proof.
  unfold MemToken.matching. cbn [MemToken.objects].
  now rewrite filter_app, map_app.
Qed.

(** The search of [GenerateECKey] is the search of [GetPublicKey] without a
    key id. *)
Lemma GenerateECKey_search (label : string) :
  (if String.eqb label "" then [NewAttribute CKA_CLASS (VUint CKO_PUBLIC_KEY)]
   else [NewAttribute CKA_CLASS (VUint CKO_PUBLIC_KEY)]
        ++ [NewAttribute CKA_LABEL (VString label)])
  = key_template CKO_PUBLIC_KEY label "".
Proof. unfold key_template. now destruct (String.eqb label ""). Qed.

(** [GenerateECKey] on the in-memory token refuses when a public key matches. *)
Lemma MemToken_GenerateECKey_refused (fuel : nat) (label keyid : string)
  (st : MemToken.state) :
  MemToken.search st = None ->
  (length (MemToken.matching (key_template CKO_PUBLIC_KEY label "") st) < fuel)%nat ->
  MemToken.matching (key_template CKO_PUBLIC_KEY label "") st <> [] ->
  GenerateECKey fuel (MemToken.p11Token b) label keyid st
  = (Err (errors_New "Key with this label already exists"), st).
Proof.
  intros Hs Hf Hm. unfold GenerateECKey, bind.
  rewrite GenerateECKey_search.
  rewrite (MemToken_findAllMatching b find_works) by assumption.
  destruct (MemToken.matching (key_template CKO_PUBLIC_KEY label "") st);
    [now elim Hm|reflexivity].
Qed.

(** What a successful [GenerateECKey] leaves on the in-memory token: no
    public key matched before, and the searches of [GetPublicKey] and of
    [Sign] without a key id now find the new objects after the old ones. *)
Lemma MemToken_GenerateECKey_done (fuel : nat) (label keyid : string)
  (st st' : MemToken.state) :
  MemToken.search st = None ->
  (length (MemToken.objects st) < fuel)%nat ->
  GenerateECKey fuel (MemToken.p11Token b) label keyid st = (Ok tt, st') ->
  MemToken.matching (key_template CKO_PUBLIC_KEY label "") st = []
  /\ MemToken.search st' = None
  /\ MemToken.matching (key_template CKO_PUBLIC_KEY label "") st'
     = [MemToken.next_handle st]
  /\ MemToken.matching (key_template CKO_PRIVATE_KEY label "") st'
     = MemToken.matching (key_template CKO_PRIVATE_KEY label "") st
       ++ [MemToken.next_handle st + 1].
Proof.
  intros Hs Hf H. unfold GenerateECKey, bind in H.
  rewrite GenerateECKey_search in H.
  rewrite (MemToken_findAllMatching b find_works) in H;
    [|assumption|pose proof (matching_length (key_template CKO_PUBLIC_KEY label "") st); lia].
  destruct (MemToken.matching (key_template CKO_PUBLIC_KEY label "") st) eqn:Hm;
    [|discriminate H].
  cbn [length Nat.ltb Nat.leb] in H. unfold call in H. mem_call.
  cbn [MemToken.p11Token MemToken.token ctx session pkcs11.GenerateKeyPair] in H.
  unfold ret in H.
  apply (f_equal snd) in H. cbn [snd] in H. subst st'.
  split; [reflexivity|]. split; [exact Hs|].
  rewrite !matching_app, Hm.
  split.
  - unfold key_template.
    destruct (String.eqb label ""); cbn -[bytes_eqb Go.bytes_of_string];
      rewrite ?bytes_eqb_refl; reflexivity.
  - f_equal. unfold key_template.
    destruct (String.eqb label ""); cbn -[bytes_eqb Go.bytes_of_string];
      rewrite ?bytes_eqb_refl; reflexivity.
Qed.

End MemTokenGenerate.

(** X13. On the in-memory token: after [GenerateECKey] has succeeded for a
    label, another [GenerateECKey] for that label, whatever the key id,
    returns "Key with this label already exists" and leaves the token as it
    is. *)
Theorem GenerateECKey_refuses_the_label_twice :
  forall (b : MemToken.behaviour) (fuel : nat) (label keyid keyid' : string)
         (st st' : MemToken.state),
    MemToken.find_objects_error b = None ->
    MemToken.search st = None ->
    (length (MemToken.objects st) < fuel)%nat ->
    (1 < fuel)%nat ->
    p11.GenerateECKey fuel (MemToken.p11Token b) label keyid st = (Ok tt, st') ->
    p11.GenerateECKey fuel (MemToken.p11Token b) label keyid' st'
    = (Err (errors_New "Key with this label already exists"), st').
Proof.
  intros b fuel label keyid keyid' st st' Hb Hs Hf Hf1 H.
  destruct (MemToken_GenerateECKey_done b Hb fuel label keyid st st' Hs Hf H)
    as (_ & Hs' & Hpub & _).
  apply (MemToken_GenerateECKey_refused b Hb); [exact Hs'| |]; rewrite Hpub.
  - exact Hf1.
  - discriminate.
Qed.

(** An empty token, on which [clitest] is generated twice. *)
Lemma GenerateECKey_refuses_the_label_twice_witness :
  exists st' : MemToken.state,
    p11.GenerateECKey 5 (MemToken.p11Token (Runs.signs [])) "clitest" ""
      (MemToken.fresh []) = (Ok tt, st')
    /\ length (MemToken.objects st') = 2%nat
    /\ p11.GenerateECKey 5 (MemToken.p11Token (Runs.signs [])) "clitest" "other" st'
       = (Err (errors_New "Key with this label already exists"), st').
Proof.
  eexists. split; [vm_compute; reflexivity|]. split; [reflexivity|].
  refine (GenerateECKey_refuses_the_label_twice (Runs.signs []) 5 "clitest" "" "other"
            (MemToken.fresh []) _ eq_refl eq_refl _ _ _).
  - cbn. lia.
  - lia.
  - vm_compute. reflexivity.
Defined.

(** X14. On the in-memory token: after [GenerateECKey] has succeeded for a
    label, the resolution that [GetPublicKey] makes for that label without a
    key id finds one key, the new public key. *)
Theorem GenerateECKey_makes_the_public_key_unique :
  forall (b : MemToken.behaviour) (fuel : nat) (label keyid : string)
         (st st' : MemToken.state),
    MemToken.find_objects_error b = None ->
    MemToken.search st = None ->
    (length (MemToken.objects st) < fuel)%nat ->
    (1 < fuel)%nat ->
    p11.GenerateECKey fuel (MemToken.p11Token b) label keyid st = (Ok tt, st') ->
    p11.resolveUnique fuel (MemToken.p11Token b)
      (p11.key_template pkcs11.CKO_PUBLIC_KEY label "") st'
    = (Ok (MemToken.next_handle st), st').
Proof.
  intros b fuel label keyid st st' Hb Hs Hf Hf1 H.
  destruct (MemToken_GenerateECKey_done b Hb fuel label keyid st st' Hs Hf H)
    as (_ & Hs' & Hpub & _).
  rewrite (MemToken_resolveUnique b Hb) by (rewrite ?Hpub; assumption).
  now rewrite Hpub.
Qed.

(** A token that holds a key pair labelled [clitest], on which [second] is
    generated. *)
Lemma GenerateECKey_makes_the_public_key_unique_witness :
  exists st' : MemToken.state,
    p11.GenerateECKey 5 (MemToken.p11Token (Runs.signs [])) "second" "id"
      (MemToken.fresh (Runs.key_pair Runs.pub_G)) = (Ok tt, st')
    /\ p11.resolveUnique 5 (MemToken.p11Token (Runs.signs []))
         (p11.key_template pkcs11.CKO_PUBLIC_KEY "second" "") st'
       = (Ok 100, st').
Proof.
  eexists. split; [vm_compute; reflexivity|].
  refine (GenerateECKey_makes_the_public_key_unique (Runs.signs []) 5 "second" "id"
            (MemToken.fresh (Runs.key_pair Runs.pub_G)) _ eq_refl eq_refl _ _ _).
  - cbn. lia.
  - lia.
  - vm_compute. reflexivity.
Defined.



(* ===================================================================== *)
(** * Further properties: finding the slot and opening the session *)
(* ===================================================================== *)

Section SlotSearch.

Import pkcs11 Library p11_session.

Context {T : Type}.
Variable l : LibraryCtx T.
Variable label : string.

(** The loop returned a slot without error: the slots before it answered
    other labels, it answered [label], and the slots after it were not
    asked. *)
Lemma findSlotWithToken_range_found :
  forall (slots : list Z) (slot0 : Z) (st : T) (tr : list Event)
         (slot : Z) (st' : T) (tr' : list Event),
    findSlotWithToken_range (traced l) label slots slot0 (st, tr)
      = (Ok (slot, None), (st', tr')) ->
    exists (before after : list Z) (infos : list TokenInfo) (info : TokenInfo),
      slots = before ++ slot :: after
      /\ tr' = tr ++ LibCalls.queried before infos ++ [EvGetTokenInfo slot info None]
      /\ length infos = length before
      /\ Forall (fun i => Label i <> label) infos
      /\ Label info = label.
Proof.
  induction slots as [|s rest IH]; intros slot0 st tr slot st' tr' H;
    cbn [findSlotWithToken_range] in H.
  - unfold ret in H. inversion H.
  - unfold bind, call in H. cbn [traced GetTokenInfo log] in H.
    destruct (GetTokenInfo l s st) as [[info err] st1].
    destruct err as [e|]; [unfold ret in H; inversion H|].
    destruct (String.eqb_spec (Label info) label) as [El|El].
    + unfold ret in H. inversion H; subst slot st1 tr'.
      exists [], rest, [], info. repeat split; [constructor|exact El].
    + apply IH in H. destruct H as (before & after & infos & info' & -> & -> & Hl & Hf & Hi).
      exists (s :: before), after, (info :: infos), info'.
      repeat split.
      * unfold LibCalls.queried. cbn [combine map]. now rewrite <- app_assoc.
      * cbn [length]. now rewrite Hl.
      * now constructor.
      * exact Hi.
Qed.

Lemma last_cons_default {A : Type} (x : A) (r : list A) (d d' : A) :
  last (x :: r) d = last (x :: r) d'.
Proof.
  revert x. induction r as [|y r IH]; intros x; [reflexivity|].
  change (last (y :: r) d = last (y :: r) d'). apply IH.
Qed.

(** The loop returned an error: either every slot answered another label,
    or a slot answered the error after the slots before it had answered
    other labels. *)
Lemma findSlotWithToken_range_failed :
  forall (slots : list Z) (slot0 : Z) (st : T) (tr : list Event)
         (slot : Z) (e : error) (st' : T) (tr' : list Event),
    findSlotWithToken_range (traced l) label slots slot0 (st, tr)
      = (Ok (slot, Some e), (st', tr')) ->
    (exists infos : list TokenInfo,
        tr' = tr ++ LibCalls.queried slots infos
        /\ length infos = length slots
        /\ Forall (fun i => Label i <> label) infos
        /\ e = errors_New ("cannot find token " ++ label)
        /\ slot = last slots slot0)
    \/
    (exists (before after : list Z) (infos : list TokenInfo) (info : TokenInfo),
        slots = before ++ slot :: after
        /\ tr' = tr ++ LibCalls.queried before infos ++ [EvGetTokenInfo slot info (Some e)]
        /\ length infos = length before
        /\ Forall (fun i => Label i <> label) infos).
Proof.
  induction slots as [|s rest IH]; intros slot0 st tr slot e st' tr' H;
    cbn [findSlotWithToken_range] in H.
  - unfold ret in H. inversion H; subst. left. exists [].
    repeat split; [now rewrite app_nil_r|constructor].
  - unfold bind, call in H. cbn [traced GetTokenInfo log] in H.
    destruct (GetTokenInfo l s st) as [[info err] st1].
    destruct err as [e'|].
    + unfold ret in H. inversion H; subst. right.
      exists [], rest, [], info. repeat split. constructor.
    + destruct (String.eqb_spec (Label info) label) as [El|El];
        [unfold ret in H; inversion H|].
      apply IH in H. destruct H as [(infos & -> & Hl & Hf & He & Hs)
                                   |(before & after & infos & info' & -> & -> & Hl & Hf)].
      * left. exists (info :: infos). repeat split.
        -- unfold LibCalls.queried. cbn [combine map]. now rewrite <- app_assoc.
        -- cbn [length]. now rewrite Hl.
        -- now constructor.
        -- exact He.
        -- rewrite Hs. destruct rest as [|z rest]; [reflexivity|].
           change (last (s :: z :: rest) slot0) with (last (z :: rest) slot0).
           apply last_cons_default.
      * right. exists (s :: before), after, (info :: infos), info'. repeat split.
        -- unfold LibCalls.queried. cbn [combine map]. now rewrite <- app_assoc.
        -- cbn [length]. now rewrite Hl.
        -- now constructor.
Qed.



End SlotSearch.

(** X16. On every library: when [findSlotWithToken] returns a slot without
    error, [GetSlotList(true)] listed that slot, every slot listed before it
    was asked for its token and answered another label, the slot itself
    answered the label, and no later slot was asked: the result is the first
    match in the order of the list. *)
Theorem findSlotWithToken_returns_the_first_match :
  forall (T : Type) (l : Library.LibraryCtx T) (label : string)
         (st st' : T) (tr tr' : list Library.Event) (slot : Z),
    p11_session.findSlotWithToken (Library.traced l) label (st, tr)
      = (Ok (slot, None), (st', tr')) ->
    exists (before after : list Z) (infos : list Library.TokenInfo)
           (info : Library.TokenInfo),
      tr' = tr ++ Library.EvGetSlotList true (before ++ slot :: after) None
               :: LibCalls.queried before infos
               ++ [Library.EvGetTokenInfo slot info None]
      /\ length infos = length before
      /\ Forall (fun i => Library.Label i <> label) infos
      /\ Library.Label info = label.
Proof.
  intros T l label st st' tr tr' slot H.
  unfold p11_session.findSlotWithToken, bind, call in H.
  cbn [Library.traced Library.GetSlotList Library.log] in H.
  destruct (Library.GetSlotList l true st) as [[slots err] st1].
  destruct err as [e|]; [unfold ret in H; inversion H|].
  apply findSlotWithToken_range_found in H.
  destruct H as (before & after & infos & info & -> & -> & Hl & Hf & Hi).
  exists before, after, infos, info. repeat split; try assumption.
  now rewrite <- app_assoc.
Qed.

(** Three slots, of which the second and the third hold [dimo]. *)
Lemma findSlotWithToken_returns_the_first_match_witness :
  exists (before after : list Z) (infos : list Library.TokenInfo)
         (info : Library.TokenInfo),
    [Library.EvGetSlotList true [0; 1; 2] None;
     Library.EvGetTokenInfo 0 (Library.mkTokenInfo "other") None;
     Library.EvGetTokenInfo 1 (Library.mkTokenInfo "dimo") None]
    = [] ++ Library.EvGetSlotList true (before ++ 1 :: after) None
         :: LibCalls.queried before infos
         ++ [Library.EvGetTokenInfo 1 info None]
    /\ length infos = length before
    /\ Forall (fun i => Library.Label i <> "dimo"%string) infos
    /\ Library.Label info = "dimo"%string.
Proof.
  refine (findSlotWithToken_returns_the_first_match _
            (MemLib.library LibRuns.three_slots) "dimo"
            (MemToken.fresh [], MemLib.mkLib true true [] false None)
            (MemToken.fresh [], MemLib.mkLib true true [] false None)
            [] _ 1 _).
  vm_compute. reflexivity.
Defined.

(** X17. On every library: when [findSlotWithToken] returns an error, then
    either [GetSlotList] failed with it and nothing else was called; or
    every slot listed answered another label, the error is "cannot find
    token" with the label, and the slot returned beside it is the last one
    listed; or a slot failed to answer with that error after the slots before
    it had answered other labels, and no later slot was asked, whatever
    token it holds. *)
Theorem findSlotWithToken_fails_in_three_ways :
  forall (T : Type) (l : Library.LibraryCtx T) (label : string)
         (st st' : T) (tr tr' : list Library.Event) (slot : Z) (e : error),
    p11_session.findSlotWithToken (Library.traced l) label (st, tr)
      = (Ok (slot, Some e), (st', tr')) ->
    (exists slots : list Z,
        tr' = tr ++ [Library.EvGetSlotList true slots (Some e)] /\ slot = 0)
    \/
    (exists (slots : list Z) (infos : list Library.TokenInfo),
        tr' = tr ++ Library.EvGetSlotList true slots None :: LibCalls.queried slots infos
        /\ length infos = length slots
        /\ Forall (fun i => Library.Label i <> label) infos
        /\ e = errors_New ("cannot find token " ++ label)
        /\ slot = last slots 0)
    \/
    (exists (before after : list Z) (infos : list Library.TokenInfo)
            (info : Library.TokenInfo),
        tr' = tr ++ Library.EvGetSlotList true (before ++ slot :: after) None
                 :: LibCalls.queried before infos
                 ++ [Library.EvGetTokenInfo slot info (Some e)]
        /\ length infos = length before
        /\ Forall (fun i => Library.Label i <> label) infos).
Proof.
  intros T l label st st' tr tr' slot e H.
  unfold p11_session.findSlotWithToken, bind, call in H.
  cbn [Library.traced Library.GetSlotList Library.log] in H.
  destruct (Library.GetSlotList l true st) as [[slots err] st1].
  destruct err as [e'|].
  - unfold ret in H. inversion H; subst. left. now exists slots.
  - apply findSlotWithToken_range_failed in H.
    destruct H as [(infos & -> & Hl & Hf & He & Hs)
                  |(before & after & infos & info & -> & -> & Hl & Hf)].
    + right; left. exists slots, infos. repeat split; try assumption.
      now rewrite <- app_assoc.
    + right; right. exists before, after, infos, info. repeat split; try assumption.
      now rewrite <- app_assoc.
Qed.

(** The first slot holds a token that is not recognised, the second holds
    [dimo]: the search for [dimo] returns the error of the first. *)
Lemma findSlotWithToken_fails_in_three_ways_witness :
  p11_session.findSlotWithToken
    (Library.traced (MemLib.library LibRuns.broken_first_slot)) "dimo"
    ((MemToken.fresh [], MemLib.mkLib true true [] false None), [])
  = (Ok (0, Some (pkcs11_Error MemLib.CKR_TOKEN_NOT_RECOGNIZED)),
     ((MemToken.fresh [], MemLib.mkLib true true [] false None),
      [Library.EvGetSlotList true [0; 1] None;
       Library.EvGetTokenInfo 0 (Library.mkTokenInfo "")
         (Some (pkcs11_Error MemLib.CKR_TOKEN_NOT_RECOGNIZED))]))
  /\
  ((exists slots : list Z,
       [Library.EvGetSlotList true [0; 1] None;
        Library.EvGetTokenInfo 0 (Library.mkTokenInfo "")
          (Some (pkcs11_Error MemLib.CKR_TOKEN_NOT_RECOGNIZED))]
       = [] ++ [Library.EvGetSlotList true slots
                  (Some (pkcs11_Error MemLib.CKR_TOKEN_NOT_RECOGNIZED))] /\ 0 = 0)
   \/
   (exists (slots : list Z) (infos : list Library.TokenInfo),
       [Library.EvGetSlotList true [0; 1] None;
        Library.EvGetTokenInfo 0 (Library.mkTokenInfo "")
          (Some (pkcs11_Error MemLib.CKR_TOKEN_NOT_RECOGNIZED))]
       = [] ++ Library.EvGetSlotList true slots None :: LibCalls.queried slots infos
       /\ length infos = length slots
       /\ Forall (fun i => Library.Label i <> "dimo"%string) infos
       /\ pkcs11_Error MemLib.CKR_TOKEN_NOT_RECOGNIZED
          = errors_New ("cannot find token " ++ "dimo")
       /\ 0 = last slots 0)
   \/
   (exists (before after : list Z) (infos : list Library.TokenInfo)
           (info : Library.TokenInfo),
       [Library.EvGetSlotList true [0; 1] None;
        Library.EvGetTokenInfo 0 (Library.mkTokenInfo "")
          (Some (pkcs11_Error MemLib.CKR_TOKEN_NOT_RECOGNIZED))]
       = [] ++ Library.EvGetSlotList true (before ++ 0 :: after) None
            :: LibCalls.queried before infos
            ++ [Library.EvGetTokenInfo 0 info
                  (Some (pkcs11_Error MemLib.CKR_TOKEN_NOT_RECOGNIZED))]
       /\ length infos = length before
       /\ Forall (fun i => Library.Label i <> "dimo"%string) infos)).
Proof.
  assert (H : p11_session.findSlotWithToken
                (Library.traced (MemLib.library LibRuns.broken_first_slot)) "dimo"
                ((MemToken.fresh [], MemLib.mkLib true true [] false None), [])
              = (Ok (0, Some (pkcs11_Error MemLib.CKR_TOKEN_NOT_RECOGNIZED)),
                 ((MemToken.fresh [], MemLib.mkLib true true [] false None),
                  [Library.EvGetSlotList true [0; 1] None;
                   Library.EvGetTokenInfo 0 (Library.mkTokenInfo "")
                     (Some (pkcs11_Error MemLib.CKR_TOKEN_NOT_RECOGNIZED))])))
    by (vm_compute; reflexivity).
  split; [exact H|].
  exact (findSlotWithToken_fails_in_three_ways _ _ _ _ _ _ _ _ _ H).
Defined.

Section SessionOpening.

Import pkcs11 Library p11_session.

Context {T : Type}.
Variable l : LibraryCtx T.


End SessionOpening.

(** X18. On every library: when [newP11Token] returns a token without
    error, its calls were [Initialize], the slot search that ends at the
    first slot whose token carries the label, [OpenSession] on that slot
    with the flags serial and read-write, and [Login] of the user with the
    PIN on the session opened; the token holds that session and that slot. *)
Theorem newP11Token_logs_in_on_the_first_match :
  forall (T : Type) (ctx : pkcs11.TokenCtx (T * list Library.Event))
         (l : Library.LibraryCtx T) (tokenLabel pin : string)
         (st st' : T) (tr tr' : list Library.Event)
         (tok : option (@p11.p11Token (T * list Library.Event))),
    p11_session.newP11Token ctx (Library.traced l) tokenLabel pin (st, tr)
      = (Ok (tok, None), (st', tr')) ->
    exists (session slot : Z) (before after : list Z)
           (infos : list Library.TokenInfo) (info : Library.TokenInfo),
      tok = Some (p11.mkP11Token ctx session slot)
      /\ tr' = tr ++ Library.EvInitialize None
                 :: Library.EvGetSlotList true (before ++ slot :: after) None
                 :: LibCalls.queried before infos
                 ++ [Library.EvGetTokenInfo slot info None;
                     Library.EvOpenSession slot 6 session None;
                     Library.EvLogin session Library.CKU_USER pin None]
      /\ length infos = length before
      /\ Forall (fun i => Library.Label i <> tokenLabel) infos
      /\ Library.Label info = tokenLabel.
Proof.
  intros T ctx l tokenLabel pin st st' tr tr' tok H.
  unfold p11_session.newP11Token, bind, call in H.
  cbn [Library.traced Library.Initialize Library.log] in H.
  destruct (Library.Initialize l st) as [err st1].
  destruct err as [e|]; [unfold ret in H; inversion H|].
  unfold p11_session.openUserSession, p11_session.findSlotWithToken, bind, call in H.
  cbn [Library.traced Library.GetSlotList Library.log] in H.
  destruct (Library.GetSlotList l true st1) as [[slots err] st1'].
  destruct err as [e|]; [unfold ret in H; inversion H|].
  destruct (p11_session.findSlotWithToken_range (Library.traced l) tokenLabel slots 0
              (st1', (tr ++ [Library.EvInitialize None])
                     ++ [Library.EvGetSlotList true slots None]))
    as [[[slot err]|e|m|f e|] [st2 tr2]] eqn:Hfind; try discriminate H.
  destruct err as [e|]; [unfold ret in H; inversion H|].
  apply findSlotWithToken_range_found in Hfind.
  destruct Hfind as (before & after & infos & info & -> & -> & Hl & Hf & Hi).
  cbn [Library.traced Library.OpenSession Library.Login Library.log] in H.
  destruct (Library.OpenSession l slot
              (Z.lor Library.CKF_SERIAL_SESSION Library.CKF_RW_SESSION) st2)
    as [[session err] st3].
  destruct err as [e|]; [unfold ret in H; inversion H|].
  unfold Library.log in H.
  destruct (Library.Login l session Library.CKU_USER pin st3) as [err st4].
  unfold ret in H. inversion H; subst.
  exists session, slot, before, after, infos, info.
  repeat split; try assumption.
  rewrite <- !app_assoc. reflexivity.
Qed.

(** The library with three slots, asked for [dimo] with the right PIN: the
    session is opened on slot 1. *)
Lemma newP11Token_logs_in_on_the_first_match_witness :
  exists (session slot : Z) (before after : list Z)
         (infos : list Library.TokenInfo) (info : Library.TokenInfo),
    Some (p11.mkP11Token LibRuns.recorded_token 1 1)
    = Some (p11.mkP11Token LibRuns.recorded_token session slot)
    /\ [Library.EvInitialize None;
        Library.EvGetSlotList true [0; 1; 2] None;
        Library.EvGetTokenInfo 0 (Library.mkTokenInfo "other") None;
        Library.EvGetTokenInfo 1 (Library.mkTokenInfo "dimo") None;
        Library.EvOpenSession 1 6 1 None;
        Library.EvLogin 1 Library.CKU_USER "1234" None]
       = [] ++ Library.EvInitialize None
            :: Library.EvGetSlotList true (before ++ slot :: after) None
            :: LibCalls.queried before infos
            ++ [Library.EvGetTokenInfo slot info None;
                Library.EvOpenSession slot 6 session None;
                Library.EvLogin session Library.CKU_USER "1234" None]
    /\ length infos = length before
    /\ Forall (fun i => Library.Label i <> "dimo"%string) infos
    /\ Library.Label info = "dimo"%string.
Proof.
  refine (newP11Token_logs_in_on_the_first_match MemLib.state
            LibRuns.recorded_token
            (MemLib.library LibRuns.three_slots) "dimo" "1234"
            (MemToken.fresh [], MemLib.unused)
            (MemToken.fresh [], MemLib.in_session 1)
            [] _ _ _).
  vm_compute. reflexivity.
Defined.


(** The right token label with a wrong PIN: the session opened on slot 1 is
    returned beside the error, and stays open. *)
Example newP11Token_wrong_pin :
  p11_session.newP11Token LibRuns.recorded_token
    (Library.traced (MemLib.library LibRuns.three_slots)) "dimo" "0000"
    ((MemToken.fresh [], MemLib.unused), [])
  = (Ok (Some (p11.mkP11Token LibRuns.recorded_token 1 1),
         Some (pkcs11_Error MemLib.CKR_PIN_INCORRECT)),
     ((MemToken.fresh [], MemLib.mkLib true true [(1, 1)] false None),
      [Library.EvInitialize None;
       Library.EvGetSlotList true [0; 1; 2] None;
       Library.EvGetTokenInfo 0 (Library.mkTokenInfo "other") None;
       Library.EvGetTokenInfo 1 (Library.mkTokenInfo "dimo") None;
       Library.EvOpenSession 1 6 1 None;
       Library.EvLogin 1 Library.CKU_USER "0000"
         (Some (pkcs11_Error MemLib.CKR_PIN_INCORRECT))])).
Proof. vm_compute. reflexivity. Qed.

(** X20. On every library, [Finalise] calls [Destroy] exactly when
    [Finalize] returned no error, after it; when [Finalize] fails,
    [Finalise] returns its error with the message "failed to finalize
    library" and the library stays loaded. *)
Theorem Finalise_destroys_exactly_after_Finalize :
  forall (T : Type) (l : Library.LibraryCtx T) (st : T) (tr : list Library.Event),
  exists (o : outcome unit) (st' : T) (evs : list Library.Event),
    p11_session.Finalise (Library.traced l) (st, tr) = (o, (st', tr ++ evs))
    /\ ((o = Ok tt /\ evs = [Library.EvFinalize None; Library.EvDestroy])
        \/ (exists e, o = Err (errors_WithMessage e "failed to finalize library")
                      /\ evs = [Library.EvFinalize (Some e)]))
    /\ existsb (fun ev => match ev with Library.EvDestroy => true | _ => false end) evs
       = succeeded o.
Proof.
  intros T l st tr.
  unfold p11_session.Finalise, bind, call.
  cbn [Library.traced Library.Finalize Library.Destroy Library.log].
  destruct (Library.Finalize l st) as [err st1].
  destruct err as [e|].
  - exists (Err (errors_WithMessage e "failed to finalize library")), st1,
           [Library.EvFinalize (Some e)].
    repeat split. right. now exists e.
  - unfold Library.log. destruct (Library.Destroy l st1) as [u st2].
    exists (Ok tt), st2, [Library.EvFinalize None; Library.EvDestroy].
    repeat split.
    + unfold ret. now rewrite <- app_assoc.
    + now left.
Qed.

(** A session opened by [newP11Token] and closed by [Finalise]: the
    in-memory library is left uninitialised and unloaded, without sessions. *)
Example newP11Token_then_Finalise :
  (r <- p11_session.newP11Token (MemLib.token (Runs.signs []))
          (MemLib.library LibRuns.three_slots) "dimo" "1234" ;;
   p11_session.Finalise (MemLib.library LibRuns.three_slots) ;;;
   ret (snd r))%p11
    (MemToken.fresh [], MemLib.unused)
  = (Ok None, (MemToken.fresh [], MemLib.mkLib false false [] false None)).
Proof. vm_compute. reflexivity. Qed.

(* ===================================================================== *)
(** * Further properties: AES keys *)
(* ===================================================================== *)

Section KeyByLabel.

Import pkcs11 Library p11 p11_session.

(** A token context inside a larger state: [findKeyByLabel] runs as on the
    token's own state. *)
Lemma findKeyByLabel_lift {T U : Type} (c0 : TokenCtx T) (sh : SessionHandle) (sl : Z)
  (label : string) (st : T) (u : U) :
  findKeyByLabel (mkP11Token (lift c0) sh sl) label (st, u)
  = (let (o, st') := findKeyByLabel (mkP11Token c0 sh sl) label st in (o, (st', u))).
Proof.
  unfold findKeyByLabel, bind, call.
  cbn [lift ctx session FindObjectsInit FindObjects FindObjectsFinal].
  unfold on_fst.
  destruct (FindObjectsInit c0 sh [NewAttribute CKA_LABEL (VString label)] st)
    as [err st1].
  destruct err as [e|]; [reflexivity|].
  destruct (FindObjects c0 sh 1 st1) as [[[objs more] err] st2].
  destruct (negb (Nat.eqb (length objs) 1)); [reflexivity|].
  unfold checked. destruct (Go.index objs 0) as [o|]; [|reflexivity].
  unfold ret. destruct (FindObjectsFinal c0 sh st2) as [err' st3].
  destruct err'; reflexivity.
Qed.

Variable b : MemToken.behaviour.

(** [findKeyByLabel] on the in-memory token: the first object that carries
    the label, however many do; without one, the error, and the search is
    left open. *)
Lemma MemToken_findKeyByLabel (sh : SessionHandle) (sl : Z) (label : string)
  (st : MemToken.state) :
  MemToken.search st = None ->
  MemToken.find_objects_error b = None ->
  findKeyByLabel (mkP11Token (MemToken.token b) sh sl) label st
  = match MemToken.matching [NewAttribute CKA_LABEL (VString label)] st with
    | [] => (Err (errors_New ("no key with label '" ++ label ++ "'")),
             MemToken.with_search st (Some []))
    | o :: _ => (Ok o, st)
    end.
Proof.
  intros Hs Hb. unfold findKeyByLabel, bind, call.
  cbn [MemToken.token ctx session FindObjectsInit FindObjects FindObjectsFinal].
  rewrite Hs.
  cbn [MemToken.with_search MemToken.search MemToken.objects MemToken.signing
       MemToken.next_handle].
  rewrite Hb.
  change (MemToken.matching [NewAttribute CKA_LABEL (VString label)]
            (MemToken.mkState (MemToken.objects st)
               (Some (MemToken.matching [NewAttribute CKA_LABEL (VString label)] st))
               (MemToken.signing st) (MemToken.next_handle st)))
    with (MemToken.matching [NewAttribute CKA_LABEL (VString label)] st).
  destruct (MemToken.matching [NewAttribute CKA_LABEL (VString label)] st) as [|o r].
  - reflexivity.
  - cbn. destruct st as [objs s k n]. cbn in Hs. subst s. reflexivity.
Qed.

(** Without an object that carries the label, whether [FindObjects] works
    or not. *)
Lemma MemToken_findKeyByLabel_miss (sh : SessionHandle) (sl : Z) (label : string)
  (st : MemToken.state) :
  MemToken.search st = None ->
  MemToken.matching [NewAttribute CKA_LABEL (VString label)] st = [] ->
  findKeyByLabel (mkP11Token (MemToken.token b) sh sl) label st
  = (Err (errors_New ("no key with label '" ++ label ++ "'")),
     MemToken.with_search st (Some [])).
Proof.
  intros Hs Hm. unfold findKeyByLabel, bind, call.
  cbn [MemToken.token ctx session FindObjectsInit FindObjects FindObjectsFinal].
  rewrite Hs, Hm.
  cbn [MemToken.with_search MemToken.search MemToken.objects MemToken.signing
       MemToken.next_handle].
  destruct (MemToken.find_objects_error b); reflexivity.
Qed.

End KeyByLabel.

(** X21. [Checksum] for a label that no object carries: on the in-memory
    token, inside any library, it returns "no key with label" without a call
    of the library, and it leaves the search open, so that every later
    search of the session, and every later [Checksum], for whatever label,
    fails with [CKR_OPERATION_ACTIVE]. *)
Theorem Checksum_of_an_unknown_label_blocks_the_session :
  forall (U : Type) (b : MemToken.behaviour)
         (l : Library.LibraryCtx (MemToken.state * U))
         (sh : pkcs11.SessionHandle) (sl : Z) (keyLabel : string)
         (st : MemToken.state) (u : U),
    MemToken.search st = None ->
    MemToken.matching [pkcs11.NewAttribute pkcs11.CKA_LABEL (pkcs11.VString keyLabel)] st
      = [] ->
    let p := p11.mkP11Token (Library.lift (MemToken.token b)) sh sl in
    let s' := (MemToken.with_search st (Some []), u) in
    p11_session.Checksum p l keyLabel (st, u)
      = (Err (errors_New ("no key with label '" ++ keyLabel ++ "'")), s')
    /\ (forall (fuel : nat) (template : list pkcs11.Attribute),
          p11.findAllMatching fuel p template s'
          = (Err (pkcs11_Error MemToken.CKR_OPERATION_ACTIVE), s'))
    /\ (forall label' : string,
          p11_session.Checksum p l label' s'
          = (Err (pkcs11_Error MemToken.CKR_OPERATION_ACTIVE), s')).
Proof.
  intros U b l sh sl keyLabel st u Hs Hm p s'. subst p s'.
  split; [|split].
  - unfold p11_session.Checksum, bind.
    rewrite findKeyByLabel_lift, (MemToken_findKeyByLabel_miss b) by assumption.
    reflexivity.
  - intros fuel template. reflexivity.
  - intros label'. reflexivity.
Qed.

(** The token that holds the key pair [clitest], asked for the checksum of
    [aes]. *)
Lemma Checksum_of_an_unknown_label_witness :
  p11_session.Checksum (LibRuns.p11Token (Runs.signs []))
    (MemLib.library LibRuns.three_slots) "aes"
    (MemToken.fresh (Runs.key_pair Runs.pub_G), MemLib.in_session 1)
  = (Err (errors_New ("no key with label '" ++ "aes" ++ "'")),
     (MemToken.with_search (MemToken.fresh (Runs.key_pair Runs.pub_G)) (Some []),
      MemLib.in_session 1))
  /\ (forall (fuel : nat) (template : list pkcs11.Attribute),
        p11.findAllMatching fuel (LibRuns.p11Token (Runs.signs [])) template
          (MemToken.with_search (MemToken.fresh (Runs.key_pair Runs.pub_G)) (Some []),
           MemLib.in_session 1)
        = (Err (pkcs11_Error MemToken.CKR_OPERATION_ACTIVE),
           (MemToken.with_search (MemToken.fresh (Runs.key_pair Runs.pub_G)) (Some []),
            MemLib.in_session 1)))
  /\ (forall label' : string,
        p11_session.Checksum (LibRuns.p11Token (Runs.signs []))
          (MemLib.library LibRuns.three_slots) label'
          (MemToken.with_search (MemToken.fresh (Runs.key_pair Runs.pub_G)) (Some []),
           MemLib.in_session 1)
        = (Err (pkcs11_Error MemToken.CKR_OPERATION_ACTIVE),
           (MemToken.with_search (MemToken.fresh (Runs.key_pair Runs.pub_G)) (Some []),
            MemLib.in_session 1))).
Proof.
  refine (Checksum_of_an_unknown_label_blocks_the_session MemLib.lib (Runs.signs [])
            (MemLib.library LibRuns.three_slots) 1 1 "aes"
            (MemToken.fresh (Runs.key_pair Runs.pub_G)) (MemLib.in_session 1)
            eq_refl _).
  vm_compute. reflexivity.
Defined.

Section MemLibKeys.

Import pkcs11 Library p11 p11_session.

Variable b : MemToken.behaviour.
Variable c : MemLib.config.
Hypothesis find_works : MemToken.find_objects_error b = None.

Local Abbreviation by_label label := [NewAttribute CKA_LABEL (VString label)].

(** [Checksum] in the in-memory library: the cipher under the value of the
    first key that carries the label. *)
Lemma MemLib_Checksum (label : string) (st : MemToken.state) (l : MemLib.lib) :
  MemToken.search st = None ->
  Checksum (LibRuns.p11Token b) (MemLib.library c) label (st, l)
  = match MemToken.matching (by_label label) st with
    | [] => (Err (errors_New ("no key with label '" ++ label ++ "'")),
             (MemToken.with_search st (Some []), l))
    | o :: _ =>
      match MemLib.key_value o st with
      | None => (Err (pkcs11_Error MemLib.CKR_KEY_HANDLE_INVALID), (st, l))
      | Some k =>
        (Ok (MemLib.cipher c k (Go.make 16) (Go.make 16)),
         (st, MemLib.mkLib (MemLib.loaded l) (MemLib.initialized l) (MemLib.sessions l)
                (MemLib.logged_in l) None))
      end
    end.
Proof.
  intros Hs. unfold Checksum, bind, LibRuns.p11Token, MemLib.token, MemLib.state.
  rewrite (findKeyByLabel_lift (MemToken.token b) 1 1 label st l).
  rewrite (MemToken_findKeyByLabel b) by assumption.
  destruct (MemToken.matching (by_label label) st) as [|o r]; [reflexivity|].
  unfold call. cbn [MemLib.library EncryptInit Encrypt session].
  destruct (MemLib.key_value o st) as [k|] eqn:Hk; [|reflexivity].
  cbn [NewMechanism Parameter_ MemLib.encrypting]. rewrite Hk. reflexivity.
Qed.

(** An object of the store is still found by its handle after objects have
    been added at the end. *)
Lemma key_value_app (o : ObjectHandle) (st : MemToken.state)
  (new : list MemToken.Object) (s : option (list ObjectHandle))
  (k : option ObjectHandle) (n : ObjectHandle) :
  In o (map MemToken.handle (MemToken.objects st)) ->
  MemLib.key_value o (MemToken.mkState (MemToken.objects st ++ new) s k n)
  = MemLib.key_value o st.
Proof.
  intros Hin. unfold MemLib.key_value, MemToken.find_object. cbn [MemToken.objects].
  induction (MemToken.objects st) as [|x objs IH]; [now elim Hin|].
  cbn [app find]. destruct (Z.eqb_spec (MemToken.handle x) o) as [E|E]; [reflexivity|].
  apply IH. cbn [map In] in Hin. destruct Hin as [Hin|Hin]; [now elim E|exact Hin].
Qed.

(** An object added at the end under a handle that the store does not use
    is found by it. *)
Lemma key_value_new (st : MemToken.state) (temp : list Attribute)
  (s : option (list ObjectHandle)) (k : option ObjectHandle) (n : ObjectHandle) :
  Forall (fun x => MemToken.handle x < MemToken.next_handle st) (MemToken.objects st) ->
  MemLib.key_value (MemToken.next_handle st)
    (MemToken.mkState
       (MemToken.objects st ++ [MemToken.mkObject (MemToken.next_handle st) temp]) s k n)
  = option_map Value (find (fun a => Type_ a =? CKA_VALUE) temp).
Proof.
  intros Hf. unfold MemLib.key_value, MemToken.find_object. cbn [MemToken.objects].
  induction Hf as [|x objs Hx Hf IH].
  - cbn [app find MemToken.handle]. now rewrite Z.eqb_refl.
  - cbn [app find]. destruct (Z.eqb_spec (MemToken.handle x) (MemToken.next_handle st));
      [lia|exact IH].
Qed.

Lemma matching_handles (template : list Attribute) (st : MemToken.state)
  (o : ObjectHandle) :
  In o (MemToken.matching template st) ->
  In o (map MemToken.handle (MemToken.objects st)).
Proof.
  unfold MemToken.matching. rewrite !in_map_iff.
  intros (x & Hx & Hin). exists x. split; [exact Hx|].
  now apply filter_In in Hin.
Qed.

End MemLibKeys.

(** X22. In the in-memory library, with a session open and the handles of
    the store below the next handle: after [ImportKey] of a key under a
    label that no object carries, [Checksum] for that label returns the
    cipher's output for 16 zero bytes under the imported key with an
    initialisation vector of 16 zero bytes. *)
Theorem ImportKey_then_Checksum :
  forall (b : MemToken.behaviour) (c : MemLib.config) (keyBytes : list byte)
         (label : string) (st : MemToken.state) (l : MemLib.lib),
    MemToken.find_objects_error b = None ->
    MemToken.search st = None ->
    MemLib.has_session 1 l = true ->
    Forall (fun x => MemToken.handle x < MemToken.next_handle st) (MemToken.objects st) ->
    MemToken.matching [pkcs11.NewAttribute pkcs11.CKA_LABEL (pkcs11.VString label)] st
      = [] ->
    exists s1 s2 : MemLib.state,
      p11_session.ImportKey (LibRuns.p11Token b) (MemLib.library c) keyBytes label (st, l)
        = (Ok tt, s1)
      /\ p11_session.Checksum (LibRuns.p11Token b) (MemLib.library c) label s1
         = (Ok (MemLib.cipher c keyBytes (repeat x00 16) (repeat x00 16)), s2).
Proof.
  intros b c keyBytes label st l Hb Hs Hl Hf Hm.
  unfold p11_session.ImportKey, bind, call.
  cbn [MemLib.library Library.CreateObject p11.session LibRuns.p11Token].
  rewrite Hl. eexists; eexists. split; [reflexivity|].
  rewrite (MemLib_Checksum b c Hb) by exact Hs.
  rewrite matching_app, Hm.
  cbn -[p11.bytes_eqb Go.bytes_of_string MemLib.key_value].
  rewrite bytes_eqb_refl. cbn -[MemLib.key_value].
  rewrite key_value_new by exact Hf.
  reflexivity.
Qed.

(** A token that holds the key pair [clitest], on which the key of sixteen
    bytes [01] is imported as [aes]. *)
Lemma ImportKey_then_Checksum_witness :
  exists s1 s2 : MemLib.state,
    p11_session.ImportKey (LibRuns.p11Token (Runs.signs []))
      (MemLib.library LibRuns.three_slots) (repeat x01 16) "aes"
      (MemToken.fresh (Runs.key_pair Runs.pub_G), MemLib.in_session 1)
      = (Ok tt, s1)
    /\ p11_session.Checksum (LibRuns.p11Token (Runs.signs []))
         (MemLib.library LibRuns.three_slots) "aes" s1
       = (Ok (MemLib.cipher LibRuns.three_slots (repeat x01 16)
                (repeat x00 16) (repeat x00 16)), s2).
Proof.
  refine (ImportKey_then_Checksum (Runs.signs []) LibRuns.three_slots (repeat x01 16)
            "aes" (MemToken.fresh (Runs.key_pair Runs.pub_G)) (MemLib.in_session 1)
            eq_refl eq_refl eq_refl _ _).
  - repeat constructor.
  - vm_compute. reflexivity.
Defined.

(** X23. [ImportKey] does not look for the label. In the in-memory library,
    when an object carries the label already, [ImportKey] under that label
    succeeds, and [Checksum] for the label answers afterwards what it
    answered before: the key imported last is not the one it uses. *)
Theorem ImportKey_under_a_label_in_use_is_shadowed :
  forall (b : MemToken.behaviour) (c : MemLib.config) (keyBytes : list byte)
         (label : string) (st : MemToken.state) (l : MemLib.lib),
    MemToken.find_objects_error b = None ->
    MemToken.search st = None ->
    MemLib.has_session 1 l = true ->
    MemToken.matching [pkcs11.NewAttribute pkcs11.CKA_LABEL (pkcs11.VString label)] st
      <> [] ->
    exists s1 : MemLib.state,
      p11_session.ImportKey (LibRuns.p11Token b) (MemLib.library c) keyBytes label (st, l)
        = (Ok tt, s1)
      /\ length (MemToken.objects (fst s1)) = S (length (MemToken.objects st))
      /\ fst (p11_session.Checksum (LibRuns.p11Token b) (MemLib.library c) label s1)
         = fst (p11_session.Checksum (LibRuns.p11Token b) (MemLib.library c) label (st, l)).
Proof.
  intros b c keyBytes label st l Hb Hs Hl Hm.
  unfold p11_session.ImportKey, bind, call.
  cbn [MemLib.library Library.CreateObject p11.session LibRuns.p11Token].
  rewrite Hl. eexists. split; [reflexivity|]. split.
  - cbn [fst MemToken.objects]. rewrite length_app. cbn [length]. lia.
  - rewrite !(MemLib_Checksum b c Hb) by exact Hs.
    rewrite matching_app.
    destruct (MemToken.matching
                [pkcs11.NewAttribute pkcs11.CKA_LABEL (pkcs11.VString label)] st)
      as [|o r] eqn:E; [now elim Hm|].
    cbn [app].
    rewrite key_value_app.
    + destruct (MemLib.key_value o st); reflexivity.
    + apply (matching_handles
               [pkcs11.NewAttribute pkcs11.CKA_LABEL (pkcs11.VString label)]).
      rewrite E. now left.
Qed.

(** The key of sixteen bytes [01] is on the token as [aes]; the key of
    sixteen bytes [02] is imported as [aes] too. *)
Lemma ImportKey_under_a_label_in_use_witness :
  (exists s1 : MemLib.state,
      p11_session.ImportKey (LibRuns.p11Token (Runs.signs []))
        (MemLib.library LibRuns.three_slots) (repeat x02 16) "aes"
        (MemToken.fresh [LibRuns.aes_key 7 "aes" (repeat x01 16)], MemLib.in_session 1)
        = (Ok tt, s1)
      /\ length (MemToken.objects (fst s1)) = 2%nat
      /\ fst (p11_session.Checksum (LibRuns.p11Token (Runs.signs []))
                (MemLib.library LibRuns.three_slots) "aes" s1)
         = fst (p11_session.Checksum (LibRuns.p11Token (Runs.signs []))
                  (MemLib.library LibRuns.three_slots) "aes"
                  (MemToken.fresh [LibRuns.aes_key 7 "aes" (repeat x01 16)],
                   MemLib.in_session 1)))
  /\ fst (p11_session.Checksum (LibRuns.p11Token (Runs.signs []))
            (MemLib.library LibRuns.three_slots) "aes"
            (MemToken.fresh [LibRuns.aes_key 7 "aes" (repeat x01 16)],
             MemLib.in_session 1))
     = Ok (repeat x01 16).
Proof.
  split; [|vm_compute; reflexivity].
  refine (ImportKey_under_a_label_in_use_is_shadowed (Runs.signs []) LibRuns.three_slots
            (repeat x02 16) "aes"
            (MemToken.fresh [LibRuns.aes_key 7 "aes" (repeat x01 16)])
            (MemLib.in_session 1) eq_refl eq_refl eq_refl _).
  vm_compute. discriminate.
Defined.

(* ===================================================================== *)
(** * Further properties: the flags of a mechanism *)
(* ===================================================================== *)

Section StringOrder.

Local Open Scope string_scope.

Lemma String_compare_trans (a : string) :
  forall b c : string,
    String.compare a b <> Gt -> String.compare b c <> Gt -> String.compare a c <> Gt.
Proof.
  induction a as [|x a IH]; intros [|y b] [|z c]; cbn [String.compare];
    try congruence.
  unfold Ascii.compare.
  destruct (N.compare_spec (N_of_ascii x) (N_of_ascii y)) as [Exy|Lxy|Gxy];
    destruct (N.compare_spec (N_of_ascii y) (N_of_ascii z)) as [Eyz|Lyz|Gyz];
    destruct (N.compare_spec (N_of_ascii x) (N_of_ascii z)) as [Exz|Lxz|Gxz];
    try congruence; try lia.
  apply IH.
Qed.

Lemma String_leb_trans (a b c : string) :
  String.leb a b = true -> String.leb b c = true -> String.leb a c = true.
Proof.
  unfold String.leb. intros Hab Hbc.
  pose proof (String_compare_trans a b c) as H.
  destruct (String.compare a b); destruct (String.compare b c);
    destruct (String.compare a c); try reflexivity; try discriminate;
    exfalso; apply H; congruence.
Qed.

Lemma String_leb_refl (a : string) : String.leb a a = true.
Proof. destruct (String.leb_total a a); assumption. Qed.

Lemma String_ltb_leb (a b : string) :
  String.leb a b = true -> a <> b -> String.ltb a b = true.
Proof.
  unfold String.leb, String.ltb. intros H Hne.
  destruct (String.compare a b) eqn:E; try reflexivity; try discriminate.
  now apply String.compare_eq_iff in E.
Qed.

End StringOrder.

Section SortStrings.

Local Abbreviation le := (fun a b : string => String.leb a b = true).

Lemma insert_Permutation (x : string) (l : list string) :
  Permutation (sort.insert x l) (x :: l).
Proof.
  induction l as [|y l IH]; cbn [sort.insert]; [reflexivity|].
  destruct (String.leb x y); [reflexivity|].
  rewrite IH. apply perm_swap.
Qed.

Lemma Strings_Permutation (l : list string) : Permutation (sort.Strings l) l.
Proof.
  induction l as [|x l IH]; [reflexivity|].
  cbn [sort.Strings fold_right]. fold (sort.Strings l).
  rewrite insert_Permutation. now constructor.
Qed.

Lemma insert_sorted (x : string) (l : list string) :
  StronglySorted le l -> StronglySorted le (sort.insert x l).
Proof.
  induction 1 as [|y l Hs IH Hy]; cbn [sort.insert].
  - repeat constructor.
  - destruct (String.leb x y) eqn:E.
    + constructor; [now constructor|].
      constructor; [exact E|].
      eapply Forall_impl; [|exact Hy].
      intros z Hz. exact (String_leb_trans _ _ _ E Hz).
    + constructor; [exact IH|].
      rewrite insert_Permutation. constructor; [|exact Hy].
      destruct (String.leb_total x y) as [H|H]; [congruence|exact H].
Qed.

Lemma Strings_sorted (l : list string) : StronglySorted le (sort.Strings l).
Proof.
  induction l as [|x l IH]; [constructor|].
  cbn [sort.Strings fold_right]. now apply insert_sorted.
Qed.

(** There is one sorted arrangement of a list of strings; whatever
    algorithm [sort.Strings] runs, this is its result. *)
Lemma sorted_Permutation_eq (l1 : list string) :
  forall l2 : list string,
    StronglySorted le l1 -> StronglySorted le l2 -> Permutation l1 l2 -> l1 = l2.
Proof.
  induction l1 as [|a l1 IH]; intros l2 H1 H2 Hp.
  - now apply Permutation_nil in Hp.
  - destruct l2 as [|b l2]; [now apply Permutation_sym, Permutation_nil in Hp|].
    apply StronglySorted_inv in H1. destruct H1 as [H1 Ha].
    apply StronglySorted_inv in H2. destruct H2 as [H2 Hb].
    assert (Hab : a = b).
    { assert (Hin1 : In a (b :: l2)) by (apply (Permutation_in _ Hp); now left).
      assert (Hin2 : In b (a :: l1))
        by (apply (Permutation_in _ (Permutation_sym Hp)); now left).
      destruct Hin1 as [E|Hin1]; [now symmetry|].
      destruct Hin2 as [E|Hin2]; [exact E|].
      rewrite Forall_forall in Ha, Hb.
      apply String.leb_antisym; [now apply Ha|now apply Hb]. }
    subst b. f_equal. apply IH; try assumption.
    now apply Permutation_cons_inv in Hp.
Qed.

Lemma Strings_of_Permutation (l l' : list string) :
  Permutation l l' -> sort.Strings l = sort.Strings l'.
Proof.
  intros Hp. apply sorted_Permutation_eq; try apply Strings_sorted.
  rewrite !Strings_Permutation. exact Hp.
Qed.

Lemma filter_Permutation {A : Type} (f : A -> bool) (l l' : list A) :
  Permutation l l' -> Permutation (filter f l) (filter f l').
Proof.
  induction 1 as [|x l l' Hp IH|x y l|l l' l'' Hp1 IH1 Hp2 IH2]; cbn [filter].
  - constructor.
  - destruct (f x); [now constructor|exact IH].
  - destruct (f x), (f y); try reflexivity. apply perm_swap.
  - now transitivity (filter f l').
Qed.

Lemma sorted_NoDup_strict (l : list string) :
  StronglySorted le l -> NoDup l ->
  StronglySorted (fun a b => String.ltb a b = true) l.
Proof.
  induction 1 as [|a l Hs IH Ha]; intros Hn; [constructor|].
  inversion Hn as [|? ? Hnotin Hn']; subst.
  constructor; [now apply IH|].
  rewrite Forall_forall in *. intros z Hz.
  apply String_ltb_leb; [now apply Ha|].
  intros ->. now apply Hnotin.
Qed.

End SortStrings.

Section MechanismFlags.

Import p11_mechanisms.

(** Whether the loop appends the name of an entry. *)
Local Abbreviation set_in infoFlags :=
  (fun entry : string * Z => negb (Z.land infoFlags (snd entry) =? 0)).

Lemma PrintMechanisms_range_filter (infoFlags : Z) (visit : list (string * Z)) :
  forall flags : list string,
    PrintMechanisms_range visit infoFlags flags
    = flags ++ map fst (filter (set_in infoFlags) visit).
Proof.
  induction visit as [|[name value] rest IH]; intros flags;
    cbn [PrintMechanisms_range filter snd].
  - now rewrite app_nil_r.
  - rewrite IH. destruct (negb (Z.land infoFlags value =? 0)); [|reflexivity].
    cbn [map fst]. now rewrite <- app_assoc.
Qed.

Lemma PrintMechanisms_flags_filter (infoFlags : Z) (visit : list (string * Z)) :
  PrintMechanisms_flags visit infoFlags
  = sort.Strings (map fst (filter (set_in infoFlags) visit)).
Proof. unfold PrintMechanisms_flags. now rewrite PrintMechanisms_range_filter. Qed.

End MechanismFlags.

(** X24. The flags that [PrintMechanisms] prints for a mechanism do not
    depend on the order in which Go visits the map [possibleFlags]: for
    every order of its thirteen entries the sorted list, and so the line
    printed, is the one of the order of the text. *)
Theorem PrintMechanisms_flags_do_not_depend_on_the_map_order :
  forall (visit : list (string * Z)) (infoFlags : Z),
    Permutation visit p11_mechanisms.possibleFlags ->
    p11_mechanisms.PrintMechanisms_flags visit infoFlags
    = p11_mechanisms.PrintMechanisms_flags p11_mechanisms.possibleFlags infoFlags
    /\ p11_mechanisms.PrintMechanisms_flags_line visit infoFlags
       = p11_mechanisms.PrintMechanisms_flags_line p11_mechanisms.possibleFlags infoFlags.
Proof.
  intros visit infoFlags Hp.
  assert (H : p11_mechanisms.PrintMechanisms_flags visit infoFlags
              = p11_mechanisms.PrintMechanisms_flags p11_mechanisms.possibleFlags
                  infoFlags).
  { rewrite !PrintMechanisms_flags_filter.
    apply Strings_of_Permutation, Permutation_map, filter_Permutation, Hp. }
  split; [exact H|].
  unfold p11_mechanisms.PrintMechanisms_flags_line. now rewrite H.
Qed.

(** The map visited from its last entry to its first, for a mechanism that
    signs and verifies in hardware. *)
Lemma PrintMechanisms_flags_map_order_witness :
  p11_mechanisms.PrintMechanisms_flags (rev p11_mechanisms.possibleFlags) 0x2801
  = p11_mechanisms.PrintMechanisms_flags p11_mechanisms.possibleFlags 0x2801
  /\ p11_mechanisms.PrintMechanisms_flags_line (rev p11_mechanisms.possibleFlags) 0x2801
     = p11_mechanisms.PrintMechanisms_flags_line p11_mechanisms.possibleFlags 0x2801.
Proof.
  apply (PrintMechanisms_flags_do_not_depend_on_the_map_order
           (rev p11_mechanisms.possibleFlags) 0x2801).
  apply Permutation_sym, Permutation_rev.
Defined.

Example PrintMechanisms_flags_line_sign_verify :
  p11_mechanisms.PrintMechanisms_flags_line (rev p11_mechanisms.possibleFlags) 0x2801
  = "  Flags=CKF_HW, CKF_SIGN, CKF_VERIFY"%string.
Proof. vm_compute. reflexivity. Qed.

(** X25. For every order in which the map is visited, the flags printed
    are the names, among the thirteen of [possibleFlags], whose bit is set
    in the mechanism's [Flags], each once, in increasing byte-wise order. *)
Theorem PrintMechanisms_flags_are_the_bits_set :
  forall (visit : list (string * Z)) (infoFlags : Z),
    Permutation visit p11_mechanisms.possibleFlags ->
    (forall name : string,
        In name (p11_mechanisms.PrintMechanisms_flags visit infoFlags)
        <-> exists value : Z,
              In (name, value) p11_mechanisms.possibleFlags
              /\ Z.land infoFlags value <> 0)
    /\ StronglySorted (fun a b => String.ltb a b = true)
         (p11_mechanisms.PrintMechanisms_flags visit infoFlags).
Proof.
  intros visit infoFlags Hp.
  rewrite PrintMechanisms_flags_filter.
  split.
  - intros name. rewrite (Permutation_in' eq_refl (Strings_Permutation _)).
    rewrite in_map_iff. split.
    + intros ([n value] & <- & Hin). apply filter_In in Hin. destruct Hin as [Hin Hset].
      exists value. split; [exact (Permutation_in _ Hp Hin)|].
      cbn [snd] in Hset. apply negb_true_iff, Z.eqb_neq in Hset. exact Hset.
    + intros (value & Hin & Hset). exists (name, value). split; [reflexivity|].
      apply filter_In. split; [exact (Permutation_in _ (Permutation_sym Hp) Hin)|].
      cbn [snd]. now apply negb_true_iff, Z.eqb_neq.
  - apply sorted_NoDup_strict; [apply Strings_sorted|].
    apply (Permutation_NoDup (Permutation_sym (Strings_Permutation _))).
    apply (Permutation_NoDup
             (Permutation_map fst
                (filter_Permutation _ _ _ (Permutation_sym Hp)))).
    assert (Hnd : NoDup (map fst p11_mechanisms.possibleFlags)).
    { cbn [map fst p11_mechanisms.possibleFlags].
      repeat (constructor; [cbn [In]; intros H;
                            repeat (destruct H as [H|H]; [discriminate H|]); exact H|]).
      constructor. }
    revert Hnd. generalize p11_mechanisms.possibleFlags as l.
    induction l as [|[n v] l IH]; cbn [map fst filter snd]; intros Hnd; [constructor|].
    inversion Hnd as [|? ? Hnotin Hnd']; subst.
    destruct (negb (Z.land infoFlags v =? 0)); [|now apply IH].
    cbn [map fst]. constructor; [|now apply IH].
    intros Hin. apply Hnotin. apply in_map_iff in Hin.
    destruct Hin as (x & Hx & Hin). apply in_map_iff. exists x.
    split; [exact Hx|]. now apply filter_In in Hin.
Qed.

(** The map visited from its last entry to its first. *)
Lemma PrintMechanisms_flags_are_the_bits_set_witness :
  (forall name : string,
      In name (p11_mechanisms.PrintMechanisms_flags (rev p11_mechanisms.possibleFlags) 0x2801)
      <-> exists value : Z,
            In (name, value) p11_mechanisms.possibleFlags
            /\ Z.land 0x2801 value <> 0)
  /\ StronglySorted (fun a b => String.ltb a b = true)
       (p11_mechanisms.PrintMechanisms_flags (rev p11_mechanisms.possibleFlags) 0x2801).
Proof.
  apply (PrintMechanisms_flags_are_the_bits_set
           (rev p11_mechanisms.possibleFlags) 0x2801).
  apply Permutation_sym, Permutation_rev.
Defined.

(* ===================================================================== *)
(** * Further properties: the address of a signature *)
(* ===================================================================== *)

Section AddressMore.

Import pkcs11 p11.

Context {T : Type}.
Variable PublicKey : Type.
Variable UnmarshalPubkey : list byte -> PublicKey + error.

(** What [GetPublicKey] returns is the point it read and the key that
    [UnmarshalPubkey] makes of it. *)
Lemma GetPublicKey_returned (fuel : nat) (p : p11Token) (label keyid : string)
  (pub : PublicKey) (ecpt : list byte) (st st' : T) :
  p11.GetPublicKey PublicKey UnmarshalPubkey fuel p label keyid st
    = (Ok (pub, ecpt), st') ->
  UnmarshalPubkey ecpt = inl pub.
Proof.
  unfold p11.GetPublicKey, bind.
  destruct (resolveUnique fuel p _ st) as [[o| | | |] st1]; try discriminate.
  destruct (ecPoint (ctx p) (session p) o st1) as [[pt| | | |] st2]; try discriminate.
  destruct (UnmarshalPubkey pt) as [k|e] eqn:E; [|unfold fail; discriminate].
  unfold ret. intros H.
  assert (Hp : Ok (A:=PublicKey * list byte) (k, pt) = Ok (pub, ecpt))
    by exact (f_equal fst H).
  inversion Hp; subst. exact E.
Qed.

End AddressMore.

(** X26. [recoverAddress] accepts what [Sign] returns: on every token, for
    every signature that [Sign] returns for a hash, [recoverAddress] on that
    hash and that signature returns the address of the public key that
    [Sign] read from the token. *)
Theorem Sign_then_recoverAddress :
  forall (T PublicKey Address : Type)
         (Ecrecover : list byte -> list byte -> list byte + error)
         (UnmarshalPubkey : list byte -> PublicKey + error)
         (PubkeyToAddress : PublicKey -> Address)
         (fuel : nat) (p : @p11.p11Token T) (label keyid : string)
         (hash sig : list byte) (st st' : T),
    p11.Sign PublicKey Ecrecover UnmarshalPubkey fuel p label keyid hash st
      = (Ok sig, st') ->
    exists (pub : PublicKey) (ecpt : list byte) (st3 : T),
      p11.GetPublicKey PublicKey UnmarshalPubkey fuel p label keyid st3
        = (Ok (pub, ecpt), st')
      /\ p11.recoverAddress PublicKey Ecrecover UnmarshalPubkey Address PubkeyToAddress
           hash sig
         = Ok (PubkeyToAddress pub).
Proof.
  intros T PublicKey Address Ecrecover UnmarshalPubkey PubkeyToAddress
         fuel p label keyid hash sig st st' H.
  destruct (Sign_returned _ _ _ _ _ _ _ _ _ _ _ H)
    as (rs & ecpt & v & pub & st3 & Hl & Hv & Hsig & Hget & Hrec).
  exists pub, ecpt, st3. split; [exact Hget|].
  pose proof (GetPublicKey_returned _ _ _ _ _ _ _ _ _ _ Hget) as Hpub.
  destruct (recoverAddress_takes_27_off PublicKey Address Ecrecover UnmarshalPubkey
              PubkeyToAddress hash rs Hl) as (R0 & R1 & _ & E1).
  assert (Hplain : p11.recoverAddress PublicKey Ecrecover UnmarshalPubkey Address
                     PubkeyToAddress hash (rs ++ [v]) = Ok (PubkeyToAddress pub)).
  { unfold p11.recoverAddress.
    assert (Hs : p11.sub27_at64 (rs ++ [v]) = Some (rs ++ [v])).
    { unfold p11.sub27_at64, Go.index.
      rewrite nth_error_app2 by lia. rewrite Hl. cbn [Nat.sub nth_error].
      destruct Hv as [-> | ->]; reflexivity. }
    now rewrite Hs, Hrec, Hpub. }
  rewrite Hsig. destruct Hv as [-> | ->].
  - change (Go.byte_of_Z (Go.byte_val x00 + 27)) with x1b. now rewrite R0.
  - change (Go.byte_of_Z (Go.byte_val x01 + 27)) with x1c. now rewrite R1.
Qed.

(** The token with the key pair [clitest] of the private key 1; the address
    is taken to be the key itself. *)
Lemma Sign_then_recoverAddress_witness :
  p11.Sign Stub.PublicKey (Stub.Ecrecover Runs.recovered0_plain Runs.pub_G)
    Stub.UnmarshalPubkey 5 (MemToken.p11Token (Runs.signs Runs.raw_plain))
    "clitest" "" Runs.hash0 (MemToken.fresh (Runs.key_pair Runs.pub_G))
  = (Ok Runs.sig_plain, MemToken.fresh (Runs.key_pair Runs.pub_G))
  /\
  exists (pub : Stub.PublicKey) (ecpt : list byte) (st3 : MemToken.state),
    p11.GetPublicKey Stub.PublicKey Stub.UnmarshalPubkey 5
      (MemToken.p11Token (Runs.signs Runs.raw_plain)) "clitest" "" st3
      = (Ok (pub, ecpt), MemToken.fresh (Runs.key_pair Runs.pub_G))
    /\ p11.recoverAddress Stub.PublicKey
         (Stub.Ecrecover Runs.recovered0_plain Runs.pub_G) Stub.UnmarshalPubkey
         Stub.PublicKey (fun k => k) Runs.hash0 Runs.sig_plain
       = Ok pub.
Proof.
  assert (H : p11.Sign Stub.PublicKey (Stub.Ecrecover Runs.recovered0_plain Runs.pub_G)
                Stub.UnmarshalPubkey 5 (MemToken.p11Token (Runs.signs Runs.raw_plain))
                "clitest" "" Runs.hash0 (MemToken.fresh (Runs.key_pair Runs.pub_G))
              = (Ok Runs.sig_plain, MemToken.fresh (Runs.key_pair Runs.pub_G)))
    by (vm_compute; reflexivity).
  split; [exact H|].
  exact (Sign_then_recoverAddress _ _ Stub.PublicKey _ _ (fun k => k)
           _ _ _ _ _ _ _ _ H).
Defined.

(* ===================================================================== *)
(** * Further properties: the S of a returned signature *)
(* ===================================================================== *)

Section CanonicalS.

Import pkcs11 p11.

(** No [256^K + 1] with K from 1 to 32 divides the order of the curve. *)
Lemma order_is_no_multiple (K : nat) (m : Z) :
  (1 <= K <= 32)%nat -> m * (256 ^ Z.of_nat K + 1) <> secp256k1N.
Proof.
  intros HK H.
  assert (F : forallb (fun k => negb (secp256k1N mod (256 ^ Z.of_nat k + 1) =? 0))
                (seq 1 32) = true) by (vm_compute; reflexivity).
  rewrite forallb_forall in F.
  assert (Hin : In K (seq 1 32)) by (apply in_seq; lia).
  apply F in Hin. rewrite <- H in Hin.
  pose proof (Z.pow_nonneg 256 (Z.of_nat K)) as Hp.
  rewrite Z.mod_mul in Hin by lia. discriminate Hin.
Qed.

(** A slice without leading zero byte is at least [256^(length - 1)]. *)
Lemma SetBytes_trimmed (b : list byte) :
  Go.trim_zeros b = b -> b <> [] ->
  256 ^ Z.of_nat (length b - 1) <= Go.SetBytes b.
Proof.
  intros Ht Hne. destruct b as [|x t]; [now elim Hne|].
  destruct (trim_zeros_head (x :: t)) as [E|(y & u & E & Hy)].
  - rewrite Ht in E. discriminate E.
  - rewrite Ht in E. inversion E; subst y u.
    rewrite SetBytes_cons.
    replace (length (x :: t) - 1)%nat with (length t) by (cbn [length]; lia).
    pose proof (byte_val_range x) as Hr.
    pose proof (SetBytes_bound t) as Hb.
    assert (Hx : 1 <= Go.byte_val x).
    { destruct (Z.eq_dec (Go.byte_val x) 0) as [E0|E0]; [|lia].
      apply byte_val_x00 in E0. now elim Hy. }
    pose proof (Z.pow_nonneg 256 (Z.of_nat (length t))). nia.
Qed.

(** The number of zero bytes that [fixLen] appends is 0 exactly when the
    integer is at least 2^248. *)
Lemma fixLen_pad (b : list byte) :
  (length b <= 32)%nat ->
  (2 ^ 248 <= Go.SetBytes b -> length (Go.trim_zeros b) = 32%nat) /\
  (Go.SetBytes b < 2 ^ 248 -> (length (Go.trim_zeros b) < 32)%nat).
Proof.
  intros Hl. pose proof (trim_zeros_length b) as Hle. split.
  - intros Hv.
    pose proof (SetBytes_bound (Go.trim_zeros b)) as Hb.
    rewrite SetBytes_trim_zeros in Hb.
    destruct (Nat.eq_dec (length (Go.trim_zeros b)) 32) as [E|E]; [exact E|].
    exfalso.
    assert (Hp : 256 ^ Z.of_nat (length (Go.trim_zeros b)) <= 256 ^ 31)
      by (apply Z.pow_le_mono_r; lia).
    change (256 ^ 31) with (2 ^ 248) in Hp. lia.
  - intros Hv.
    destruct (Nat.eq_dec (length (Go.trim_zeros b)) 32) as [E|E]; [|lia].
    exfalso.
    assert (Ht : Go.trim_zeros (Go.trim_zeros b) = Go.trim_zeros b).
    { destruct (trim_zeros_head b) as [E0|(y & u & E0 & Hy)].
      - now rewrite E0.
      - rewrite E0. destruct y; try reflexivity. now elim Hy. }
    assert (Hne : Go.trim_zeros b <> []) by (intros E0; rewrite E0 in E; discriminate E).
    pose proof (SetBytes_trimmed _ Ht Hne) as Hlow.
    rewrite SetBytes_trim_zeros, E in Hlow.
    change (256 ^ Z.of_nat (32 - 1)) with (2 ^ 248) in Hlow. lia.
Qed.

(** Lines 413-422 of [Sign] on a raw output of 64 bytes. *)
Lemma Sign_sigRS_64 (raw : list byte) :
  length raw = 64%nat ->
  Sign_sigRS raw
  = Some (fixLen (firstn 32 raw)
          ++ fixLen (if Go.SetBytes (skipn 32 raw) >? secp256k1HalfN
                     then Go.Bytes (secp256k1N - Go.SetBytes (skipn 32 raw))
                     else skipn 32 raw)).
Proof.
  intros Hl. destruct (slice_64 raw Hl) as [E1 E2].
  unfold Sign_sigRS. rewrite E1, E2. reflexivity.
Qed.

(** The S that line 418 keeps: the smaller of S and N - S, in 32 bytes at
    most. *)
Lemma normalised_S (raw : list byte) :
  length raw = 64%nat ->
  0 < Go.SetBytes (skipn 32 raw) < secp256k1N ->
  let sigS := if Go.SetBytes (skipn 32 raw) >? secp256k1HalfN
              then Go.Bytes (secp256k1N - Go.SetBytes (skipn 32 raw))
              else skipn 32 raw in
  (length sigS <= 32)%nat
  /\ Go.SetBytes sigS
     = Z.min (Go.SetBytes (skipn 32 raw)) (secp256k1N - Go.SetBytes (skipn 32 raw))
  /\ 0 < Go.SetBytes sigS <= secp256k1HalfN.
Proof.
  intros Hl Hs. cbv zeta.
  assert (HN : secp256k1N = 2 * secp256k1HalfN + 1) by reflexivity.
  assert (HN256 : secp256k1N < 2 ^ 256) by reflexivity.
  destruct (Z.gtb_spec (Go.SetBytes (skipn 32 raw)) secp256k1HalfN) as [Hg|Hg].
  - assert (Habs : Z.abs (secp256k1N - Go.SetBytes (skipn 32 raw))
                   = secp256k1N - Go.SetBytes (skipn 32 raw)) by lia.
    rewrite SetBytes_Bytes, Habs. repeat split; try lia.
    apply Bytes_at_most_32. lia.
  - repeat split; try lia. rewrite length_skipn. lia.
Qed.

Context {T : Type}.
Variable PublicKey : Type.
Variable Ecrecover : list byte -> list byte -> list byte + error.
Variable UnmarshalPubkey : list byte -> PublicKey + error.

(** What the two recoveries of lines 425-446 return. *)
Lemma Sign_recover_returns (hash ecpt rs : list byte) :
  (exists v : byte,
      (v = x00 \/ v = x01)
      /\ Sign_recover Ecrecover hash ecpt rs = Ok (rs ++ [Go.byte_of_Z (Go.byte_val v + 27)])
      /\ Ecrecover hash (rs ++ [v]) = inl ecpt)
  \/ (exists e : error, Sign_recover Ecrecover hash ecpt rs = Err e).
Proof.
  unfold Sign_recover.
  destruct (Ecrecover hash (rs ++ [x00])) as [r0|e0] eqn:E0; [|right; now exists e0].
  destruct (bytes_eqb r0 ecpt) eqn:B0.
  - apply bytes_eqb_eq in B0. subst r0. left. exists x00.
    split; [now left|]. split; [reflexivity|exact E0].
  - destruct (Ecrecover hash (rs ++ [x01])) as [r1|e1] eqn:E1; [|right; now exists e1].
    destruct (bytes_eqb r1 ecpt) eqn:B1.
    + apply bytes_eqb_eq in B1. subst r1. left. exists x01.
      split; [now right|]. split; [reflexivity|exact E1].
    + right. eexists. reflexivity.
Qed.

(** With a genuine recovery, a token that signs with the key it holds and an
    R that fills its 32 bytes: the key is recovered from the bytes that
    [Sign] builds only when the smaller of S and N - S fills its 32 bytes
    too. *)
Lemma genuine_candidate (hash ecpt raw rs : list byte) (v0 v : byte) :
  secp256k1.genuine_recovery Ecrecover hash ->
  length raw = 64%nat ->
  2 ^ 248 <= Go.SetBytes (firstn 32 raw) ->
  (v0 = x00 \/ v0 = x01) ->
  Ecrecover hash (raw ++ [v0]) = inl ecpt ->
  (v = x00 \/ v = x01) ->
  Sign_sigRS raw = Some rs ->
  Ecrecover hash (rs ++ [v]) = inl ecpt ->
  0 < Go.SetBytes (skipn 32 raw) < secp256k1N
  /\ 2 ^ 248 <= Z.min (Go.SetBytes (skipn 32 raw))
                      (secp256k1N - Go.SetBytes (skipn 32 raw)).
Proof.
  intros [Hrange Huniq] Hl Hr Hv0 Hraw Hv Hrs Hcand.
  assert (HR : length (firstn 32 raw) = 32%nat) by (rewrite length_firstn; lia).
  assert (HS : length (skipn 32 raw) = 32%nat) by (rewrite length_skipn; lia).
  assert (Eraw : raw ++ [v0] = firstn 32 raw ++ skipn 32 raw ++ [v0])
    by (now rewrite app_assoc, firstn_skipn).
  rewrite Eraw in Hraw.
  pose proof (Hrange _ _ _ _ HR HS Hraw) as Hs.
  split; [exact Hs|].
  rewrite (Sign_sigRS_64 raw Hl) in Hrs. apply Some_inj in Hrs. subst rs.
  destruct (normalised_S raw Hl Hs) as (Hlen & Hmin & Hpos).
  set (sigS := if Go.SetBytes (skipn 32 raw) >? secp256k1HalfN
               then Go.Bytes (secp256k1N - Go.SetBytes (skipn 32 raw))
               else skipn 32 raw) in *.
  assert (HfR : fixLen (firstn 32 raw) = firstn 32 raw).
  { rewrite fixLen_short by lia. rewrite trim_zeros_large by assumption.
    rewrite HR. apply app_nil_r. }
  rewrite HfR, <- app_assoc in Hcand.
  pose proof (Huniq _ _ _ _ _ _ HR HS (fixLen_length sigS) Hv0 Hv Hraw Hcand) as Hu.
  rewrite (fixLen_value sigS Hlen) in Hu.
  rewrite <- Hmin.
  destruct (Z.le_gt_cases (2 ^ 248) (Go.SetBytes sigS)) as [Hbig|Hsmall]; [exact Hbig|].
  exfalso.
  destruct (fixLen_pad sigS Hlen) as [_ Hpad]. specialize (Hpad Hsmall).
  set (K := (32 - length (Go.trim_zeros sigS))%nat) in *.
  assert (HK : (1 <= K <= 32)%nat) by (unfold K; lia).
  assert (Hc : 256 <= 256 ^ Z.of_nat K).
  { change 256 with (256 ^ 1) at 1. apply Z.pow_le_mono_r; lia. }
  pose proof (order_is_no_multiple K (Go.SetBytes sigS) HK) as Hno.
  destruct (Z.min_spec (Go.SetBytes (skipn 32 raw))
              (secp256k1N - Go.SetBytes (skipn 32 raw))) as [[_ Em]|[_ Em]];
    rewrite <- Hmin in Em; destruct Hu as [Hu|Hu]; first [nia | apply Hno; nia].
Qed.

End CanonicalS.

Section ListedRecovery.

Import pkcs11 p11.

Lemma Listed_found (table : list Listed.entry) (hash sig Q : list byte) :
  Listed.Ecrecover table hash sig = inl Q ->
  exists e : Listed.entry,
    In e table /\ fst (fst e) = hash /\ snd (fst e) = sig /\ snd e = Q.
Proof.
  unfold Listed.Ecrecover.
  destruct (find _ table) as [e|] eqn:E; [|discriminate].
  intros H. apply find_some in E. destruct E as [Hin Ht].
  apply andb_true_iff in Ht. destruct Ht as [H1 H2].
  apply bytes_eqb_eq in H1, H2.
  exists e. repeat split; try assumption. congruence.
Qed.

Lemma Listed_parts (r s : list byte) (v : byte) :
  length r = 32%nat -> length s = 32%nat ->
  Listed.R_of (r ++ s ++ [v]) = r
  /\ Listed.S_of (r ++ s ++ [v]) = Go.SetBytes s
  /\ Go.index (r ++ s ++ [v]) 64 = Some v.
Proof.
  intros Hr Hs. unfold Listed.R_of, Listed.S_of, Go.index. repeat split.
  - rewrite firstn_app, Hr, Nat.sub_diag, firstn_all2 by lia.
    cbn [firstn]. apply app_nil_r.
  - rewrite skipn_app, Hr, Nat.sub_diag, skipn_all2 by lia.
    cbn [skipn app]. rewrite firstn_app, Hs, Nat.sub_diag, firstn_all2 by lia.
    cbn [firstn]. now rewrite app_nil_r.
  - rewrite nth_error_app2 by lia. rewrite Hr.
    rewrite nth_error_app2 by lia. rewrite Hs. reflexivity.
Qed.

(** A table that passes the check recovers genuinely, for every hash. *)
Lemma Listed_genuine (table : list Listed.entry) (hash : list byte) :
  Listed.sound table = true ->
  secp256k1.genuine_recovery (Listed.Ecrecover table) hash.
Proof.
  intros Hsound. unfold Listed.sound in Hsound. rewrite forallb_forall in Hsound.
  split.
  - intros r s v Q Hr Hs H.
    destruct (Listed_found _ _ _ _ H) as (e & Hin & _ & Hsig & _).
    specialize (Hsound e Hin).
    apply andb_true_iff in Hsound. destruct Hsound as [Hsound _].
    apply andb_true_iff in Hsound. destruct Hsound as [H0 HN].
    destruct (Listed_parts r s v Hr Hs) as (_ & ES & _).
    rewrite Hsig, ES in H0, HN.
    apply Z.ltb_lt in H0, HN. split; assumption.
  - intros r s s' v v' Q Hr Hs Hs' Hv Hv' H H'.
    destruct (Listed_found _ _ _ _ H) as (e & Hin & Hh & Hsig & HQ).
    destruct (Listed_found _ _ _ _ H') as (e' & Hin' & Hh' & Hsig' & HQ').
    specialize (Hsound e Hin).
    apply andb_true_iff in Hsound. destruct Hsound as [_ Hall].
    rewrite forallb_forall in Hall. specialize (Hall e' Hin').
    unfold Listed.agree in Hall.
    destruct (Listed_parts r s v Hr Hs) as (ER & ES & EV).
    destruct (Listed_parts r s' v' Hr Hs') as (ER' & ES' & EV').
    unfold Listed.low_id in Hall.
    rewrite Hh, Hh', Hsig, Hsig', HQ, HQ', ER, ER', ES, ES', EV, EV' in Hall.
    rewrite !bytes_eqb_refl in Hall.
    assert (Lv : (Go.byte_val v <? 2) = true) by (destruct Hv as [-> | ->]; reflexivity).
    assert (Lv' : (Go.byte_val v' <? 2) = true) by (destruct Hv' as [-> | ->]; reflexivity).
    rewrite Lv, Lv' in Hall. cbn [andb] in Hall.
    apply orb_true_iff in Hall. destruct Hall as [E|E]; apply Z.eqb_eq in E;
      [now left|now right].
Qed.

End ListedRecovery.

(** X27. Every signature that [Sign] returns is 65 bytes that end in 27 or
    28, and its S, bytes 32-63, is the smaller of the token's S and N - S,
    at most half the order, in each of two cases: when that smaller value
    fills its 32 bytes (it is at least 2^248); and when the recovery is
    genuine, the token's raw output is a signature of the hash under the key
    it holds, and R fills its 32 bytes. The raw outputs in which R and the
    smaller of S and N - S both start with a zero byte are not covered. *)
Theorem Sign_returns_the_low_S :
  forall (T PublicKey : Type)
         (Ecrecover : list byte -> list byte -> list byte + error)
         (UnmarshalPubkey : list byte -> PublicKey + error)
         (fuel : nat) (p : @p11.p11Token T) (label keyid : string)
         (hash raw ecpt sig : list byte) (pub : PublicKey)
         (o : pkcs11.ObjectHandle) (st st1 st2 st3 st' : T),
    p11.resolveUnique fuel p (p11.key_template pkcs11.CKO_PRIVATE_KEY label keyid) st
      = (Ok o, st1) ->
    pkcs11.SignInit (p11.ctx p) (p11.session p)
      [pkcs11.NewMechanism pkcs11.CKM_ECDSA []] o st1 = (None, st2) ->
    pkcs11.Sign (p11.ctx p) (p11.session p) hash st2 = ((raw, None), st3) ->
    p11.GetPublicKey PublicKey UnmarshalPubkey fuel p label keyid st3
      = (Ok (pub, ecpt), st') ->
    length raw = 64%nat ->
    (2 ^ 248 <= Z.min (Go.SetBytes (skipn 32 raw))
                      (p11.secp256k1N - Go.SetBytes (skipn 32 raw))
     \/ (2 ^ 248 <= Go.SetBytes (firstn 32 raw)
         /\ secp256k1.genuine_recovery Ecrecover hash
         /\ exists v0 : byte,
              (v0 = x00 \/ v0 = x01) /\ Ecrecover hash (raw ++ [v0]) = inl ecpt)) ->
    p11.Sign PublicKey Ecrecover UnmarshalPubkey fuel p label keyid hash st
      = (Ok sig, st') ->
    length sig = 65%nat
    /\ (Go.index sig 64 = Some x1b \/ Go.index sig 64 = Some x1c)
    /\ Go.SetBytes (firstn 32 (skipn 32 sig))
       = Z.min (Go.SetBytes (skipn 32 raw))
               (p11.secp256k1N - Go.SetBytes (skipn 32 raw))
    /\ Go.SetBytes (firstn 32 (skipn 32 sig)) <= p11.secp256k1HalfN.
Proof.
  intros T PublicKey Ecrecover UnmarshalPubkey fuel p label keyid hash raw ecpt sig pub
         o st st1 st2 st3 st' H1 H2 H3 H4 Hl Hcond H.
  pose proof (Sign_sigRS_64 raw Hl) as Hrs.
  remember (p11.fixLen (firstn 32 raw)) as outR eqn:EoutR.
  remember (p11.fixLen
              (if Go.SetBytes (skipn 32 raw) >? p11.secp256k1HalfN
               then Go.Bytes (p11.secp256k1N - Go.SetBytes (skipn 32 raw))
               else skipn 32 raw)) as outS eqn:EoutS.
  rewrite (Sign_run PublicKey Ecrecover UnmarshalPubkey _ _ _ _ _ _ _ _ _ _ _ _ _ _ _
             H1 H2 H3 H4 Hrs) in H.
  assert (Hrec : p11.Sign_recover Ecrecover hash ecpt (outR ++ outS) = Ok sig)
    by exact (f_equal fst H).
  assert (HoutR : length outR = 32%nat) by (rewrite EoutR; apply fixLen_length).
  assert (HoutS : length outS = 32%nat) by (rewrite EoutS; apply fixLen_length).
  destruct (Sign_recover_returns Ecrecover hash ecpt (outR ++ outS))
    as [(v & Hv & Eok & Ecand)|(e & Eerr)]; [|rewrite Eerr in Hrec; discriminate Hrec].
  rewrite Eok in Hrec.
  assert (Esig : sig = (outR ++ outS) ++ [Go.byte_of_Z (Go.byte_val v + 27)])
    by (inversion Hrec; reflexivity).
  assert (Hrange : 0 < Go.SetBytes (skipn 32 raw) < p11.secp256k1N
                   /\ 2 ^ 248 <= Z.min (Go.SetBytes (skipn 32 raw))
                                       (p11.secp256k1N - Go.SetBytes (skipn 32 raw))).
  { destruct Hcond as [Hbig|(Hr & Hgen & v0 & Hv0 & Hraw)].
    - split; [|exact Hbig].
      assert (HN256 : p11.secp256k1N < 2 ^ 256) by reflexivity. lia.
    - pose proof Hrs as Hrs'. pose proof Ecand as Ecand'.
      rewrite EoutR, EoutS in Hrs', Ecand'.
      exact (genuine_candidate Ecrecover hash ecpt raw _ v0 v Hgen Hl Hr Hv0 Hraw Hv
               Hrs' Ecand'). }
  destruct Hrange as [Hs Hbig].
  destruct (normalised_S raw Hl Hs) as (Hlen & Hmin & Hpos).
  assert (Hval : Go.SetBytes outS
                 = Z.min (Go.SetBytes (skipn 32 raw))
                         (p11.secp256k1N - Go.SetBytes (skipn 32 raw))).
  { rewrite EoutS, (fixLen_value _ Hlen).
    destruct (fixLen_pad _ Hlen) as [Hpad _].
    rewrite Hpad by (rewrite Hmin; exact Hbig).
    rewrite Hmin. change (256 ^ Z.of_nat (32 - 32)) with 1. lia. }
  assert (EfS : firstn 32 (skipn 32 sig) = outS).
  { rewrite Esig, <- !app_assoc.
    rewrite skipn_app, HoutR, Nat.sub_diag, skipn_all2 by lia.
    cbn [skipn app]. rewrite firstn_app, HoutS, Nat.sub_diag, firstn_all2 by lia.
    cbn [firstn]. apply app_nil_r. }
  rewrite EfS, Hval.
  split; [|split; [|split; [reflexivity|]]].
  - rewrite Esig, !length_app, HoutR, HoutS. reflexivity.
  - rewrite Esig. unfold Go.index.
    rewrite nth_error_app2 by (rewrite length_app; lia).
    rewrite length_app, HoutR, HoutS.
    destruct Hv as [-> | ->]; [left|right]; reflexivity.
  - rewrite <- Hmin. lia.
Qed.

(** The token with the key pair [clitest] of the private key 1, which signs
    [hash0] with the nonce 1, and the recoveries of the table. *)
Lemma Sign_returns_the_low_S_witness :
  p11.Sign Stub.PublicKey (Listed.Ecrecover Runs.recoveries) Stub.UnmarshalPubkey
    5 (MemToken.p11Token (Runs.signs Runs.raw_plain)) "clitest" "" Runs.hash0
    (MemToken.fresh (Runs.key_pair Runs.pub_G))
  = (Ok Runs.sig_plain, MemToken.fresh (Runs.key_pair Runs.pub_G))
  /\ length Runs.sig_plain = 65%nat
  /\ (Go.index Runs.sig_plain 64 = Some x1b \/ Go.index Runs.sig_plain 64 = Some x1c)
  /\ Go.SetBytes (firstn 32 (skipn 32 Runs.sig_plain))
     = Z.min (Go.SetBytes (skipn 32 Runs.raw_plain))
             (p11.secp256k1N - Go.SetBytes (skipn 32 Runs.raw_plain))
  /\ Go.SetBytes (firstn 32 (skipn 32 Runs.sig_plain)) <= p11.secp256k1HalfN.
Proof.
  assert (H : p11.Sign Stub.PublicKey (Listed.Ecrecover Runs.recoveries)
                Stub.UnmarshalPubkey 5 (MemToken.p11Token (Runs.signs Runs.raw_plain))
                "clitest" "" Runs.hash0 (MemToken.fresh (Runs.key_pair Runs.pub_G))
              = (Ok Runs.sig_plain, MemToken.fresh (Runs.key_pair Runs.pub_G)))
    by (vm_compute; reflexivity).
  split; [exact H|].
  refine (Sign_returns_the_low_S MemToken.state Stub.PublicKey
            (Listed.Ecrecover Runs.recoveries) Stub.UnmarshalPubkey
            5 (MemToken.p11Token (Runs.signs Runs.raw_plain)) "clitest" "" Runs.hash0
            Runs.raw_plain Runs.pub_G Runs.sig_plain
            (firstn 32 (skipn 1 Runs.pub_G), skipn 33 Runs.pub_G) 1
            (MemToken.fresh (Runs.key_pair Runs.pub_G))
            (MemToken.fresh (Runs.key_pair Runs.pub_G))
            (MemToken.with_signing (MemToken.fresh (Runs.key_pair Runs.pub_G)) (Some 1))
            (MemToken.fresh (Runs.key_pair Runs.pub_G))
            (MemToken.fresh (Runs.key_pair Runs.pub_G))
            _ _ _ _ _ _ H).
  - vm_compute. reflexivity.
  - vm_compute. reflexivity.
  - vm_compute. reflexivity.
  - vm_compute. reflexivity.
  - reflexivity.
  - right. split; [vm_compute; discriminate|]. split.
    + apply Listed_genuine. vm_compute. reflexivity.
    + exists x00. split; [now left|vm_compute; reflexivity].
Defined.

(** X28. With a genuine recovery and a token whose raw output is a
    signature of the hash under the key it holds: when R fills its 32 bytes
    and the smaller of S and N - S starts with a zero byte (it is below
    2^248), [Sign] returns no signature but an error. The zero bytes that
    [fixLen] writes after S make of it another S, from which the key is not
    recovered. *)
Theorem Sign_fails_on_a_genuine_short_S :
  forall (T PublicKey : Type)
         (Ecrecover : list byte -> list byte -> list byte + error)
         (UnmarshalPubkey : list byte -> PublicKey + error)
         (fuel : nat) (p : @p11.p11Token T) (label keyid : string)
         (hash raw ecpt : list byte) (pub : PublicKey) (v0 : byte)
         (o : pkcs11.ObjectHandle) (st st1 st2 st3 st' : T),
    p11.resolveUnique fuel p (p11.key_template pkcs11.CKO_PRIVATE_KEY label keyid) st
      = (Ok o, st1) ->
    pkcs11.SignInit (p11.ctx p) (p11.session p)
      [pkcs11.NewMechanism pkcs11.CKM_ECDSA []] o st1 = (None, st2) ->
    pkcs11.Sign (p11.ctx p) (p11.session p) hash st2 = ((raw, None), st3) ->
    p11.GetPublicKey PublicKey UnmarshalPubkey fuel p label keyid st3
      = (Ok (pub, ecpt), st') ->
    length raw = 64%nat ->
    secp256k1.genuine_recovery Ecrecover hash ->
    (v0 = x00 \/ v0 = x01) ->
    Ecrecover hash (raw ++ [v0]) = inl ecpt ->
    2 ^ 248 <= Go.SetBytes (firstn 32 raw) ->
    Z.min (Go.SetBytes (skipn 32 raw)) (p11.secp256k1N - Go.SetBytes (skipn 32 raw))
      < 2 ^ 248 ->
    exists e : error,
      p11.Sign PublicKey Ecrecover UnmarshalPubkey fuel p label keyid hash st
      = (Err e, st').
Proof.
  intros T PublicKey Ecrecover UnmarshalPubkey fuel p label keyid hash raw ecpt pub v0
         o st st1 st2 st3 st' H1 H2 H3 H4 Hl Hgen Hv0 Hraw Hr Hshort.
  pose proof (Sign_sigRS_64 raw Hl) as Hrs.
  rewrite (Sign_run PublicKey Ecrecover UnmarshalPubkey _ _ _ _ _ _ _ _ _ _ _ _ _ _ _
             H1 H2 H3 H4 Hrs).
  destruct (Sign_recover_returns Ecrecover hash ecpt
              (p11.fixLen (firstn 32 raw)
               ++ p11.fixLen
                    (if Go.SetBytes (skipn 32 raw) >? p11.secp256k1HalfN
                     then Go.Bytes (p11.secp256k1N - Go.SetBytes (skipn 32 raw))
                     else skipn 32 raw)))
    as [(v & Hv & _ & Ecand)|(e & Eerr)].
  - exfalso.
    destruct (genuine_candidate Ecrecover hash ecpt raw _ v0 v Hgen Hl Hr Hv0 Hraw Hv
                Hrs Ecand) as [_ Hbig].
    lia.
  - exists e. now rewrite Eerr.
Qed.

(** The token with the key pair [clitest] of the private key 1, which signs
    [hash0] with the nonce 25: the S of its signature starts with a zero
    byte. *)
Lemma Sign_fails_on_a_genuine_short_S_witness :
  exists e : error,
    p11.Sign Stub.PublicKey (Listed.Ecrecover Runs.recoveries) Stub.UnmarshalPubkey
      5 (MemToken.p11Token (Runs.signs Runs.raw_nonce25)) "clitest" "" Runs.hash0
      (MemToken.fresh (Runs.key_pair Runs.pub_G))
    = (Err e, MemToken.fresh (Runs.key_pair Runs.pub_G)).
Proof.
  refine (Sign_fails_on_a_genuine_short_S MemToken.state Stub.PublicKey
            (Listed.Ecrecover Runs.recoveries) Stub.UnmarshalPubkey
            5 (MemToken.p11Token (Runs.signs Runs.raw_nonce25)) "clitest" "" Runs.hash0
            Runs.raw_nonce25 Runs.pub_G
            (firstn 32 (skipn 1 Runs.pub_G), skipn 33 Runs.pub_G) x00 1
            (MemToken.fresh (Runs.key_pair Runs.pub_G))
            (MemToken.fresh (Runs.key_pair Runs.pub_G))
            (MemToken.with_signing (MemToken.fresh (Runs.key_pair Runs.pub_G)) (Some 1))
            (MemToken.fresh (Runs.key_pair Runs.pub_G))
            (MemToken.fresh (Runs.key_pair Runs.pub_G))
            _ _ _ _ _ _ _ _ _ _).
  - vm_compute. reflexivity.
  - vm_compute. reflexivity.
  - vm_compute. reflexivity.
  - vm_compute. reflexivity.
  - reflexivity.
  - apply Listed_genuine. vm_compute. reflexivity.
  - now left.
  - vm_compute. reflexivity.
  - vm_compute. discriminate.
  - vm_compute. reflexivity.
Defined.

(** The same run: the bytes that [Sign] builds are [Runs.padded_nonce25],
    the key is recovered from them with neither recovery id, and the error
    is the one of line 446. *)
Example Sign_nonce25 :
  p11.Sign_sigRS Runs.raw_nonce25 = Some Runs.padded_nonce25
  /\ p11.Sign Stub.PublicKey (Listed.Ecrecover Runs.recoveries) Stub.UnmarshalPubkey
       5 (MemToken.p11Token (Runs.signs Runs.raw_nonce25)) "clitest" "" Runs.hash0
       (MemToken.fresh (Runs.key_pair Runs.pub_G))
     = (Err (errors_New "Could not generate a valid signature"),
        MemToken.fresh (Runs.key_pair Runs.pub_G)).
Proof. split; vm_compute; reflexivity. Qed.
